(** * YATWA backend: a shallow embedding of the iCal service and of the
      code around it

    The development follows the TypeScript source of [ICalService]
    (calendar generation, statistics and validation of a document), of
    the request validation ([ValidationService]), the hash service, the
    feed and event routes, the router, the grouping of events by month
    and the CORS and rate-limit module, together with the parts of the
    JavaScript runtime this code calls: string methods, regular
    expressions, the [Date] object of ECMAScript and property lookup on
    object literals.

    JavaScript strings are sequences of code units; they are modelled by
    [string], whose characters stand for the code units.  The characters
    the code inspects (backslash, semicolon, comma, dash, slash, colon,
    digits, letters, white space, line feed, carriage return) are code
    units below 256. *)

From Stdlib Require Import ZArith List String Ascii Bool Lia DecimalString.
From Stdlib Require Import Sorted Permutation.
From Stdlib Require Decimal DecimalZ DecimalPos.
Import ListNotations.

Local Open Scope string_scope.
Local Open Scope Z_scope.

(* ================================================================== *)
(** ** JavaScript strings *)
(* ================================================================== *)

Module JSString.

Definition LF : ascii := "010"%char.
Definition CR : ascii := "013"%char.
Definition backslash : ascii := "\"%char.
Definition CRLF : string := String CR (String LF "").

(** [s.replace(/c/g, rep)] for a pattern that is one literal character. *)
Fixpoint replaceAll (c : ascii) (rep : string) (s : string) : string :=
  match s with
  | EmptyString => EmptyString
  | String a s' =>
      if Ascii.eqb a c then rep ++ replaceAll c rep s'
      else String a (replaceAll c rep s')
  end.

(** [s.substring(0, n)]. *)
Definition substring0 (n : nat) (s : string) : string := substring 0 n s.

(** [s.includes(pat)]: [pat] starts at some position of [s]. *)
Fixpoint includes (pat s : string) : bool :=
  match s with
  | EmptyString => prefix pat EmptyString
  | String _ s' => prefix pat s || includes pat s'
  end.

(** [(s.match(/pat/g) || []).length] for a literal, non-empty pattern:
    the scan goes left to right and resumes after each match, so matches
    do not overlap.  [skip] is the number of characters still covered by
    the last match. *)
Fixpoint matchCountFrom (pat : string) (skip : nat) (s : string) : nat :=
  match s with
  | EmptyString => O
  | String _ s' =>
      match skip with
      | S k => matchCountFrom pat k s'
      | O =>
          if prefix pat s
          then S (matchCountFrom pat (Nat.pred (String.length pat)) s')
          else matchCountFrom pat O s'
      end
  end.

Definition matchCount (pat s : string) : nat := matchCountFrom pat O s.

(** [s.split(c)] for a separator that is one character. *)
Fixpoint split (c : ascii) (s : string) : list string :=
  match s with
  | EmptyString => [EmptyString]
  | String a s' =>
      if Ascii.eqb a c then EmptyString :: split c s'
      else match split c s' with
           | [] => [String a EmptyString]
           | l :: ls => String a l :: ls
           end
  end.

(** [lines.join(sep)]. *)
Definition join (sep : string) (lines : list string) : string :=
  String.concat sep lines.

(** [s.padStart(2, '0')]. *)
Definition padStart2 (s : string) : string :=
  match s with
  | EmptyString => "00"
  | String a EmptyString => String "0"%char s
  | _ => s
  end.

(** [s.padStart(n, '0')] in general. *)
Fixpoint zeros (n : nat) : string :=
  match n with O => EmptyString | S k => String "0"%char (zeros k) end.

Definition padStart0 (n : nat) (s : string) : string :=
  zeros (n - String.length s) ++ s.

(** [String(n)] for an integral number. *)
Definition ofZ (n : Z) : string := NilZero.string_of_int (Z.to_int n).

(** A number that may be [NaN]. *)
Definition ofNumber (n : option Z) : string :=
  match n with Some z => ofZ z | None => "NaN" end.

(** Comparison of strings by code units, as [<], [>=] do. *)
Definition geb (a b : string) : bool :=
  match String.compare a b with Lt => false | _ => true end.

(** Truthiness of a string value: only the empty string is falsy. *)
Definition truthy (s : string) : bool :=
  match s with EmptyString => false | _ => true end.

End JSString.

(* ================================================================== *)
(** ** Escaping of free text (the service's [escapeText]) *)
(* ================================================================== *)

Import JSString.

Definition escapeText (text : string) : string :=
  substring0 1000
    (replaceAll CR ""
       (replaceAll LF (String backslash "n")
          (replaceAll ","%char (String backslash ",")
             (replaceAll ";"%char (String backslash ";")
                (replaceAll backslash (String backslash (String backslash ""))
                   text))))).

(* ================================================================== *)
(** ** The ECMAScript [Date] object *)
(* ================================================================== *)

(** What the service takes from its host: the local time zone adjustment
    [LocalTZA(t, isUTC)] in milliseconds, the implementation-defined part
    of [Date.parse] (strings outside the ISO forms below), and the
    environment variable [APP_URL]. *)
Record Host : Type := mkHost {
  LocalTZA : Z -> bool -> Z;
  parseLegacy : string -> option Z;
  APP_URL : option string
}.

Module JSDate.

(** A time value: milliseconds since the epoch, or [None] for [NaN]
    (an invalid date). *)
Definition t : Type := option Z.

Definition msPerDay : Z := 86400000.
Definition msPerHour : Z := 3600000.
Definition msPerMinute : Z := 60000.
Definition msPerSecond : Z := 1000.

Definition Day (tv : Z) : Z := tv / msPerDay.
Definition TimeWithinDay (tv : Z) : Z := tv mod msPerDay.

Definition isLeap (y : Z) : bool :=
  ((y mod 4 =? 0) && negb (y mod 100 =? 0)) || (y mod 400 =? 0).

Definition DaysInYear (y : Z) : Z := if isLeap y then 366 else 365.

Definition DayFromYear (y : Z) : Z :=
  365 * (y - 1970) + (y - 1969) / 4 - (y - 1901) / 100 + (y - 1601) / 400.

(** The largest year [y] with [DayFromYear y <= d]: an estimate from the
    mean length of a year, corrected by at most one. *)
Definition YearFromDay (d : Z) : Z :=
  let y0 := 1970 + (400 * d) / 146097 in
  if d <? DayFromYear y0 then y0 - 1
  else if DayFromYear (y0 + 1) <=? d then y0 + 1
  else y0.

Definition YearFromTime (tv : Z) : Z := YearFromDay (Day tv).
Definition DayWithinYear (tv : Z) : Z := Day tv - DayFromYear (YearFromTime tv).
Definition InLeapYear (tv : Z) : Z := if isLeap (YearFromTime tv) then 1 else 0.

(** Month number, 0 for January to 11 for December. *)
Definition MonthFromTime (tv : Z) : Z :=
  let d := DayWithinYear tv in
  let l := InLeapYear tv in
  if d <? 31 then 0
  else if d <? 59 + l then 1
  else if d <? 90 + l then 2
  else if d <? 120 + l then 3
  else if d <? 151 + l then 4
  else if d <? 181 + l then 5
  else if d <? 212 + l then 6
  else if d <? 243 + l then 7
  else if d <? 273 + l then 8
  else if d <? 304 + l then 9
  else if d <? 334 + l then 10
  else 11.

(** Day of the month, from 1. *)
Definition DateFromTime (tv : Z) : Z :=
  let d := DayWithinYear tv in
  let l := InLeapYear tv in
  match MonthFromTime tv with
  | 0 => d + 1
  | 1 => d - 30
  | 2 => d - 58 - l
  | 3 => d - 89 - l
  | 4 => d - 119 - l
  | 5 => d - 150 - l
  | 6 => d - 180 - l
  | 7 => d - 211 - l
  | 8 => d - 242 - l
  | 9 => d - 272 - l
  | 10 => d - 303 - l
  | _ => d - 333 - l
  end.

Definition HourFromTime (tv : Z) : Z := (tv / msPerHour) mod 24.
Definition MinFromTime (tv : Z) : Z := (tv / msPerMinute) mod 60.
Definition SecFromTime (tv : Z) : Z := (tv / msPerSecond) mod 60.
Definition msFromTime (tv : Z) : Z := tv mod msPerSecond.

Definition MakeTime (h m s ms : Z) : Z :=
  h * msPerHour + m * msPerMinute + s * msPerSecond + ms.

(** First day of month [mn] (0 to 11) within a year, [l] being 1 in a
    leap year. *)
Definition monthStart (mn l : Z) : Z :=
  match mn with
  | 0 => 0
  | 1 => 31
  | 2 => 59 + l
  | 3 => 90 + l
  | 4 => 120 + l
  | 5 => 151 + l
  | 6 => 181 + l
  | 7 => 212 + l
  | 8 => 243 + l
  | 9 => 273 + l
  | 10 => 304 + l
  | _ => 334 + l
  end.

Definition MakeDay (year month date : Z) : Z :=
  let ym := year + month / 12 in
  let mn := month mod 12 in
  DayFromYear ym + monthStart mn (if isLeap ym then 1 else 0) + date - 1.

Definition MakeDate (day time : Z) : Z := day * msPerDay + time.

Definition TimeClip (tv : Z) : t :=
  if Z.abs tv <=? 8640000000000000 then Some tv else None.

Section WithHost.
Variable host : Host.

Definition LocalTime (tv : Z) : Z := tv + LocalTZA host tv true.
Definition UTC (tv : Z) : Z := tv - LocalTZA host tv false.

Definition getFullYear (d : t) : option Z :=
  option_map (fun tv => YearFromTime (LocalTime tv)) d.
Definition getMonth (d : t) : option Z :=
  option_map (fun tv => MonthFromTime (LocalTime tv)) d.
Definition getDate (d : t) : option Z :=
  option_map (fun tv => DateFromTime (LocalTime tv)) d.
Definition getHours (d : t) : option Z :=
  option_map (fun tv => HourFromTime (LocalTime tv)) d.
Definition getMinutes (d : t) : option Z :=
  option_map (fun tv => MinFromTime (LocalTime tv)) d.
Definition getSeconds (d : t) : option Z :=
  option_map (fun tv => SecFromTime (LocalTime tv)) d.
Definition getUTCDate (d : t) : option Z :=
  option_map DateFromTime d.

(** [d.setDate(dt)]; a [NaN] argument or receiver gives [NaN]. *)
Definition setDate (d : t) (dt : option Z) : t :=
  match d, dt with
  | Some tv, Some n =>
      let lt := LocalTime tv in
      TimeClip (UTC (MakeDate (MakeDay (YearFromTime lt) (MonthFromTime lt) n)
                              (TimeWithinDay lt)))
  | _, _ => None
  end.

(** [d.setUTCDate(dt)]. *)
Definition setUTCDate (d : t) (dt : option Z) : t :=
  match d, dt with
  | Some tv, Some n =>
      TimeClip (MakeDate (MakeDay (YearFromTime tv) (MonthFromTime tv) n)
                         (TimeWithinDay tv))
  | _, _ => None
  end.

(** [new Date(d.getTime() + ms)]. *)
Definition addMillis (d : t) (ms : Z) : t :=
  match d with Some tv => TimeClip (tv + ms) | None => None end.
End WithHost.

End JSDate.

(** The result of a call that may throw. *)
Inductive Completion (A : Type) : Type :=
| Normal (a : A)
| Throw (err : string).
Arguments Normal {A} a.
Arguments Throw {A} err.

Definition bind {A B : Type} (c : Completion A) (k : A -> Completion B)
  : Completion B :=
  match c with Normal a => k a | Throw e => Throw e end.

Notation "x <- c ;; k" := (bind c (fun x => k))
  (at level 61, c at next level, right associativity).

Module JSDateText.
Import JSDate.

Definition digit (c : ascii) : option Z :=
  let n := Z.of_nat (nat_of_ascii c) in
  if (48 <=? n) && (n <=? 57) then Some (n - 48) else None.

Definition digits2 (a b : ascii) : option Z :=
  match digit a, digit b with
  | Some x, Some y => Some (10 * x + y)
  | _, _ => None
  end.

Definition digits3 (a b c : ascii) : option Z :=
  match digit a, digits2 b c with
  | Some x, Some y => Some (100 * x + y)
  | _, _ => None
  end.

Definition digits4 (a b c d : ascii) : option Z :=
  match digits2 a b, digits2 c d with
  | Some x, Some y => Some (100 * x + y)
  | _, _ => None
  end.

(** Days of month [m] (1 to 12) of year [y]. *)
Definition DaysInMonth (y m : Z) : Z :=
  match m with
  | 2 => if isLeap y then 29 else 28
  | 4 | 6 | 9 | 11 => 30
  | _ => 31
  end.

Definition validDate (y m d : Z) : bool :=
  (1 <=? m) && (m <=? 12) && (1 <=? d) && (d <=? DaysInMonth y m).

(** Reads [YYYY-MM-DD] at the head of a string. *)
Definition readDate (s : string) : option (Z * Z * Z * string) :=
  match s with
  | String y1 (String y2 (String y3 (String y4 (String sep1 (String m1
      (String m2 (String sep2 (String d1 (String d2 rest))))))))) =>
      if Ascii.eqb sep1 "-" && Ascii.eqb sep2 "-" then
        match digits4 y1 y2 y3 y4, digits2 m1 m2, digits2 d1 d2 with
        | Some y, Some m, Some d => Some (y, m, d, rest)
        | _, _, _ => None
        end
      else None
  | _ => None
  end.

(** Reads [.sss] when it is there. *)
Definition readMillis (s : string) : option (Z * string) :=
  match s with
  | String dot (String f1 (String f2 (String f3 rest))) =>
      if Ascii.eqb dot "." then
        match digits3 f1 f2 f3 with
        | Some ms => Some (ms, rest)
        | None => None
        end
      else Some (0, s)
  | _ => Some (0, s)
  end.

(** Reads [:ss] or [:ss.sss] when it is there. *)
Definition readSeconds (s : string) : option (Z * Z * string) :=
  match s with
  | String colon (String s1 (String s2 rest)) =>
      if Ascii.eqb colon ":" then
        match digits2 s1 s2 with
        | Some sec =>
            if sec <=? 59 then
              match readMillis rest with
              | Some (ms, rest') => Some (sec, ms, rest')
              | None => None
              end
            else None
        | None => None
        end
      else Some (0, 0, s)
  | _ => Some (0, 0, s)
  end.

(** Reads [HH:mm], [HH:mm:ss] or [HH:mm:ss.sss] at the head of a string
    and gives the time within the day. *)
Definition readTime (s : string) : option (Z * string) :=
  match s with
  | String h1 (String h2 (String colon (String n1 (String n2 rest)))) =>
      if Ascii.eqb colon ":" then
        match digits2 h1 h2, digits2 n1 n2 with
        | Some h, Some m =>
            if (h <=? 23) && (m <=? 59) then
              match readSeconds rest with
              | Some (sec, ms, rest') => Some (MakeTime h m sec ms, rest')
              | None => None
              end
            else None
        | _, _ => None
        end
      else None
  | _ => None
  end.

Section WithHost.
Variable host : Host.

(** The ISO forms of the date-time string format: a date alone is UTC,
    a date and time without offset is local time, [Z] marks UTC. *)
Definition parseISO (s : string) : option Z :=
  match readDate s with
  | Some (y, m, d, rest) =>
      if validDate y m d then
        let day := MakeDay y (m - 1) d in
        match rest with
        | EmptyString => Some (MakeDate day 0)
        | String sep rest' =>
            if Ascii.eqb sep "T" then
              match readTime rest' with
              | Some (tm, tail) =>
                  if String.eqb tail "" then Some (UTC host (MakeDate day tm))
                  else if String.eqb tail "Z" then Some (MakeDate day tm)
                  else None
              | None => None
              end
            else None
        end
      else None
  | None => None
  end.

(** [new Date(s)] for a string [s]; what is not of the ISO forms above is
    left to the host. *)
Definition ofString (s : string) : JSDate.t :=
  match parseISO s with
  | Some tv => TimeClip tv
  | None =>
      match parseLegacy host s with
      | Some tv => TimeClip tv
      | None => None
      end
  end.
End WithHost.

(** The year of [toISOString]: four digits from 0 to 9999, otherwise a
    sign and six digits. *)
Definition isoYear (y : Z) : string :=
  if (0 <=? y) && (y <=? 9999) then padStart0 4 (ofZ y)
  else (if y <? 0 then "-" else "+") ++ padStart0 6 (ofZ (Z.abs y)).

(** [d.toISOString()], which throws a [RangeError] on an invalid date. *)
Definition toISOString (d : JSDate.t) : Completion string :=
  match d with
  | None => Throw "RangeError: Invalid time value"
  | Some tv =>
      Normal (isoYear (YearFromTime tv) ++ "-"
              ++ padStart0 2 (ofZ (MonthFromTime tv + 1)) ++ "-"
              ++ padStart0 2 (ofZ (DateFromTime tv)) ++ "T"
              ++ padStart0 2 (ofZ (HourFromTime tv)) ++ ":"
              ++ padStart0 2 (ofZ (MinFromTime tv)) ++ ":"
              ++ padStart0 2 (ofZ (SecFromTime tv)) ++ "."
              ++ padStart0 3 (ofZ (msFromTime tv)) ++ "Z")
  end.

End JSDateText.

(* ================================================================== *)
(** ** Values and object literals *)
(* ================================================================== *)

(** The values a property lookup on an object literal of strings can
    give: a string, [undefined], or what the literal inherits from
    [Object.prototype] (its built-in functions, and the prototype object
    itself under the key [__proto__]). *)
Inductive JSValue : Type :=
| VUndefined
| VString (s : string)
| VNativeFunction (name : string)
| VObjectPrototype.

Module JSObject.

Definition prototypeFunctions : list string :=
  [ "hasOwnProperty"; "isPrototypeOf"; "propertyIsEnumerable";
    "toLocaleString"; "toString"; "valueOf";
    "__defineGetter__"; "__defineSetter__";
    "__lookupGetter__"; "__lookupSetter__" ].

(** [Object.prototype[key]]. *)
Definition prototypeGet (key : string) : JSValue :=
  if String.eqb key "constructor" then VNativeFunction "Object"
  else if String.eqb key "__proto__" then VObjectPrototype
  else if existsb (String.eqb key) prototypeFunctions then VNativeFunction key
  else VUndefined.

Fixpoint ownGet {A : Type} (props : list (string * A)) (key : string)
  : option A :=
  match props with
  | [] => None
  | (k, v) :: rest => if String.eqb k key then Some v else ownGet rest key
  end.

(** [obj[key]] on an object literal [{k1: s1, ...}]: own properties
    first, then the prototype chain. *)
Definition get (props : list (string * string)) (key : string) : JSValue :=
  match ownGet props key with
  | Some s => VString s
  | None => prototypeGet key
  end.

(** [ToBoolean]. *)
Definition truthy (v : JSValue) : bool :=
  match v with
  | VUndefined => false
  | VString s => JSString.truthy s
  | _ => true
  end.

(** [ToString], as a template literal or a property key applies it.
    The text of a built-in function is the one of JavaScriptCore, the
    engine of the Bun runtime the backend is built for. *)
Definition toString (v : JSValue) : string :=
  match v with
  | VUndefined => "undefined"
  | VString s => s
  | VNativeFunction name =>
      "function " ++ name ++ "() {" ++ String LF "    [native code]"
      ++ String LF "}"
  | VObjectPrototype => "[object Object]"
  end.

(** [obj[key] = v] on own properties: an existing key keeps its place,
    a new key goes last. *)
Fixpoint set {A : Type} (props : list (string * A)) (key : string) (v : A)
  : list (string * A) :=
  match props with
  | [] => [(key, v)]
  | (k, w) :: rest =>
      if String.eqb k key then (k, v) :: rest else (k, w) :: set rest key v
  end.

End JSObject.

(* ================================================================== *)
(** ** The event model ([models/Event.ts]) *)
(* ================================================================== *)

(** [event_date] is declared a string ([YYYY-MM-DD]); the service also
    accepts a [Date] object there and tests for it with [instanceof]. *)
Inductive DateInput : Type :=
| DateString (s : string)
| DateObject (d : JSDate.t).

Record Event : Type := mkEvent {
  id : Z;
  user_hash : string;
  title : string;
  event_date : DateInput;
  event_time : option string;        (* [null] for an all-day event *)
  icon : string;
  description : option string;
  created_at : JSDate.t;
  updated_at : JSDate.t
}.

(* ================================================================== *)
(** ** The iCal service ([services/ical.ts]) *)
(* ================================================================== *)

(** A configuration value is a string, or [undefined] when the caller
    passed the property with that value. *)
Record ICalConfig : Type := mkConfig {
  prodId : option string;
  calName : option string;
  calDescription : option string;
  timezone : option string;
  url : option string
}.

(** [Partial<ICalConfig>]: each property is absent ([None]) or present
    with a value. *)
Record PartialICalConfig : Type := mkPartial {
  custom_prodId : option (option string);
  custom_calName : option (option string);
  custom_calDescription : option (option string);
  custom_timezone : option (option string);
  custom_url : option (option string)
}.

Definition noCustom : PartialICalConfig := mkPartial None None None None None.

(** One property of [{ ...defaults, ...customConfig }]: a property that is
    present in [customConfig] wins, whatever its value. *)
Definition spread (default : string) (custom : option (option string))
  : option string :=
  match custom with
  | Some v => v
  | None => Some default
  end.

(** [a || b] on strings that may be [undefined]. *)
Definition orElse (a : option string) (b : string) : string :=
  match a with
  | Some s => if JSString.truthy s then s else b
  | None => b
  end.

Definition constructor (host : Host) (customConfig : option PartialICalConfig)
  : ICalConfig :=
  let c := match customConfig with Some c => c | None => noCustom end in
  mkConfig
    (spread "-//YATWA//Yet Another Trash Web App//EN" (custom_prodId c))
    (spread "YATWA Calendar" (custom_calName c))
    (spread "Personal calendar from YATWA - Yet Another Trash Web App"
            (custom_calDescription c))
    (spread "Europe/Berlin" (custom_timezone c))
    (spread (orElse (APP_URL host) "http://localhost") (custom_url c)).

(** [new ICalService(customConfig)]: the constructor body has no [throw]
    and calls nothing that throws, so the completion is always normal. *)
Definition newICalService (host : Host) (customConfig : option PartialICalConfig)
  : Completion ICalConfig :=
  Normal (constructor host customConfig).

(** A configuration value inside a template literal. *)
Definition show (v : option string) : string :=
  match v with Some s => s | None => "undefined" end.

Definition generateTimezone : list string :=
  [ "BEGIN:VTIMEZONE";
    "TZID:Europe/Berlin";
    "BEGIN:DAYLIGHT";
    "TZOFFSETFROM:+0100";
    "TZOFFSETTO:+0200";
    "TZNAME:CEST";
    "DTSTART:19700329T020000";
    "RRULE:FREQ=YEARLY;BYMONTH=3;BYDAY=-1SU";
    "END:DAYLIGHT";
    "BEGIN:STANDARD";
    "TZOFFSETFROM:+0200";
    "TZOFFSETTO:+0100";
    "TZNAME:CET";
    "DTSTART:19701025T030000";
    "RRULE:FREQ=YEARLY;BYMONTH=10;BYDAY=-1SU";
    "END:STANDARD";
    "END:VTIMEZONE" ].

Definition categoryMap : list (string * string) :=
  [ ("work", "BUSINESS");
    ("meeting", "MEETING");
    ("birthday", "PERSONAL");
    ("anniversary", "PERSONAL");
    ("personal", "PERSONAL");
    ("family", "PERSONAL");
    ("friends", "PERSONAL");
    ("health", "PERSONAL");
    ("travel", "VACATION");
    ("vacation", "VACATION");
    ("education", "EDUCATION");
    ("sports", "PERSONAL");
    ("entertainment", "PERSONAL");
    ("shopping", "PERSONAL");
    ("project", "BUSINESS");
    ("task", "BUSINESS");
    ("deadline", "BUSINESS");
    ("conference", "MEETING");
    ("appointment", "APPOINTMENT");
    ("reminder", "PERSONAL");
    ("important", "BUSINESS");
    ("party", "PERSONAL");
    ("event", "PERSONAL") ].

(** [categoryMap[icon] || 'PERSONAL']. *)
Definition iconToCategory (icon : string) : JSValue :=
  let v := JSObject.get categoryMap icon in
  if JSObject.truthy v then v else VString "PERSONAL".

Definition highPriority : list string :=
  [ "important"; "deadline"; "work"; "meeting"; "appointment" ].
Definition lowPriority : list string :=
  [ "entertainment"; "shopping"; "party" ].

(** [array.includes(s)] on an array of strings. *)
Definition arrayIncludes (l : list string) (s : string) : bool :=
  existsb (String.eqb s) l.

Definition iconToPriority (icon : string) : Z :=
  if arrayIncludes highPriority icon then 1
  else if arrayIncludes lowPriority icon then 9
  else 5.

Section Service.
Variable host : Host.
Variable config : ICalConfig.

(** The [YYYY-MM-DD] text both [formatDate] and [combineDateTime] build
    from a [Date] object, with the getters of local time. *)
Definition localDateText (d : JSDate.t) : string :=
  ofNumber (JSDate.getFullYear host d) ++ "-"
  ++ padStart2 (ofNumber (option_map (fun n => n + 1) (JSDate.getMonth host d)))
  ++ "-" ++ padStart2 (ofNumber (JSDate.getDate host d)).

Definition formatDate (dateInput : DateInput) : string :=
  let dateString :=
    match dateInput with
    | DateObject d => localDateText d
    | DateString s => s
    end in
  replaceAll "-"%char "" dateString.

Definition formatDateTime (date : JSDate.t) (utc : bool) : string :=
  let formatted :=
    ofNumber (JSDate.getFullYear host date)
    ++ padStart2 (ofNumber (option_map (fun n => n + 1) (JSDate.getMonth host date)))
    ++ padStart2 (ofNumber (JSDate.getDate host date))
    ++ "T"
    ++ padStart2 (ofNumber (JSDate.getHours host date))
    ++ padStart2 (ofNumber (JSDate.getMinutes host date))
    ++ padStart2 (ofNumber (JSDate.getSeconds host date)) in
  if utc then formatted ++ "Z" else formatted.

Definition combineDateTime (dateInput : DateInput) (timeString : string)
  : JSDate.t :=
  let dateString :=
    match dateInput with
    | DateObject d => localDateText d
    | DateString s => s
    end in
  JSDateText.ofString host (dateString ++ "T" ++ timeString).

(** The day after an all-day event: local-time arithmetic on a [Date]
    object, UTC arithmetic on a date string. *)
Definition nextDayDate (dateInput : DateInput) : JSDate.t :=
  match dateInput with
  | DateObject d =>
      JSDate.setDate host d (option_map (fun n => n + 1) (JSDate.getDate host d))
  | DateString s =>
      let d := JSDateText.ofString host (s ++ "T00:00:00.000Z") in
      JSDate.setUTCDate d (option_map (fun n => n + 1) (JSDate.getUTCDate d))
  end.

(** The time a truthy [event_time] holds. *)
Definition timeOf (event : Event) : option string :=
  match event_time event with
  | Some s => if JSString.truthy s then Some s else None
  | None => None
  end.

Definition dateLines (event : Event) : list string :=
  match timeOf event with
  | Some time =>
      let eventDateTime := combineDateTime (event_date event) time in
      let endDateTime := JSDate.addMillis eventDateTime (60 * 60 * 1000) in
      [ "DTSTART;TZID=Europe/Berlin:" ++ formatDateTime eventDateTime false;
        "DTEND;TZID=Europe/Berlin:" ++ formatDateTime endDateTime false ]
  | None =>
      [ "DTSTART;VALUE=DATE:" ++ formatDate (event_date event);
        "DTEND;VALUE=DATE:"
          ++ formatDate (DateObject (nextDayDate (event_date event))) ]
  end.

Definition descriptionLines (event : Event) : list string :=
  match description event with
  | Some d =>
      if JSString.truthy d then [ "DESCRIPTION:" ++ escapeText d ] else []
  | None => []
  end.

Definition categoryLines (event : Event) : list string :=
  let category := iconToCategory (icon event) in
  if JSObject.truthy category
  then [ "CATEGORIES:" ++ JSObject.toString category ]
  else [].

(** [now] is the clock reading of this call's [new Date()]. *)
Definition generateEvent (now : Z) (event : Event) (userHash : string)
  : list string :=
  [ "BEGIN:VEVENT";
    "UID:" ++ ofZ (id event) ++ "-" ++ userHash ++ "@yatwa.app";
    "DTSTAMP:" ++ formatDateTime (Some now) true;
    "CREATED:" ++ formatDateTime (created_at event) true;
    "LAST-MODIFIED:" ++ formatDateTime (updated_at event) true ]
  ++ dateLines event
  ++ [ "SUMMARY:" ++ escapeText (title event) ]
  ++ descriptionLines event
  ++ categoryLines event
  ++ [ "PRIORITY:" ++ ofZ (iconToPriority (icon event));
       "STATUS:CONFIRMED";
       "TRANSP:OPAQUE";
       "CLASS:PRIVATE";
       "SEQUENCE:0";
       "URL:" ++ show (url config) ++ "?hash=" ++ userHash;
       "X-YATWA-ICON:" ++ icon event;
       "X-YATWA-ID:" ++ ofZ (id event);
       "END:VEVENT" ].

(** The [forEach] over the events: the [k]-th clock reading of the call
    belongs to the event generated then. *)
Fixpoint generateEvents (clock : nat -> Z) (k : nat) (events : list Event)
         (userHash : string) : list string :=
  match events with
  | [] => []
  | event :: rest =>
      generateEvent (clock k) event userHash
      ++ generateEvents clock (S k) rest userHash
  end.

Definition calendarHeader (userHash : string) : list string :=
  [ "BEGIN:VCALENDAR";
    "VERSION:2.0";
    "PRODID:" ++ show (prodId config);
    "CALSCALE:GREGORIAN";
    "METHOD:PUBLISH";
    "X-WR-CALNAME:" ++ show (calName config) ++ " - " ++ substring0 8 userHash;
    "X-WR-CALDESC:" ++ show (calDescription config);
    "X-WR-TIMEZONE:" ++ show (timezone config);
    "X-PUBLISHED-TTL:PT1H";
    "URL:" ++ show (url config) ++ "/api/ical/" ++ userHash;
    "REFRESH-INTERVAL;VALUE=DURATION:PT1H";
    "X-WR-RELCALID:" ++ userHash ].

(** The lines pushed to [calendarLines].  Reading 0 of the clock is the
    [now] of [generateCalendar] itself, which it does not use. *)
Definition calendarLines (clock : nat -> Z) (events : list Event)
           (userHash : string) : list string :=
  calendarHeader userHash
  ++ generateTimezone
  ++ generateEvents clock 1%nat events userHash
  ++ [ "END:VCALENDAR" ].

Definition generateCalendar (clock : nat -> Z) (events : list Event)
           (userHash : string) : string :=
  join CRLF (calendarLines clock events userHash) ++ CRLF.

End Service.

(* ------------------------------------------------------------------ *)
(** *** Statistics *)

Record CalendarStats : Type := mkStats {
  totalEvents : nat;
  upcomingEvents : nat;
  eventsByCategory : list (string * nat);
  nextEvent : option Event          (* [None] for [null] *)
}.

(** [a.localeCompare(b)].  The service compares [YYYY-MM-DD] dates with
    one another and [HH:MM:SS] times with one another; on strings of one
    such shape the collation order is the order of the code units, which
    is what the model takes. *)
Definition localeCompare (a b : string) : comparison := String.compare a b.

(** [Array.prototype.sort] with a comparator: the sort is stable, and a
    stable sort is determined by the comparator.  [insertSorted x l] puts
    [x], which stood before the elements of [l], before the first element
    it is not greater than. *)
Fixpoint insertSorted {A : Type} (cmp : A -> A -> comparison) (x : A)
         (l : list A) : list A :=
  match l with
  | [] => [x]
  | y :: l' =>
      match cmp x y with
      | Gt => y :: insertSorted cmp x l'
      | _ => x :: l
      end
  end.

Fixpoint sortStable {A : Type} (cmp : A -> A -> comparison) (l : list A)
  : list A :=
  match l with
  | [] => []
  | x :: l' => insertSorted cmp x (sortStable cmp l')
  end.

(** [d.toISOString().split('T')[0]]. *)
Definition isoDay (d : JSDate.t) : Completion string :=
  s <- JSDateText.toISOString d ;;
  Normal (hd EmptyString (split "T"%char s)).

(** The date text [generateStats] compares: the UTC day of a [Date]
    object, the string itself otherwise. *)
Definition dateKey (event : Event) : Completion string :=
  match event_date event with
  | DateObject d => isoDay d
  | DateString s => Normal s
  end.

(** [events.filter(event => eventDate >= today)]; the callback throws on
    an invalid [Date] object. *)
Fixpoint filterUpcoming (today : string) (events : list Event)
  : Completion (list Event) :=
  match events with
  | [] => Normal []
  | event :: rest =>
      eventDate <- dateKey event ;;
      rest' <- filterUpcoming today rest ;;
      Normal (if geb eventDate today then event :: rest' else rest')
  end.

(** The date text inside the comparator.  The comparator only sees events
    that passed the filter, for which [dateKey] completed normally. *)
Definition dateKeyText (event : Event) : string :=
  match dateKey event with Normal s => s | Throw _ => EmptyString end.

(** [event.event_time || '00:00:00']. *)
Definition timeKey (event : Event) : string :=
  orElse (event_time event) "00:00:00".

Definition compareEvents (a b : Event) : comparison :=
  match localeCompare (dateKeyText a) (dateKeyText b) with
  | Eq => localeCompare (timeKey a) (timeKey b)
  | c => c
  end.

(** [eventsByCategory[category] = (eventsByCategory[category] || 0) + 1].
    The key is the category converted to a string; it is never a name of
    [Object.prototype] (see [category_key_own]), so the lookup is one of
    own properties. *)
Definition countCategory (acc : list (string * nat)) (event : Event)
  : list (string * nat) :=
  let category := JSObject.toString (iconToCategory (icon event)) in
  let n := match JSObject.ownGet acc category with Some n => n | None => O end in
  JSObject.set acc category (S n).

(** [now] is the clock reading of the call's [new Date()]. *)
Definition generateStats (now : Z) (events : list Event)
  : Completion CalendarStats :=
  today <- isoDay (Some now) ;;
  upcoming <- filterUpcoming today events ;;
  let byCategory := fold_left countCategory events [] in
  let sortedUpcoming := sortStable compareEvents upcoming in
  Normal (mkStats (List.length events) (List.length upcoming) byCategory
                  (hd_error sortedUpcoming)).

(* ------------------------------------------------------------------ *)
(** *** Validation *)

Record ValidationReport : Type := mkReport {
  isValid : bool;
  errors : list string;
  warnings : list string
}.

(** [if (!found) errors.push(msg)]. *)
Definition pushUnless (found : bool) (msg : string) (errs : list string)
  : list string :=
  if found then errs else errs ++ [msg].

Definition ofNat (n : nat) : string := ofZ (Z.of_nat n).

Definition structureErrors (icalContent : string) : list string :=
  let eventBegins := matchCount "BEGIN:VEVENT" icalContent in
  let eventEnds := matchCount "END:VEVENT" icalContent in
  pushUnless (Nat.eqb eventBegins eventEnds)
    ("Mismatched VEVENT tags: " ++ ofNat eventBegins ++ " begin, "
     ++ ofNat eventEnds ++ " end")
    (pushUnless (includes "PRODID:" icalContent) "Missing PRODID"
       (pushUnless (includes "VERSION:2.0" icalContent)
          "Missing or invalid VERSION"
          (pushUnless (includes "END:VCALENDAR" icalContent)
             "Missing VCALENDAR end"
             (pushUnless (includes "BEGIN:VCALENDAR" icalContent)
                "Missing VCALENDAR begin" [])))).

(** The [forEach] over the lines, [index] counting from 0. *)
Fixpoint lengthWarnings (index : nat) (lines : list string) : list string :=
  match lines with
  | [] => []
  | line :: rest =>
      (if Nat.ltb 75 (String.length line)
       then [ "Line " ++ ofNat (index + 1) ++ " exceeds 75 characters ("
              ++ ofNat (String.length line) ++ ")" ]
       else [])
      ++ lengthWarnings (S index) rest
  end.

Definition validateCalendar (icalContent : string) : ValidationReport :=
  let errors := structureErrors icalContent in
  let warnings := lengthWarnings O (split LF icalContent) in
  mkReport (Nat.eqb (List.length errors) O) errors warnings.

(* ================================================================== *)
(** ** Sample data used by the closed examples *)
(* ================================================================== *)

(** A host on UTC, one five hours west of it and one an hour east. *)
Definition hostUTC : Host := mkHost (fun _ _ => 0) (fun _ => None) None.
Definition hostWest : Host :=
  mkHost (fun _ _ => - (5 * 3600000)) (fun _ => None) None.
Definition hostEast : Host := mkHost (fun _ _ => 3600000) (fun _ => None) None.

Definition defaultConfig : ICalConfig := constructor hostUTC None.

(** 2023-11-14T22:13:20Z. *)
Definition sampleInstant : Z := 1700000000000.
Definition frozenClock : nat -> Z := fun _ => sampleInstant.

Definition sampleHash : string := "3f9a1c0b7d2e4f56".

Definition allDayEvent (n : Z) (name date : string) : Event :=
  mkEvent n sampleHash name (DateString date) None "calendar" None
          (Some sampleInstant) (Some sampleInstant).

Definition timedEvent (n : Z) (name date time : string) : Event :=
  mkEvent n sampleHash name (DateString date) (Some time) "meeting" None
          (Some sampleInstant) (Some sampleInstant).

(* ================================================================== *)
(** ** Notions the properties are stated with *)
(* ================================================================== *)



(** The fixed category set. *)
Definition categories : list string :=
  [ "BUSINESS"; "MEETING"; "PERSONAL"; "VACATION"; "EDUCATION"; "APPOINTMENT" ].

Definition isCategory (v : JSValue) : bool :=
  match v with
  | VString s => arrayIncludes categories s
  | _ => false
  end.

(** The keys an object literal inherits from [Object.prototype]. *)
Definition inheritedKey (key : string) : bool :=
  JSObject.truthy (JSObject.prototypeGet key).

Definition hasStringDate (event : Event) : bool :=
  match event_date event with DateString _ => true | DateObject _ => false end.



(** What one character becomes when every rule is applied to it at once. *)
Definition escapeChar (c : ascii) : string :=
  if Ascii.eqb c backslash then String backslash (String backslash "")
  else if Ascii.eqb c ";" then String backslash ";"
  else if Ascii.eqb c "," then String backslash ","
  else if Ascii.eqb c LF then String backslash "n"
  else if Ascii.eqb c CR then ""
  else String c "".

Fixpoint escapeAll (s : string) : string :=
  match s with
  | EmptyString => EmptyString
  | String c s' => escapeChar c ++ escapeAll s'
  end.

(** Reading of an escaped TEXT value (RFC 5545, 3.3.11): a backslash
    introduces one of the pairs [\\], [\;], [\,], [\n], [\N]; a bare
    semicolon, comma, line feed or carriage return, a backslash before any
    other character and a backslash at the end are not TEXT. *)
Fixpoint unescape (s : string) : option string :=
  match s with
  | EmptyString => Some EmptyString
  | String c s' =>
      if Ascii.eqb c backslash then
        match s' with
        | EmptyString => None
        | String d s'' =>
            if Ascii.eqb d backslash || Ascii.eqb d ";" || Ascii.eqb d ","
            then option_map (String d) (unescape s'')
            else if Ascii.eqb d "n" || Ascii.eqb d "N"
            then option_map (String LF) (unescape s'')
            else None
        end
      else if Ascii.eqb c ";" || Ascii.eqb c "," || Ascii.eqb c LF || Ascii.eqb c CR
      then None
      else option_map (String c) (unescape s')
  end.

(** Three events of one day: one without a time, one at 09:00, one at
    17:00; and an event at midnight of that day. *)
Definition dayAllDay : Event := allDayEvent 1 "Open day" "2030-06-15".
Definition dayAt0900 : Event := timedEvent 2 "Briefing" "2030-06-15" "09:00:00".
Definition dayAt1700 : Event := timedEvent 3 "Wrap-up" "2030-06-15" "17:00:00".

Definition nextEventOf (now : Z) (events : list Event) : option Event :=
  match generateStats now events with
  | Normal stats => nextEvent stats
  | Throw _ => None
  end.

(** The two markers [validateCalendar] counts. *)
Definition beginMarker : string := "BEGIN:VEVENT".
Definition endMarker : string := "END:VEVENT".

(** A text is free of markers when neither occurs in it. *)
Definition markerFree (s : string) : bool :=
  negb (includes beginMarker s) && negb (includes endMarker s).

(** The values of the configuration and of an event, as they are written
    into the document: the title and the description escaped, the icon as
    it is, and for an all-day event the date string without its dashes. *)
Definition configMarkerFree (config : ICalConfig) : bool :=
  markerFree (show (prodId config))
  && markerFree (show (calName config))
  && markerFree (show (calDescription config))
  && markerFree (show (timezone config))
  && markerFree (show (url config)).

Definition eventMarkerFree (event : Event) : bool :=
  markerFree (escapeText (title event))
  && match description event with
     | Some d => markerFree (escapeText d)
     | None => true
     end
  && markerFree (icon event)
  && match event_date event, timeOf event with
     | DateString s, None => markerFree (replaceAll "-"%char "" s)
     | _, _ => true
     end.

(** Occurrences of a pattern in the lines of a document. *)
Fixpoint sumCount (pat : string) (lines : list string) : nat :=
  match lines with
  | [] => O
  | line :: rest => (matchCount pat line + sumCount pat rest)%nat
  end.

Fixpoint hasChar (c : ascii) (s : string) : bool :=
  match s with
  | EmptyString => false
  | String a s' => Ascii.eqb a c || hasChar c s'
  end.

(** [compat pat x]: [pat] and [x] agree as far as both reach, so that
    [pat] could start where [x] starts. *)
Fixpoint compat (pat x : string) : bool :=
  match pat, x with
  | String a pat', String b x' => Ascii.eqb a b && compat pat' x'
  | _, _ => true
  end.

(** No occurrence of [pat] can start inside the literal [lit] and run
    beyond its end. *)
Fixpoint noStraddle (pat lit : string) : bool :=
  match lit with
  | EmptyString => true
  | String _ lit' => negb (compat pat lit) && noStraddle pat lit'
  end.

Definition isMarker (m : string) : Prop := m = beginMarker \/ m = endMarker.

(** The calendar day after [(y, m, d)]. *)
Definition nextDay (y m d : Z) : Z * Z * Z :=
  if d <? JSDateText.DaysInMonth y m then (y, m, d + 1)
  else if m <? 12 then (y, m + 1, 1)
  else (y + 1, 1, 1).

(** A date in the basic form [YYYYMMDD] of iCal. *)
Definition basicDate (date : Z * Z * Z) : string :=
  let '(y, m, d) := date in
  ofZ y ++ padStart2 (ofZ m) ++ padStart2 (ofZ d).

(** The host's local time is at or ahead of UTC, by less than a day. *)
Definition atOrEastOfUTC (host : Host) : Prop :=
  forall tv, 0 <= LocalTZA host tv true < JSDate.msPerDay.

(** The host's local time is behind UTC, by a day at most. *)
Definition westOfUTC (host : Host) : Prop :=
  forall tv, - JSDate.msPerDay <= LocalTZA host tv true < 0.

(** The lines of a document that are exactly a given text. *)
Definition lineCount (text : string) (lines : list string) : nat :=
  List.length (filter (String.eqb text) lines).

(** Order of calendar dates: by year, then month, then day. *)
Definition thenCompare (c1 c2 : comparison) : comparison :=
  match c1 with Eq => c2 | _ => c1 end.

Definition compareDates (a b : Z * Z * Z) : comparison :=
  let '(y1, m1, d1) := a in
  let '(y2, m2, d2) := b in
  thenCompare (y1 ?= y2) (thenCompare (m1 ?= m2) (d1 ?= d2)).

(** Reading a text from the left: every semicolon and comma stands right
    after a backslash.  [afterBackslash] tells whether the character
    before the text is one. *)
Fixpoint separatorsGuarded (afterBackslash : bool) (s : string) : bool :=
  match s with
  | EmptyString => true
  | String c s' =>
      (if Ascii.eqb c ";" || Ascii.eqb c "," then afterBackslash else true)
      && separatorsGuarded (Ascii.eqb c backslash) s'
  end.

(** The events whose date is an invalid [Date] object. *)
Definition hasInvalidDate (event : Event) : bool :=
  match event_date event with
  | DateObject None => true
  | _ => false
  end.

(** The total of the counts of a table. *)
Fixpoint sumValues (table : list (string * nat)) : nat :=
  match table with
  | [] => O
  | (_, n) :: rest => (n + sumValues rest)%nat
  end.

(** The UID line of an event block, its second line. *)
Definition uidLine (lines : list string) : string := nth 1 lines EmptyString.

Definition isDigit (c : ascii) : bool :=
  match JSDateText.digit c with Some _ => true | None => false end.

Fixpoint allDigits (s : string) : bool :=
  match s with
  | EmptyString => true
  | String c s' => isDigit c && allDigits s'
  end.

(** A host whose local time differs from UTC by a fixed offset, of less
    than a day. *)
Definition fixedOffset (host : Host) (offset : Z) : Prop :=
  (forall tv isUTC, LocalTZA host tv isUTC = offset)
  /\ - JSDate.msPerDay < offset < JSDate.msPerDay.

(** The calendar date of a time value. *)
Definition civilDate (tv : Z) : Z * Z * Z :=
  (JSDate.YearFromTime tv, JSDate.MonthFromTime tv + 1, JSDate.DateFromTime tv).

(** Date and time of day in the basic form [YYYYMMDDTHHMMSS]. *)
Definition basicDateTime (date : Z * Z * Z) (time : Z) : string :=
  basicDate date ++ "T"
  ++ padStart2 (ofZ (JSDate.HourFromTime time))
  ++ padStart2 (ofZ (JSDate.MinFromTime time))
  ++ padStart2 (ofZ (JSDate.SecFromTime time)).

(* ================================================================== *)
(** ** More of the JavaScript runtime: white space and regular
       expressions *)
(* ================================================================== *)

(** White space and line terminators, which [trim] strips and [\s]
    matches: among the code units below 256 these are tab, line feed,
    vertical tab, form feed, carriage return, space and no-break space. *)
Definition isWhiteSpace (c : ascii) : bool :=
  let n := nat_of_ascii c in
  ((9 <=? n) && (n <=? 13) || (n =? 32) || (n =? 160))%nat.

Fixpoint trimStart (s : string) : string :=
  match s with
  | EmptyString => EmptyString
  | String c s' => if isWhiteSpace c then trimStart s' else s
  end.

Fixpoint trimEnd (s : string) : string :=
  match s with
  | EmptyString => EmptyString
  | String c s' =>
      match trimEnd s' with
      | EmptyString => if isWhiteSpace c then EmptyString else String c EmptyString
      | rest => String c rest
      end
  end.

(** [s.trim()]. *)
Definition trim (s : string) : string := trimEnd (trimStart s).

(** [s.replace(/\s+/g, ' ')]: every maximal run of white space becomes
    one space.  [inRun] tells whether the character before belongs to a
    run already replaced. *)
Fixpoint replaceSpaceRuns (inRun : bool) (s : string) : string :=
  match s with
  | EmptyString => EmptyString
  | String c s' =>
      if isWhiteSpace c
      then (if inRun then replaceSpaceRuns true s'
            else String " "%char (replaceSpaceRuns true s'))
      else String c (replaceSpaceRuns false s')
  end.

(** The regular expressions of the validation: character classes,
    sequence, alternative, [?] and a class repeated any number of
    times. *)
Inductive Regex : Type :=
| Eps
| Class (p : ascii -> bool)
| Seq (a b : Regex)
| Alt (a b : Regex)
| Opt (a : Regex)
| Many (p : ascii -> bool).

(** The run of a class, longest first: what is left of [s] after each
    number of repetitions. *)
Fixpoint matchMany (p : ascii -> bool) (s : string) : list string :=
  match s with
  | EmptyString => [EmptyString]
  | String c s' => (if p c then matchMany p s' else []) ++ [s]
  end.

(** What is left of [s] after each way [r] matches at its start, in the
    order the backtracking matcher tries them. *)
Fixpoint matchPrefix (r : Regex) (s : string) : list string :=
  match r with
  | Eps => [s]
  | Class p =>
      match s with
      | String c s' => if p c then [s'] else []
      | EmptyString => []
      end
  | Seq a b => flat_map (matchPrefix b) (matchPrefix a s)
  | Alt a b => matchPrefix a s ++ matchPrefix b s
  | Opt a => matchPrefix a s ++ [s]
  | Many p => matchMany p s
  end.

(** [/^r$/.test(s)]: some way of matching leaves nothing. *)
Definition test (r : Regex) (s : string) : bool :=
  existsb (String.eqb EmptyString) (matchPrefix r s).

(** [r{n}]. *)
Fixpoint times (n : nat) (r : Regex) : Regex :=
  match n with
  | O => Eps
  | S k => Seq r (times k r)
  end.

Definition lit (c : ascii) : Regex := Class (Ascii.eqb c).

Definition between (lo hi : ascii) (c : ascii) : bool :=
  (nat_of_ascii lo <=? nat_of_ascii c)%nat
  && (nat_of_ascii c <=? nat_of_ascii hi)%nat.

(** [\d]. *)
Definition digitClass : Regex := Class (between "0" "9").

(** [[a-f0-9]] under the flag [i]. *)
Definition hexDigit (c : ascii) : bool :=
  between "a" "f" c || between "A" "F" c || between "0" "9" c.

(** [Number(s)] for the strings the validation converts, which are runs
    of decimal digits; the empty string is 0.  Literals with a sign, a
    fraction, an exponent, a prefix or white space do not reach it and
    are not modelled: they read as [NaN] here. *)
Fixpoint digitsValue (acc : Z) (s : string) : option Z :=
  match s with
  | EmptyString => Some acc
  | String c s' =>
      match JSDateText.digit c with
      | Some d => digitsValue (10 * acc + d) s'
      | None => None
      end
  end.

Definition toNumber (s : string) : option Z := digitsValue 0 s.

(** [a === b] on numbers: [NaN] equals nothing. *)
Definition strictEq (a b : option Z) : bool :=
  match a, b with
  | Some x, Some y => x =? y
  | _, _ => false
  end.

Definition getUTCFullYear (d : JSDate.t) : option Z :=
  option_map JSDate.YearFromTime d.
Definition getUTCMonth (d : JSDate.t) : option Z :=
  option_map JSDate.MonthFromTime d.

(** [d.getTime()]. *)
Definition getTime (d : JSDate.t) : option Z := d.

(* ================================================================== *)
(** ** Request validation ([utils/validation.ts]) *)
(* ================================================================== *)

(** A property of a request body as the validation looks at it: absent,
    [null], a string, or a value of another type, of which the code looks
    at the truthiness only. *)
Inductive Field : Type :=
| FUndefined
| FNull
| FString (s : string)
| FOther (truthy : bool).

Definition fieldTruthy (f : Field) : bool :=
  match f with
  | FUndefined | FNull => false
  | FString s => JSString.truthy s
  | FOther b => b
  end.

Module ValidationService.

Record ValidationResult : Type := mkResult {
  isValid : bool;
  errors : list string
}.

Record EventValidationData : Type := mkData {
  title : Field;
  event_date : Field;
  event_time : Field;
  icon : Field;
  description : Field
}.

Definition VALID_ICONS : list string :=
  [ "calendar"; "meeting"; "birthday"; "reminder"; "work"; "personal";
    "travel"; "health"; "shopping"; "sports"; "education"; "entertainment";
    "family"; "friends"; "important"; "deadline"; "appointment"; "event";
    "conference"; "party"; "vacation"; "anniversary"; "project"; "task" ].

(** [/^\d{4}-\d{2}-\d{2}$/]. *)
Definition dateRegex : Regex :=
  Seq (times 4 digitClass)
      (Seq (lit "-") (Seq (times 2 digitClass)
                          (Seq (lit "-") (times 2 digitClass)))).

(** [/^([01]?[0-9]|2[0-3]):[0-5][0-9](:[0-5][0-9])?$/]. *)
Definition timeRegex : Regex :=
  Seq (Alt (Seq (Opt (Class (between "0" "1"))) (Class (between "0" "9")))
           (Seq (lit "2") (Class (between "0" "3"))))
      (Seq (lit ":")
           (Seq (Class (between "0" "5"))
                (Seq (Class (between "0" "9"))
                     (Opt (Seq (lit ":")
                               (Seq (Class (between "0" "5"))
                                    (Class (between "0" "9")))))))).

(** [/^[a-f0-9]{16,}$/i]. *)
Definition hashRegex : Regex := Seq (times 16 (Class hexDigit)) (Many hexDigit).

(** [/^\d{2}:\d{2}:\d{2}$/]. *)
Definition fullTimeRegex : Regex :=
  Seq (times 2 digitClass)
      (Seq (lit ":") (Seq (times 2 digitClass)
                          (Seq (lit ":") (times 2 digitClass)))).

(** [/^\d{1,2}:\d{2}$/]. *)
Definition shortTimeRegex : Regex :=
  Seq (Seq digitClass (Opt digitClass)) (Seq (lit ":") (times 2 digitClass)).

Section WithHost.
Variable host : Host.

Definition isValidDate (dateString : string) : bool :=
  if negb (test dateRegex dateString) then false
  else
    let date := JSDateText.ofString host (dateString ++ "T00:00:00.000Z") in
    match map toNumber (split "-" dateString) with
    | year :: month :: day :: _ =>
        strictEq (getUTCFullYear date) year
        && strictEq (getUTCMonth date) (option_map (fun n => n - 1) month)
        && strictEq (JSDate.getUTCDate date) day
    | _ => false
    end.

Definition isValidTime (timeString : string) : bool :=
  test timeRegex timeString.

Definition isValidHash (hash : string) : bool :=
  if negb (JSString.truthy hash) then false
  else test hashRegex hash.

(** [errors.push(msg)] under a condition. *)
Definition pushIf (cond : bool) (msg : string) (errs : list string)
  : list string :=
  if cond then (errs ++ [msg])%list else errs.

Definition invalidIconMessage : string :=
  "Ungültiges Icon. Erlaubte Icons: " ++ join ", " VALID_ICONS.

Definition titleErrors (required : bool) (v : Field) : list string :=
  match v with
  | FString s =>
      if required && negb (JSString.truthy s)
      then [ "Titel ist erforderlich" ]
      else if Nat.eqb (String.length (trim s)) 0
      then [ "Titel darf nicht leer sein" ]
      else if Nat.ltb 255 (String.length s)
      then [ "Titel ist zu lang (max. 255 Zeichen)" ]
      else []
  | FUndefined => if required then [ "Titel ist erforderlich" ] else []
  | _ => if required then [ "Titel ist erforderlich" ]
         else [ "Titel muss ein String sein" ]
  end.

Definition timeErrors (v : Field) : list string :=
  match v with
  | FUndefined | FNull => []
  | FString s =>
      if isValidTime s then []
      else [ "Ungültiges Zeitformat (erwartet: HH:MM oder HH:MM:SS)" ]
  | FOther _ => [ "Ungültiges Zeitformat (erwartet: HH:MM oder HH:MM:SS)" ]
  end.

(** [data.icon && !VALID_ICONS.includes(data.icon)]: [includes] finds no
    value that is not a string. *)
Definition iconErrors (v : Field) : list string :=
  match v with
  | FString s =>
      if JSString.truthy s && negb (arrayIncludes VALID_ICONS s)
      then [ invalidIconMessage ] else []
  | FOther true => [ invalidIconMessage ]
  | _ => []
  end.

Definition descriptionErrors (v : Field) : list string :=
  match v with
  | FString s =>
      if JSString.truthy s && Nat.ltb 1000 (String.length s)
      then [ "Beschreibung ist zu lang (max. 1000 Zeichen)" ] else []
  | _ => []
  end.

Definition validateCreateEvent (data : EventValidationData)
  : ValidationResult :=
  let errors :=
    (titleErrors true (title data)
     ++ match event_date data with
        | FString s =>
            if negb (JSString.truthy s) then [ "Datum ist erforderlich" ]
            else if negb (isValidDate s)
            then [ "Ungültiges Datumsformat (erwwartet: YYYY-MM-DD)" ]
            else []
        | _ => [ "Datum ist erforderlich" ]
        end
     ++ timeErrors (event_time data)
     ++ iconErrors (icon data)
     ++ descriptionErrors (description data))%list in
  mkResult (Nat.eqb (List.length errors) 0) errors.

Definition validateUpdateEvent (data : EventValidationData)
  : ValidationResult :=
  let errors :=
    (titleErrors false (title data)
     ++ match event_date data with
        | FUndefined => []
        | FString s =>
            if isValidDate s then []
            else [ "Ungültiges Datumsformat (erwartet: YYYY-MM-DD)" ]
        | _ => [ "Ungültiges Datumsformat (erwartet: YYYY-MM-DD)" ]
        end
     ++ timeErrors (event_time data)
     ++ iconErrors (icon data)
     ++ descriptionErrors (description data))%list in
  mkResult (Nat.eqb (List.length errors) 0) errors.

(** [Math.ceil(a / b)] for a multiple or a non-multiple [a >= 0] of
    [b > 0].  The times divided here are whole days (both strings are
    valid dates), so the quotient of the floating-point division is
    exact. *)
Definition ceilDiv (a b : Z) : Z := - ((- a) / b).

(** [a > b] on numbers: [false] when either is [NaN]. *)
Definition numGt (a b : option Z) : bool :=
  match a, b with
  | Some x, Some y => y <? x
  | _, _ => false
  end.

Definition validateDateRange (startDate endDate : option string)
  : ValidationResult :=
  let given v := match v with Some s => JSString.truthy s | None => false end in
  let text v := match v with Some s => s | None => EmptyString end in
  let startGiven := given startDate in
  let endGiven := given endDate in
  let errors1 :=
    pushIf (startGiven && negb (isValidDate (text startDate)))
           "Ungültiges Startdatum (erwartet: YYYY-MM-DD)" [] in
  let errors2 :=
    pushIf (endGiven && negb (isValidDate (text endDate)))
           "Ungültiges Enddatum (erwartet: YYYY-MM-DD)" errors1 in
  let errors :=
    if startGiven && endGiven && isValidDate (text startDate)
       && isValidDate (text endDate)
    then
      let start := JSDateText.ofString host (text startDate) in
      let end_ := JSDateText.ofString host (text endDate) in
      let errors3 :=
        pushIf (numGt (getTime start) (getTime end_))
               "Startdatum muss vor dem Enddatum liegen" errors2 in
      let diffDays :=
        match getTime end_, getTime start with
        | Some e, Some s => Some (ceilDiv (Z.abs (e - s)) (1000 * 60 * 60 * 24))
        | _, _ => None
        end in
      pushIf (numGt diffDays (Some 730))
             "Datumsbereich ist zu groß (max. 2 Jahre)" errors3
    else errors2 in
  mkResult (Nat.eqb (List.length errors) 0) errors.

End WithHost.

Definition sanitizeString (input : string) : string :=
  replaceSpaceRuns false (trim input).

(** [split] never returns an empty array; a missing second part would be
    written as [undefined]. *)
Definition formatTimeString (timeString : string) : string :=
  if test fullTimeRegex timeString then timeString
  else if test shortTimeRegex timeString then
    match split ":" timeString with
    | hours :: rest =>
        padStart2 hours ++ ":" ++ show (hd_error rest) ++ ":00"
    | [] => timeString
    end
  else timeString.

End ValidationService.

(** Every character of [s] is of the class [p]. *)
Fixpoint forallChars (p : ascii -> bool) (s : string) : bool :=
  match s with
  | EmptyString => true
  | String c s' => p c && forallChars p s'
  end.

(** A text whose white space is single spaces between other characters:
    no white space at either end, no run of two, none but the space.
    [afterSpace] tells whether a space may not come next. *)
Fixpoint singleSpacedFrom (afterSpace : bool) (s : string) : bool :=
  match s with
  | EmptyString => negb afterSpace
  | String c s' =>
      if isWhiteSpace c
      then Ascii.eqb c " " && negb afterSpace && singleSpacedFrom true s'
      else singleSpacedFrom false s'
  end.

Definition singleSpaced (s : string) : bool :=
  match s with
  | EmptyString => true
  | _ => singleSpacedFrom true s
  end.

(* ================================================================== *)
(** ** The hash service ([services/hash.ts]) *)
(* ================================================================== *)

(** The service draws random bytes, reads the clock and hashes with
    SHA-256; the model takes the texts that come out of these as
    arguments: [digest] is the hexadecimal digest, [timestamp] the clock
    reading in base 36 and [randomPart] the random bytes in
    hexadecimal. *)
Module HashService.

Definition generateUserHash (digest : string) : string :=
  substring0 40 digest.

(** [/^[a-f0-9]{40}$/i]. *)
Definition hashFormatRegex : Regex := times 40 (Class hexDigit).

Definition isValidHashFormat (hash : string) : bool :=
  test hashFormatRegex hash.

Definition generateDemoHash (prefix timestamp randomPart : string) : string :=
  prefix ++ "-" ++ timestamp ++ "-" ++ randomPart.

(** The [switch] over the environment name; every name but the first two
    takes the branch of [generateUserHash]. *)
Definition generateHashForEnvironment (env : string)
           (digest timestamp randomPart : string) : string :=
  if String.eqb env "development"
  then generateDemoHash "dev" timestamp randomPart
  else if String.eqb env "staging"
  then generateDemoHash "stage" timestamp randomPart
  else generateUserHash digest.

(** [backupDigest] is the digest of the original hash with the seed. *)
Definition generateBackupHash (backupDigest : string) : string :=
  "backup-" ++ substring0 32 backupDigest.



End HashService.

(* ================================================================== *)
(** ** The routes ([routes/ical.ts], [routes/events.ts]) *)
(* ================================================================== *)

(** [d.toUTCString()]. *)
Definition WeekDay (tv : Z) : Z := (JSDate.Day tv + 4) mod 7.

Definition weekdayName (n : Z) : string :=
  match n with
  | 0 => "Sun" | 1 => "Mon" | 2 => "Tue" | 3 => "Wed"
  | 4 => "Thu" | 5 => "Fri" | _ => "Sat"
  end.

Definition monthName (n : Z) : string :=
  match n with
  | 0 => "Jan" | 1 => "Feb" | 2 => "Mar" | 3 => "Apr" | 4 => "May"
  | 5 => "Jun" | 6 => "Jul" | 7 => "Aug" | 8 => "Sep" | 9 => "Oct"
  | 10 => "Nov" | _ => "Dec"
  end.

Definition toUTCString (d : JSDate.t) : string :=
  match d with
  | None => "Invalid Date"
  | Some tv =>
      let y := JSDate.YearFromTime tv in
      weekdayName (WeekDay tv) ++ ", "
      ++ padStart0 2 (ofZ (JSDate.DateFromTime tv)) ++ " "
      ++ monthName (JSDate.MonthFromTime tv) ++ " "
      ++ (if y <? 0 then "-" else "") ++ padStart0 4 (ofZ (Z.abs y)) ++ " "
      ++ padStart0 2 (ofZ (JSDate.HourFromTime tv)) ++ ":"
      ++ padStart0 2 (ofZ (JSDate.MinFromTime tv)) ++ ":"
      ++ padStart0 2 (ofZ (JSDate.SecFromTime tv)) ++ " GMT"
  end.

(** The double quote, as a text. *)
Definition quote : string := String "034"%char EmptyString.

Record Response : Type := mkResponse {
  status : Z;
  body : string;
  headers : list (string * string)
}.

(** What the routes ask of the database; each call may throw. *)
Record Database : Type := mkDatabase {
  userExists : string -> Completion bool;
  updateLastAccessed : string -> Completion bool;
  findByUserHash : string -> option Z -> Completion (list Event)
}.

(** [v || undefined] on the value of a query parameter, which is a
    string or [null]. *)
Definition orUndefined (v : option string) : option string :=
  match v with
  | Some s => if JSString.truthy s then Some s else None
  | None => None
  end.

Module icalRoutes.

Definition textResponse (code : Z) (text : string) : Response :=
  mkResponse code text [ ("Content-Type", "text/plain") ].

Section WithHost.
Variable host : Host.

(** The configuration the feed route passes to the service: [calName] and
    [timezone] are always present, with the value [undefined] when the
    query has no such parameter. *)
Definition feedConfig (name tz : option string) : PartialICalConfig :=
  let calName := orUndefined name in
  let timezone := orUndefined tz in
  mkPartial None
            (Some (option_map (fun n => "YATWA - " ++ n) calName))
            None
            (Some (orUndefined timezone))
            (Some (Some (orElse (APP_URL host) "http://localhost"))).

(** [generateFeed(db)(req, params)]: [hash] is the route parameter,
    [name] and [tz] are the query parameters.  Reading 0 of the clock up
    to reading [n] (for [n] events) are taken by [generateCalendar], the
    two after them by the [ETag] and [Last-Modified] headers. *)
Definition generateFeed (clock : nat -> Z) (db : Database) (hash : string)
           (name tz : option string) : Response :=
  let attempt : Completion Response :=
    if negb (ValidationService.isValidHash hash)
    then Normal (textResponse 400 "Invalid hash format")
    else
      found <- userExists db hash ;;
      if negb found
      then Normal (textResponse 404 "Calendar not found")
      else
        _ <- updateLastAccessed db hash ;;
        events <- findByUserHash db hash (Some 1000) ;;
        config <- newICalService host (Some (feedConfig name tz)) ;;
        let icalContent := generateCalendar host config clock events hash in
        let validation := validateCalendar icalContent in
        if negb (isValid validation)
        then Normal (textResponse 500 "Calendar generation failed")
        else
          let n := List.length events in
          let shortHash := substring0 8 hash in
          let filename := "yatwa-calendar-" ++ shortHash ++ ".ics" in
          Normal
            (mkResponse 200 icalContent
               [ ("Content-Type", "text/calendar; charset=utf-8");
                 ("Content-Disposition",
                  "attachment; filename=" ++ quote ++ filename ++ quote);
                 ("Cache-Control", "public, max-age=3600");
                 ("ETag",
                  quote ++ hash ++ "-" ++ ofNat n ++ "-"
                  ++ ofZ (clock (S n)) ++ quote);
                 ("Last-Modified", toUTCString (Some (clock (S (S n)))));
                 ("X-Published-TTL", "PT1H");
                 ("Refresh-Interval", "3600");
                 ("Access-Control-Allow-Origin", "*");
                 ("Access-Control-Allow-Methods", "GET");
                 ("Access-Control-Max-Age", "86400") ])
  in
  match attempt with
  | Normal response => response
  | Throw _ => textResponse 500 "Internal server error"
  end.

End WithHost.
End icalRoutes.

(** The body of a request as [req.json()] gives it: not JSON at all,
    [null], or a value whose properties can be read (the properties a
    number, a string, a boolean or an array lacks read as [undefined]). *)
Inductive JsonBody : Type :=
| MalformedJson
| JsonNull
| JsonObject (data : ValidationService.EventValidationData).

Module EventModel.

Record CreateEventData : Type := mkCreate {
  user_hash : string;
  title : string;
  event_date : Field;
  event_time : option string;       (* [None] for [null] *)
  icon : Field;
  description : option string
}.

(** The parameters of the [INSERT] statement, which become the row. *)
Record InsertParams : Type := mkParams {
  p_user_hash : string;
  p_title : string;
  p_event_date : Field;
  p_event_time : option string;
  p_icon : Field;
  p_description : option string
}.

(** [v || null] on a string or [null]. *)
Definition orNull (v : option string) : option string :=
  match v with
  | Some s => if JSString.truthy s then Some s else None
  | None => None
  end.

Definition createParams (eventData : CreateEventData) : InsertParams :=
  mkParams (user_hash eventData)
           (title eventData)
           (event_date eventData)
           (orNull (event_time eventData))
           (if fieldTruthy (icon eventData) then icon eventData
            else FString "calendar")
           (orNull (description eventData)).

End EventModel.

Module eventRoutes.

(** The calendar emoji the route takes for a missing icon; its code units
    are not ASCII, and nothing but its difference from the icon names
    matters. *)
Definition defaultIcon : string := "📅".

(** What the route does after reading the request: it answers with a
    status and messages, or hands the data to [EventModel.create]. *)
Inductive CreateStep : Type :=
| Respond (code : Z) (messages : list string)
| Create (params : EventModel.InsertParams).

(** [ValidationService.sanitizeString(v)]: [trim] is called on the value,
    which throws a [TypeError] unless the value is a string. *)
Definition sanitizeField (v : Field) : Completion string :=
  match v with
  | FString s => Normal (ValidationService.sanitizeString s)
  | _ => Throw "TypeError"
  end.

Section WithHost.
Variable host : Host.

(** [createEvent(db)(req, params)] up to the call of
    [EventModel.create].  The values of [event_date] and [icon] are passed
    on as they are.  A truthy [event_time] that is not a string does not
    pass the validation, so that [formatTimeString] is called on strings
    only. *)
Definition createEvent (db : Database) (hash : string) (requestBody : JsonBody)
  : CreateStep :=
  let attempt : Completion CreateStep :=
    if negb (ValidationService.isValidHash hash)
    then Normal (Respond 400 [ "Ungültiger Hash" ])
    else
      found <- userExists db hash ;;
      if negb found
      then Normal (Respond 404 [ "Benutzer nicht gefunden" ])
      else
        match requestBody with
        | MalformedJson => Normal (Respond 400 [ "Ungültige JSON-Daten" ])
        | JsonNull => Throw "TypeError"
        | JsonObject eventData =>
            let validation :=
              ValidationService.validateCreateEvent host eventData in
            if negb (ValidationService.isValid validation)
            then Normal (Respond 400 (ValidationService.errors validation))
            else
              title <- sanitizeField (ValidationService.title eventData) ;;
              event_time <-
                match ValidationService.event_time eventData with
                | FString s =>
                    Normal (if JSString.truthy s
                            then Some (ValidationService.formatTimeString s)
                            else None)
                | FOther true => Throw "TypeError"
                | _ => Normal None
                end ;;
              description <-
                (if fieldTruthy (ValidationService.description eventData)
                 then s <- sanitizeField
                             (ValidationService.description eventData) ;;
                      Normal (Some s)
                 else Normal None) ;;
              Normal
                (Create
                   (EventModel.createParams
                      (EventModel.mkCreate
                         hash title
                         (ValidationService.event_date eventData)
                         event_time
                         (if fieldTruthy (ValidationService.icon eventData)
                          then ValidationService.icon eventData
                          else FString defaultIcon)
                         description)))
        end
  in
  match attempt with
  | Normal step => step
  | Throw _ => Respond 500 [ "Fehler beim Erstellen des Termins" ]
  end.

End WithHost.
End eventRoutes.

(** A database in which every user exists and has no events, a request
    to create an event and the row it leads to. *)
Definition sampleDatabase : Database :=
  mkDatabase (fun _ => Normal true) (fun _ => Normal true)
             (fun _ _ => Normal []).

Definition sampleRequest : JsonBody :=
  JsonObject
    (ValidationService.mkData (FString "  Team   meeting ")
                              (FString "2024-02-29") (FString "9:30")
                              FUndefined FNull).

Definition sampleRow : EventModel.InsertParams :=
  EventModel.mkParams sampleHash "Team meeting" (FString "2024-02-29")
                      (Some "09:30:00") (FString eventRoutes.defaultIcon) None.

(** A database that holds three events of one day for every user. *)
Definition feedDatabase : Database :=
  mkDatabase (fun _ => Normal true) (fun _ => Normal true)
             (fun _ _ => Normal [dayAllDay; dayAt0900; dayAt1700]).

(** A value of a query parameter, when there is one, is free of
    markers. *)
Definition parameterMarkerFree (v : option string) : bool :=
  match orUndefined v with
  | Some s => markerFree s
  | None => true
  end.

(* ================================================================== *)
(** ** CORS and rate limiting ([utils/core.ts]) *)
(* ================================================================== *)

(** [s.replace(pat, rep)] for a literal, non-empty pattern: the first
    occurrence is replaced. *)
Fixpoint dropChars (n : nat) (s : string) : string :=
  match n, s with
  | S k, String _ s' => dropChars k s'
  | _, _ => s
  end.

Fixpoint replaceFirst (pat rep s : string) : string :=
  match s with
  | EmptyString => EmptyString
  | String c s' =>
      if prefix pat s then rep ++ dropChars (String.length pat) s
      else String c (replaceFirst pat rep s')
  end.

(** [s.endsWith(suffix)]. *)
Fixpoint endsWith (suffix s : string) : bool :=
  match s with
  | EmptyString => String.eqb suffix EmptyString
  | String _ s' => String.eqb suffix s || endsWith suffix s'
  end.

(** The environment variables the module reads. *)
Record Env : Type := mkEnv {
  NODE_ENV : option string;
  FRONTEND_URL : option string;
  FRONTEND_URL_WWW : option string;
  ALLOW_SUBDOMAINS : option string
}.

(** The headers of a request the module reads. *)
Record Request : Type := mkRequest {
  method : string;
  origin : option string;            (* [None] for [null] *)
  cfConnectingIp : option string;
  forwardedFor : option string
}.

Module Core.

Record CorsConfig : Type := mkCors {
  allowedOrigins : list string;
  allowedMethods : list string;
  allowedHeaders : list string;
  maxAge : string;
  credentials : bool
}.

(** [process.env.X === text]. *)
Definition envIs (v : option string) (text : string) : bool :=
  match v with
  | Some s => String.eqb s text
  | None => false
  end.

Definition developmentConfig : CorsConfig :=
  mkCors [ "*" ]
         [ "GET"; "POST"; "PUT"; "DELETE"; "OPTIONS" ]
         [ "Content-Type"; "Authorization"; "X-Requested-With" ]
         "86400" false.

Definition productionConfig (env : Env) : CorsConfig :=
  mkCors (filter JSString.truthy
                 [ orElse (FRONTEND_URL env) ""; orElse (FRONTEND_URL_WWW env) "" ])
         [ "GET"; "POST"; "PUT"; "DELETE"; "OPTIONS" ]
         [ "Content-Type"; "Authorization"; "X-Requested-With" ]
         "86400" true.

(** What [validateCorsOrigin] returns: an origin, [null] or [false]. *)
Inductive OriginResult : Type :=
| OriginAllowed (o : string)
| OriginNull
| OriginBlocked.

(** [o.replace('https://www.', '').replace('https://', '')]. *)
Definition bareDomain (o : string) : string :=
  replaceFirst "https://" "" (replaceFirst "https://www." "" o).

Definition validateCorsOrigin (env : Env) (request : Request) : OriginResult :=
  let isProduction := envIs (NODE_ENV env) "production" in
  if negb isProduction then OriginAllowed (orElse (origin request) "*")
  else
    match origin request with
    | None => OriginNull
    | Some o =>
        if negb (JSString.truthy o) then OriginNull
        else
          let config := productionConfig env in
          if arrayIncludes (allowedOrigins config) o then OriginAllowed o
          else
            let allowSubdomains := envIs (ALLOW_SUBDOMAINS env) "true" in
            if allowSubdomains then
              let mainDomains :=
                map bareDomain
                    (filter (prefix "https://") (allowedOrigins config)) in
              let requestDomain := bareDomain o in
              if existsb (fun domain =>
                            endsWith ("." ++ domain) requestDomain
                            || String.eqb requestDomain domain)
                         mainDomains
              then OriginAllowed o
              else OriginBlocked
            else OriginBlocked
    end.

Definition getCorsHeaders (env : Env) (request : Request)
  : list (string * string) :=
  let isProduction := envIs (NODE_ENV env) "production" in
  let config := if isProduction then productionConfig env
                else developmentConfig in
  match validateCorsOrigin env request with
  | OriginBlocked => []
  | validOrigin =>
      let headers :=
        [ ("Access-Control-Allow-Methods", join ", " (allowedMethods config));
          ("Access-Control-Allow-Headers", join ", " (allowedHeaders config));
          ("Access-Control-Max-Age", maxAge config);
          ("Vary", "Origin") ] in
      let truthyOrigin :=
        match validOrigin with
        | OriginAllowed o => if JSString.truthy o then Some o else None
        | _ => None
        end in
      let headers1 :=
        match truthyOrigin with
        | Some o => JSObject.set headers "Access-Control-Allow-Origin" o
        | None => headers
        end in
      match truthyOrigin with
      | Some o =>
          if credentials config && negb (String.eqb o "*")
          then JSObject.set headers1 "Access-Control-Allow-Credentials" "true"
          else headers1
      | None => headers1
      end
  end.

Record RateWindow : Type := mkWindow {
  count : Z;
  resetTime : Z
}.

Record RateLimitResult : Type := mkRate {
  allowed : bool;
  retryAfter : option Z              (* [None] when the property is absent *)
}.

(** [Math.ceil(a / 1000)]; the differences divided here lie within a
    window of a minute when the clock does not run backwards. *)
Definition ceilSeconds (a : Z) : Z := - ((- a) / 1000).

(** [checkRateLimit(request)] with the map [rateLimitStore] passed in and
    out; [now] is the reading of the clock. *)
Definition checkRateLimit (env : Env) (request : Request) (now : Z)
           (store : list (string * RateWindow))
  : list (string * RateWindow) * RateLimitResult :=
  let isProduction := envIs (NODE_ENV env) "production" in
  if negb isProduction then (store, mkRate true None)
  else
    let ip := orElse (cfConnectingIp request)
                     (orElse (forwardedFor request) "unknown") in
    let windowMs := 60 * 1000 in
    let maxRequests := 100 in
    let key := "rate_limit:" ++ ip in
    match JSObject.ownGet store key with
    | None =>
        (JSObject.set store key (mkWindow 1 (now + windowMs)), mkRate true None)
    | Some current =>
        if resetTime current <? now
        then (JSObject.set store key (mkWindow 1 (now + windowMs)),
              mkRate true None)
        else if maxRequests <=? count current
        then (store,
              mkRate false (Some (ceilSeconds (resetTime current - now))))
        else (JSObject.set store key
                (mkWindow (count current + 1) (resetTime current)),
              mkRate true None)
    end.

End Core.

(** The requests of one client at the clock readings [times], one after
    the other: what the store becomes and how many were allowed. *)
Fixpoint serveAll (env : Env) (request : Request) (times : list Z)
         (store : list (string * Core.RateWindow))
  : list (string * Core.RateWindow) * nat :=
  match times with
  | [] => (store, O)
  | now :: rest =>
      let '(store1, result) := Core.checkRateLimit env request now store in
      let '(store2, n) := serveAll env request rest store1 in
      (store2, if Core.allowed result then S n else n)
  end.

(** A production environment for the site [https://example.org] with
    the subdomain rule switched on, and a request from the site. *)
Definition productionEnv : Env :=
  mkEnv (Some "production") (Some "https://example.org") None (Some "true").

Definition siteRequest : Request :=
  mkRequest "GET" (Some "https://example.org") None (Some "203.0.113.7").

(** A request whose origin is a host under the site, over plain HTTP. *)
Definition plainHttpRequest : Request :=
  mkRequest "GET" (Some "http://evil.example.org") None None.

(* ================================================================== *)
(** ** The router ([Router], which binds the routes to their paths) *)
(* ================================================================== *)

Module Router.

(** The handlers the routes are bound to. *)
Inductive Handler : Type :=
| Register | Verify | EmailStatus
| GetEvents | CreateEvent | UpdateEvent | DeleteEvent
| GetUpcomingEvents | GetEventsByMonth | GetAvailableIcons
| GenerateFeed | GetCalendarInfo | ValidateFeed
| HealthCheck | ApiInfo.

Record Route : Type := mkRoute {
  method : string;
  path : string;
  handler : Handler
}.

(** The routes in the order [setupRoutes] adds them. *)
Definition routes : list Route :=
  [ mkRoute "POST" "/api/register" Register;
    mkRoute "POST" "/api/verify" Verify;
    mkRoute "GET" "/api/verify" Verify;
    mkRoute "GET" "/api/email-status" EmailStatus;
    mkRoute "GET" "/api/events/:hash" GetEvents;
    mkRoute "POST" "/api/events/:hash" CreateEvent;
    mkRoute "PUT" "/api/events/:hash/:id" UpdateEvent;
    mkRoute "DELETE" "/api/events/:hash/:id" DeleteEvent;
    mkRoute "GET" "/api/events/:hash/upcoming" GetUpcomingEvents;
    mkRoute "GET" "/api/events/:hash/by-month" GetEventsByMonth;
    mkRoute "GET" "/api/icons" GetAvailableIcons;
    mkRoute "GET" "/api/ical/:hash" GenerateFeed;
    mkRoute "GET" "/api/ical/:hash/info" GetCalendarInfo;
    mkRoute "GET" "/api/ical/:hash/validate" ValidateFeed;
    mkRoute "GET" "/api/health" HealthCheck;
    mkRoute "GET" "/api" ApiInfo ].

(** [s.slice(1)]. *)
Definition slice1 (s : string) : string :=
  match s with
  | EmptyString => EmptyString
  | String _ s' => s'
  end.

(** The loop of [matchPath] over the parts; the two lists have the same
    length when it runs. *)
Fixpoint matchParts (routeParts requestParts : list string)
         (params : list (string * string)) : option (list (string * string)) :=
  match routeParts, requestParts with
  | [], _ => Some params
  | routePart :: routeRest, requestPart :: requestRest =>
      if prefix ":" routePart
      then matchParts routeRest requestRest
                      (JSObject.set params (slice1 routePart) requestPart)
      else if negb (String.eqb routePart requestPart) then None
      else matchParts routeRest requestRest params
  | _ :: _, [] => None
  end.

(** [None] stands for [null]. *)
Definition matchPath (routePath requestPath : string)
  : option (list (string * string)) :=
  let routeParts := split "/" routePath in
  let requestParts := split "/" requestPath in
  if negb (Nat.eqb (List.length routeParts) (List.length requestParts))
  then None
  else matchParts routeParts requestParts [].

(** What [handle] does with a request: it calls the handler of the first
    route that matches, or answers that there is no such route. *)
Inductive Dispatch : Type :=
| Call (h : Handler) (params : list (string * string))
| NotFound.

Fixpoint handleFrom (table : list Route) (requestMethod pathname : string)
  : Dispatch :=
  match table with
  | [] => NotFound
  | route :: rest =>
      if negb (String.eqb (method route) requestMethod)
      then handleFrom rest requestMethod pathname
      else
        match matchPath (path route) pathname with
        | Some params => Call (handler route) params
        | None => handleFrom rest requestMethod pathname
        end
  end.

Definition handle (requestMethod pathname : string) : Dispatch :=
  handleFrom routes requestMethod pathname.

End Router.

(** Two route patterns that some path can match both: they have the same
    number of parts, and where both have a fixed part it is the same. *)
Fixpoint partsOverlap (a b : list string) : bool :=
  match a, b with
  | [], [] => true
  | x :: a', y :: b' =>
      (prefix ":" x || prefix ":" y || String.eqb x y) && partsOverlap a' b'
  | _, _ => false
  end.

Definition routesOverlap (r1 r2 : Router.Route) : bool :=
  String.eqb (Router.method r1) (Router.method r2)
  && partsOverlap (split "/" (Router.path r1)) (split "/" (Router.path r2)).

(** The routes at two different places of a table never overlap. *)
Fixpoint noOverlap (table : list Router.Route) : bool :=
  match table with
  | [] => true
  | r :: rest =>
      forallb (fun r' => negb (routesOverlap r r')) rest && noOverlap rest
  end.

(* ================================================================== *)
(** ** Events grouped by month ([EventModel.getEventsByMonth]) *)
(* ================================================================== *)

(** A row of the query: the event with the year and the month the
    database computed from its date. *)
Record MonthRow : Type := mkMonthRow {
  row_event : Event;
  row_year : Z;
  row_month : Z
}.

Record MonthGroup : Type := mkMonthGroup {
  group_year : Z;
  group_month : Z;
  group_count : Z;
  group_events : list Event
}.

(** The key [`${year}-${month}`] of the map. *)
Definition monthKey (year month : Z) : string :=
  ofZ year ++ "-" ++ ofZ month.

(** One round of the [forEach] over the rows on the map [grouped]; the
    group is there when it is looked up, the round has just made sure of
    it. *)
Definition groupRow (grouped : list (string * MonthGroup)) (row : MonthRow)
  : list (string * MonthGroup) :=
  let key := monthKey (row_year row) (row_month row) in
  let grouped1 :=
    match JSObject.ownGet grouped key with
    | Some _ => grouped
    | None =>
        JSObject.set grouped key
                     (mkMonthGroup (row_year row) (row_month row) 0 [])
    end in
  match JSObject.ownGet grouped1 key with
  | Some group =>
      JSObject.set grouped1 key
        (mkMonthGroup (group_year group) (group_month group)
                      (group_count group + 1)
                      (group_events group ++ [row_event row])%list)
  | None => grouped1
  end.

(** The comparator of the final sort, by the sign of its result. *)
Definition compareGroups (a b : MonthGroup) : comparison :=
  if negb (group_year a =? group_year b)
  then group_year a - group_year b ?= 0
  else group_month a - group_month b ?= 0.

(** The part of [getEventsByMonth] behind the query. *)
Definition getEventsByMonth (rows : list MonthRow) : list MonthGroup :=
  sortStable compareGroups (map snd (fold_left groupRow rows [])).

(** The total of the counts of the groups. *)
Fixpoint totalCount (groups : list MonthGroup) : Z :=
  match groups with
  | [] => 0
  | g :: rest => group_count g + totalCount rest
  end.

(** The events of the rows with a given key, in the order of the rows. *)
Definition eventsOfKey (key : string) (rows : list MonthRow) : list Event :=
  map row_event
      (filter (fun row => String.eqb (monthKey (row_year row) (row_month row))
                                     key)
              rows).

(** What holds of the map after the rows [done]. *)
Definition groupedFor (grouped : list (string * MonthGroup))
           (done : list MonthRow) : Prop :=
  (forall k g,
      JSObject.ownGet grouped k = Some g ->
      k = monthKey (group_year g) (group_month g)
      /\ group_events g = eventsOfKey k done
      /\ group_count g = Z.of_nat (List.length (group_events g))
      /\ group_events g <> [])
  /\ (forall k, JSObject.ownGet grouped k = None -> eventsOfKey k done = [])
  /\ NoDup (map fst grouped)
  /\ totalCount (map snd grouped) = Z.of_nat (List.length done).

(* ================================================================== *)
(** * Properties *)
(* ================================================================== *)

(* ================================================================== *)
(** ** Validation: validity is the absence of errors *)
(* ================================================================== *)

Lemma pushUnless_nil (found : bool) (msg : string) (errs : list string) :
  pushUnless found msg errs = [] <-> found = true /\ errs = [].
Proof.
  unfold pushUnless. destruct found.
  - split; [intros ->; auto | intros [_ H]; exact H].
  - split.
    + intros H. destruct errs; discriminate H.
    + intros [H _]. discriminate H.
Qed.

Lemma structureErrors_nil (doc : string) :
  structureErrors doc = [] <->
  includes "BEGIN:VCALENDAR" doc = true /\
  includes "END:VCALENDAR" doc = true /\
  includes "VERSION:2.0" doc = true /\
  includes "PRODID:" doc = true /\
  matchCount "BEGIN:VEVENT" doc = matchCount "END:VEVENT" doc.
Proof.
  unfold structureErrors. rewrite !pushUnless_nil, Nat.eqb_eq. tauto.
Qed.

Lemma length_zero_nil {A : Type} (l : list A) :
  Nat.eqb (List.length l) O = true <-> l = [].
Proof.
  destruct l; simpl; split; intros H; try reflexivity; discriminate H.
Qed.

(** C8.  For every document, [validateCalendar] answers [isValid = true]
    exactly when its [errors] list is empty, and [isValid] is the
    conjunction of the five structural checks (the four markers and the
    balance of the VEVENT counts): the warnings, and the line lengths they
    come from, take no part in it. *)
Theorem validateCalendar_valid_iff_no_errors (doc : string) :
  (isValid (validateCalendar doc) = true <-> errors (validateCalendar doc) = [])
  /\ isValid (validateCalendar doc) =
       (includes "BEGIN:VCALENDAR" doc && includes "END:VCALENDAR" doc
        && includes "VERSION:2.0" doc && includes "PRODID:" doc
        && Nat.eqb (matchCount "BEGIN:VEVENT" doc) (matchCount "END:VEVENT" doc)).
Proof.
  split.
  - simpl. apply length_zero_nil.
  - simpl. apply eq_true_iff_eq.
    rewrite length_zero_nil, structureErrors_nil, !andb_true_iff, Nat.eqb_eq.
    tauto.
Qed.

(** A document can be valid and carry warnings. *)
Example valid_with_warnings :
  let doc := generateCalendar hostUTC defaultConfig frozenClock
               [allDayEvent 1 (zeros 80) "2024-05-01"] sampleHash in
  isValid (validateCalendar doc) = true
  /\ List.length (warnings (validateCalendar doc)) = 1%nat.
Proof. vm_compute. split; reflexivity. Qed.

(* ================================================================== *)
(** ** Construction performs no validation *)
(* ================================================================== *)



(* ================================================================== *)
(** ** Categories and priorities *)
(* ================================================================== *)

Lemma iconToPriority_range (icon : string) :
  iconToPriority icon = 1 \/ iconToPriority icon = 5 \/ iconToPriority icon = 9.
Proof.
  unfold iconToPriority.
  destruct (arrayIncludes highPriority icon); [now left|].
  destruct (arrayIncludes lowPriority icon); [now right; right | now right; left].
Qed.

Ltac split_eqb :=
  repeat match goal with
         | |- context [String.eqb ?a ?b] =>
             lazymatch b with
             | String _ _ => fail
             | EmptyString => fail
             | _ => idtac
             end;
             destruct (String.eqb a b)
         end.

Lemma categoryMap_values (icon s : string) :
  JSObject.ownGet categoryMap icon = Some s ->
  arrayIncludes categories s = true /\ JSString.truthy s = true.
Proof.
  unfold categoryMap. cbn [JSObject.ownGet]. split_eqb;
    intros H; try discriminate H; injection H as <-; split; reflexivity.
Qed.

(** Off the names of [Object.prototype], the lookup is total into the
    category set, with [PERSONAL] for an icon the table does not list. *)
Lemma iconToCategory_in_set (icon : string) :
  inheritedKey icon = false -> isCategory (iconToCategory icon) = true.
Proof.
  unfold inheritedKey, iconToCategory, JSObject.get. intros Hk.
  destruct (JSObject.ownGet categoryMap icon) as [s|] eqn:Hown.
  - destruct (categoryMap_values _ _ Hown) as [Hin Ht].
    cbn [JSObject.truthy]. rewrite Ht. exact Hin.
  - rewrite Hk. reflexivity.
Qed.

Lemma iconToCategory_truthy (icon : string) :
  JSObject.truthy (iconToCategory icon) = true.
Proof.
  unfold iconToCategory.
  destruct (JSObject.truthy (JSObject.get categoryMap icon)) eqn:E;
    [exact E | reflexivity].
Qed.

(** The key [generateStats] counts a category under is never a name of
    [Object.prototype]. *)
Lemma category_key_own (icon : string) :
  JSObject.prototypeGet (JSObject.toString (iconToCategory icon)) = VUndefined.
Proof.
  unfold iconToCategory, JSObject.get.
  destruct (JSObject.ownGet categoryMap icon) as [s|] eqn:Hown.
  - destruct (categoryMap_values _ _ Hown) as [Hin Ht].
    cbn [JSObject.truthy]. rewrite Ht. cbn [JSObject.toString].
    unfold arrayIncludes, categories in Hin. cbn [existsb] in Hin.
    rewrite !orb_true_iff in Hin.
    repeat (destruct Hin as [Hin|Hin]);
      try discriminate Hin; apply String.eqb_eq in Hin; subst s; reflexivity.
  - unfold JSObject.prototypeGet.
    destruct (String.eqb icon "constructor"); [reflexivity|].
    destruct (String.eqb icon "__proto__"); [reflexivity|].
    destruct (existsb (String.eqb icon) JSObject.prototypeFunctions) eqn:Hf;
      [|reflexivity].
    unfold JSObject.prototypeFunctions in Hf. cbn [existsb] in Hf.
    rewrite !orb_true_iff in Hf.
    repeat (destruct Hf as [Hf|Hf]);
      try discriminate Hf; apply String.eqb_eq in Hf; subst icon; reflexivity.
Qed.

Lemma filterUpcoming_string_dates (today : string) (events : list Event) :
  forallb hasStringDate events = true ->
  exists upcoming, filterUpcoming today events = Normal upcoming.
Proof.
  induction events as [|e rest IH]; intros H.
  - now exists [].
  - cbn [forallb] in H. apply andb_true_iff in H as [He Hrest].
    destruct (IH Hrest) as [up Hup].
    unfold hasStringDate in He. cbn [filterUpcoming]. unfold dateKey.
    destruct (event_date e) as [s|d]; [|discriminate He].
    cbn [bind]. rewrite Hup. cbn [bind]. eauto.
Qed.

(** [generateStats] completes normally on events dated by strings,
    whatever their icons are. *)
Lemma generateStats_total_on_string_dates (now : Z) (events : list Event) :
  forallb hasStringDate events = true ->
  exists stats, generateStats now events = Normal stats.
Proof.
  intros H. unfold generateStats, isoDay.
  cbn [JSDateText.toISOString bind].
  edestruct filterUpcoming_string_dates as [up Hup]; [exact H|].
  rewrite Hup. cbn [bind]. eauto.
Qed.

(** C5, the failing input.  The icon [constructor] is not a key of the
    category table, yet the lookup finds the function the table inherits
    from [Object.prototype]; that value is truthy, so the [PERSONAL]
    fallback is not taken and [iconToCategory] returns a function, not a
    member of the category set.  The event block then has a CATEGORIES
    line, the text of that function, which names none of the six
    categories.  (The priority of the same icon is the normal one, 5.) *)
Theorem iconToCategory_constructor_not_a_category :
  let lines :=
    generateEvent hostUTC defaultConfig sampleInstant
      (mkEvent 1 sampleHash "Review" (DateString "2024-05-01") None
               "constructor" None (Some sampleInstant) (Some sampleInstant))
      sampleHash in
  iconToCategory "constructor" = VNativeFunction "Object"
  /\ isCategory (iconToCategory "constructor") = false
  /\ iconToPriority "constructor" = 5
  /\ existsb (prefix "CATEGORIES:") lines = true
  /\ forallb (fun c => negb (arrayIncludes lines ("CATEGORIES:" ++ c)))
             categories = true.
Proof.
  cbv zeta.
  split; [reflexivity|]. split; [reflexivity|]. split; [reflexivity|].
  split; vm_compute; reflexivity.
Qed.

(* ================================================================== *)
(** ** Determinism of generation under a frozen clock *)
(* ================================================================== *)




(* ================================================================== *)
(** ** Escaping *)
(* ================================================================== *)

Lemma append_assoc (a b c : string) : (a ++ b) ++ c = a ++ (b ++ c).
Proof. induction a as [|x a IH]; simpl; [reflexivity | now rewrite IH]. Qed.

Lemma append_nil_r (a : string) : a ++ "" = a.
Proof. induction a as [|x a IH]; simpl; [reflexivity | now rewrite IH]. Qed.

Lemma length_append (a b : string) :
  String.length (a ++ b) = (String.length a + String.length b)%nat.
Proof. induction a as [|x a IH]; simpl; [reflexivity | now rewrite IH]. Qed.

Lemma replaceAll_append (c : ascii) (rep a b : string) :
  replaceAll c rep (a ++ b) = replaceAll c rep a ++ replaceAll c rep b.
Proof.
  induction a as [|x a IH]; simpl; [reflexivity|].
  destruct (Ascii.eqb x c); simpl; rewrite IH; [|reflexivity].
  now rewrite append_assoc.
Qed.

Lemma substring0_short (n : nat) (s : string) :
  (String.length s <= n)%nat -> substring0 n s = s.
Proof.
  unfold substring0. revert n. induction s as [|x s IH]; intros n H.
  - destruct n; reflexivity.
  - destruct n as [|n]; simpl in H; [lia|].
    simpl. rewrite IH; [reflexivity | lia].
Qed.

(** The five replacements, run in the order of the source, amount to one
    pass that rewrites each character of the input once: no character a
    rule wrote is rewritten by a later rule. *)
Lemma replacements_single_pass (s : string) :
  replaceAll CR ""
    (replaceAll LF (String backslash "n")
       (replaceAll ","%char (String backslash ",")
          (replaceAll ";"%char (String backslash ";")
             (replaceAll backslash (String backslash (String backslash "")) s))))
  = escapeAll s.
Proof.
  induction s as [|a s IH]; [reflexivity|].
  cbn [escapeAll]. rewrite <- IH. unfold escapeChar.
  cbn [replaceAll].
  destruct (Ascii.eqb_spec a backslash) as [->|Hb];
    [cbn; reflexivity|].
  cbn [replaceAll].
  destruct (Ascii.eqb_spec a ";"%char) as [->|Hs]; [cbn; reflexivity|].
  cbn [replaceAll].
  destruct (Ascii.eqb_spec a ","%char) as [->|Hc]; [cbn; reflexivity|].
  cbn [replaceAll].
  destruct (Ascii.eqb_spec a LF) as [->|Hl]; [cbn; reflexivity|].
  cbn [replaceAll].
  destruct (Ascii.eqb_spec a CR) as [->|Hr]; [cbn; reflexivity|].
  reflexivity.
Qed.

Lemma escapeAll_length (s : string) :
  (String.length (escapeAll s) <= 2 * String.length s)%nat.
Proof.
  induction s as [|a s IH]; [simpl; lia|].
  cbn [escapeAll]. rewrite length_append. unfold escapeChar.
  repeat match goal with
         | |- context [Ascii.eqb a ?c] => destruct (Ascii.eqb a c)
         end; simpl; lia.
Qed.

(** Reading the escaped text gives the input back, carriage returns
    removed. *)
Lemma unescape_escapeAll (s : string) :
  unescape (escapeAll s) = Some (replaceAll CR "" s).
Proof.
  induction s as [|a s IH]; [reflexivity|].
  cbn [escapeAll replaceAll]. unfold escapeChar.
  destruct (Ascii.eqb_spec a backslash) as [->|Hb];
    [cbn; rewrite IH; reflexivity|].
  destruct (Ascii.eqb_spec a ";"%char) as [->|Hs];
    [cbn; rewrite IH; reflexivity|].
  destruct (Ascii.eqb_spec a ","%char) as [->|Hc];
    [cbn; rewrite IH; reflexivity|].
  destruct (Ascii.eqb_spec a LF) as [->|Hl];
    [cbn; rewrite IH; reflexivity|].
  destruct (Ascii.eqb_spec a CR) as [->|Hr];
    [cbn; rewrite IH; reflexivity|].
  cbn [append unescape].
  apply Ascii.eqb_neq in Hb, Hs, Hc, Hl, Hr.
  rewrite Hb, Hs, Hc, Hl, Hr. cbn [orb]. rewrite IH. reflexivity.
Qed.

Lemma escapeText_short (s : string) :
  (String.length s <= 500)%nat -> escapeText s = escapeAll s.
Proof.
  intros H. unfold escapeText. rewrite replacements_single_pass.
  apply substring0_short. pose proof (escapeAll_length s). lia.
Qed.



(** Beyond that length the truncation can cut an escape pair in two: the
    escaped text then ends in a lone backslash and is not TEXT any more. *)
Example truncation_cuts_escape_pair :
  unescape (escapeText (zeros 999 ++ ";")) = None.
Proof. vm_compute. reflexivity. Qed.

(* ================================================================== *)
(** ** The next event *)
(* ================================================================== *)

Section StableSortHead.
Context {A : Type} (cmp : A -> A -> comparison).
Hypothesis cmp_antisym : forall a b, cmp a b = CompOpp (cmp b a).
Hypothesis cmp_trans :
  forall a b c, cmp a b <> Gt -> cmp b c <> Gt -> cmp a c <> Gt.

Lemma insertSorted_not_nil (x : A) (l : list A) : insertSorted cmp x l <> [].
Proof. destruct l as [|y l]; simpl; [|destruct (cmp x y)]; discriminate. Qed.

Lemma sortStable_nil (l : list A) : sortStable cmp l = [] -> l = [].
Proof.
  destruct l as [|x l]; [reflexivity|]. simpl. intros H.
  now apply insertSorted_not_nil in H.
Qed.



Lemma sortStable_head_none (l : list A) :
  hd_error (sortStable cmp l) = None -> l = [].
Proof.
  intros H. apply sortStable_nil. now destruct (sortStable cmp l).
Qed.

End StableSortHead.

Lemma ascii_compare_refl (a : ascii) : Ascii.compare a a = Eq.
Proof. unfold Ascii.compare. apply N.compare_refl. Qed.







(** When the filter completes, it kept the events whose date text is not
    below today's. *)
Lemma filterUpcoming_normal (today : string) (events upcoming : list Event) :
  filterUpcoming today events = Normal upcoming ->
  upcoming = filter (fun e => geb (dateKeyText e) today) events.
Proof.
  revert upcoming. induction events as [|e rest IH]; intros upcoming H.
  - injection H as <-. reflexivity.
  - cbn [filterUpcoming] in H. cbn [filter]. unfold dateKeyText.
    destruct (dateKey e) as [k|err]; [|discriminate H].
    cbn [bind] in H.
    destruct (filterUpcoming today rest) as [rest'|err]; [|discriminate H].
    cbn [bind] in H. injection H as <-.
    rewrite (IH rest' eq_refl). reflexivity.
Qed.


(** *** The order of date texts is the order of the dates *)

Lemma Some_inj {A : Type} (a b : A) : Some a = Some b -> a = b.
Proof. intros H. now injection H. Qed.

Lemma digit_bounds (c : ascii) (x : Z) :
  JSDateText.digit c = Some x -> 0 <= x <= 9.
Proof.
  unfold JSDateText.digit. cbv zeta.
  destruct (Z.leb_spec 48 (Z.of_nat (nat_of_ascii c)));
    destruct (Z.leb_spec (Z.of_nat (nat_of_ascii c)) 57);
    cbn [andb]; intros Hx; try discriminate Hx.
  apply Some_inj in Hx. lia.
Qed.

Lemma digits2_bounds (a b : ascii) (x : Z) :
  JSDateText.digits2 a b = Some x -> 0 <= x <= 99.
Proof.
  unfold JSDateText.digits2.
  destruct (JSDateText.digit a) as [p|] eqn:Ha; [|discriminate].
  destruct (JSDateText.digit b) as [q|] eqn:Hb; [|discriminate].
  apply digit_bounds in Ha, Hb. intros H. apply Some_inj in H. lia.
Qed.

Lemma digits4_bounds (a b c d : ascii) (x : Z) :
  JSDateText.digits4 a b c d = Some x -> 0 <= x <= 9999.
Proof.
  unfold JSDateText.digits4.
  destruct (JSDateText.digits2 a b) as [p|] eqn:Ha; [|discriminate].
  destruct (JSDateText.digits2 c d) as [q|] eqn:Hb; [|discriminate].
  apply digits2_bounds in Ha, Hb. intros H. apply Some_inj in H. lia.
Qed.

Lemma digit_code (c : ascii) (x : Z) :
  JSDateText.digit c = Some x -> Z.of_N (N_of_ascii c) = x + 48.
Proof.
  unfold JSDateText.digit, nat_of_ascii. cbv zeta. rewrite N_nat_Z.
  destruct ((48 <=? Z.of_N (N_of_ascii c)) && (Z.of_N (N_of_ascii c) <=? 57));
    intros H; [|discriminate H].
  apply (f_equal (fun o => match o with Some v => v | None => 0 end)) in H.
  cbv beta iota in H. lia.
Qed.

Lemma ascii_compare_digits (c c' : ascii) (x x' : Z) :
  JSDateText.digit c = Some x -> JSDateText.digit c' = Some x' ->
  Ascii.compare c c' = (x ?= x').
Proof.
  intros H H'. apply digit_code in H, H'. unfold Ascii.compare.
  rewrite <- N2Z.inj_compare, H, H', !(Z.add_comm _ 48).
  apply Z.add_compare_mono_l.
Qed.

Lemma digits2_inv (a b : ascii) (v : Z) :
  JSDateText.digits2 a b = Some v ->
  exists x y,
    JSDateText.digit a = Some x /\ JSDateText.digit b = Some y
    /\ v = 10 * x + y /\ 0 <= x <= 9 /\ 0 <= y <= 9.
Proof.
  unfold JSDateText.digits2.
  destruct (JSDateText.digit a) as [x|] eqn:Ha; [|discriminate].
  destruct (JSDateText.digit b) as [y|] eqn:Hb; [|discriminate].
  intros H. apply Some_inj in H. exists x, y.
  pose proof (digit_bounds _ _ Ha). pose proof (digit_bounds _ _ Hb).
  repeat split; auto; lia.
Qed.

Lemma digits4_inv (a b c d : ascii) (v : Z) :
  JSDateText.digits4 a b c d = Some v ->
  exists p q,
    JSDateText.digits2 a b = Some p /\ JSDateText.digits2 c d = Some q
    /\ v = 100 * p + q /\ 0 <= p <= 99 /\ 0 <= q <= 99.
Proof.
  unfold JSDateText.digits4.
  destruct (JSDateText.digits2 a b) as [p|] eqn:Ha; [|discriminate].
  destruct (JSDateText.digits2 c d) as [q|] eqn:Hb; [|discriminate].
  intros H. apply Some_inj in H. exists p, q.
  pose proof (digits2_bounds _ _ _ Ha). pose proof (digits2_bounds _ _ _ Hb).
  repeat split; auto; lia.
Qed.

(** Numbers written with the same number of digits compare as their
    digits do, the leading ones first. *)
Lemma compare_positional (base a b a' b' : Z) :
  0 <= b < base -> 0 <= b' < base ->
  (base * a + b ?= base * a' + b') = thenCompare (a ?= a') (b ?= b').
Proof.
  intros Hb Hb'. destruct (Z.compare_spec a a') as [->|Hlt|Hgt]; cbn [thenCompare].
  - apply Z.add_compare_mono_l.
  - apply Z.compare_lt_iff. nia.
  - apply Z.compare_gt_iff. nia.
Qed.

Lemma compare_2digits (a b a' b' : ascii) (v v' : Z) :
  JSDateText.digits2 a b = Some v -> JSDateText.digits2 a' b' = Some v' ->
  (v ?= v') = thenCompare (Ascii.compare a a') (Ascii.compare b b').
Proof.
  intros H H'.
  destruct (digits2_inv _ _ _ H) as (x & y & Hx & Hy & -> & Bx & By).
  destruct (digits2_inv _ _ _ H') as (x' & y' & Hx' & Hy' & -> & Bx' & By').
  rewrite (ascii_compare_digits _ _ _ _ Hx Hx'),
    (ascii_compare_digits _ _ _ _ Hy Hy').
  apply compare_positional; lia.
Qed.

(** Two date strings of the form [YYYY-MM-DD] compare, code unit by code
    unit, as the dates they name. *)
Lemma localeCompare_dates (s1 s2 : string) (y1 m1 d1 y2 m2 d2 : Z) :
  JSDateText.readDate s1 = Some (y1, m1, d1, "") ->
  JSDateText.readDate s2 = Some (y2, m2, d2, "") ->
  localeCompare s1 s2 = compareDates (y1, m1, d1) (y2, m2, d2).
Proof.
  unfold JSDateText.readDate, localeCompare.
  do 10 (destruct s1 as [|? s1]; [discriminate|]).
  do 10 (destruct s2 as [|? s2]; [discriminate|]).
  repeat match goal with
         | |- context [Ascii.eqb ?c "-"] =>
             destruct (Ascii.eqb_spec c "-"); [subst c|]
         end; cbn [andb]; try discriminate.
  repeat match goal with
         | |- context [JSDateText.digits4 ?a ?b ?c ?d] =>
             let E := fresh "E" in
             destruct (JSDateText.digits4 a b c d) eqn:E; [|discriminate]
         | |- context [JSDateText.digits2 ?a ?b] =>
             let E := fresh "E" in
             destruct (JSDateText.digits2 a b) eqn:E; [|discriminate]
         end.
  intros H1 H2.
  apply Some_inj in H1, H2.
  injection H1 as -> -> -> ->. injection H2 as -> -> -> ->.
  cbn [String.compare compareDates].
  repeat match goal with
         | E : JSDateText.digits4 _ _ _ _ = Some _ |- _ =>
             let p := fresh "p" in let q := fresh "q" in
             destruct (digits4_inv _ _ _ _ _ E) as (p & q & ? & ? & -> & ? & ?);
             clear E
         end.
  rewrite (compare_positional 100) by lia.
  repeat match goal with
         | E : JSDateText.digits2 ?a ?b = Some ?v,
           E' : JSDateText.digits2 ?a' ?b' = Some ?v'
           |- context [?v ?= ?v'] =>
             rewrite (compare_2digits a b a' b' v v' E E')
         end.
  rewrite !ascii_compare_refl.
  repeat match goal with
         | |- context [Ascii.compare ?a ?b] => destruct (Ascii.compare a b)
         end; reflexivity.
Qed.




(** The example of the specification: of three upcoming events of one
    day, one without a time, one at 09:00 and one at 17:00, the next event
    is the one without a time, in whatever order they are given; and
    without upcoming events there is no next event. *)
Example nextEvent_three_events_of_a_day :
  nextEventOf sampleInstant [dayAllDay; dayAt0900; dayAt1700] = Some dayAllDay
  /\ nextEventOf sampleInstant [dayAllDay; dayAt1700; dayAt0900] = Some dayAllDay
  /\ nextEventOf sampleInstant [dayAt0900; dayAllDay; dayAt1700] = Some dayAllDay
  /\ nextEventOf sampleInstant [dayAt0900; dayAt1700; dayAllDay] = Some dayAllDay
  /\ nextEventOf sampleInstant [dayAt1700; dayAllDay; dayAt0900] = Some dayAllDay
  /\ nextEventOf sampleInstant [dayAt1700; dayAt0900; dayAllDay] = Some dayAllDay
  /\ nextEventOf sampleInstant [dayAt0900; dayAt1700] = Some dayAt0900
  /\ nextEventOf sampleInstant [allDayEvent 5 "Past" "2020-01-01"] = None
  /\ nextEventOf sampleInstant [] = None.
Proof. vm_compute. repeat split; reflexivity. Qed.

(* ================================================================== *)
(** ** Occurrences of a pattern in a text *)
(* ================================================================== *)

Lemma prefix_cons (a b : ascii) (p s : string) :
  prefix (String a p) (String b s) = Ascii.eqb a b && prefix p s.
Proof.
  cbn [prefix]. destruct (Ascii.ascii_dec a b) as [->|Hne].
  - now rewrite Ascii.eqb_refl.
  - apply Ascii.eqb_neq in Hne. now rewrite Hne.
Qed.

Lemma prefix_nil_l (s : string) : prefix "" s = true.
Proof. destruct s; reflexivity. Qed.

Lemma prefix_length (p s : string) :
  prefix p s = true -> (String.length p <= String.length s)%nat.
Proof.
  revert s. induction p as [|a p IH]; intros [|b s] H; simpl; try lia.
  - discriminate H.
  - rewrite prefix_cons in H. apply andb_true_iff in H as [_ H].
    apply IH in H. lia.
Qed.

Lemma prefix_append (p a b : string) :
  prefix p a = true -> prefix p (a ++ b) = true.
Proof.
  revert a. induction p as [|x p IH]; intros a H; [apply prefix_nil_l|].
  destruct a as [|y a]; [discriminate H|].
  cbn [append]. rewrite prefix_cons in *.
  apply andb_true_iff in H as [H1 H2]. rewrite H1. cbn. now apply IH.
Qed.

(** A character that is not in the pattern stops every match. *)
Lemma prefix_stop (c : ascii) (p a b : string) :
  hasChar c p = false -> prefix p (a ++ String c b) = prefix p a.
Proof.
  revert a. induction p as [|x p IH]; intros a H.
  - now rewrite !prefix_nil_l.
  - cbn [hasChar] in H. apply orb_false_iff in H as [Hx Hp].
    destruct a as [|y a].
    + cbn [append]. rewrite prefix_cons, Hx. reflexivity.
    + cbn [append]. rewrite !prefix_cons, (IH a Hp). reflexivity.
Qed.

Lemma prefix_compat (p x v : string) :
  prefix p (x ++ v) = true -> compat p x = true.
Proof.
  revert x. induction p as [|a p IH]; intros [|b x] H; try reflexivity.
  cbn [append] in H. rewrite prefix_cons in H.
  apply andb_true_iff in H as [H1 H2].
  cbn [compat]. rewrite H1. cbn. now apply IH.
Qed.

Lemma includes_nil_l (s : string) : includes "" s = true.
Proof. destruct s; reflexivity. Qed.

Lemma includes_prefix (p s : string) : prefix p s = true -> includes p s = true.
Proof. destruct s as [|a s]; intros H; cbn [includes]; [exact H | now rewrite H]. Qed.

Lemma includes_append_r (p a b : string) :
  includes p b = true -> includes p (a ++ b) = true.
Proof.
  intros H. induction a as [|x a IH]; [exact H|].
  cbn [append includes]. rewrite IH. apply orb_true_r.
Qed.

Lemma includes_append_l (p a b : string) :
  includes p a = true -> includes p (a ++ b) = true.
Proof.
  induction a as [|x a IH]; intros H.
  - cbn [includes] in H. destruct p; [apply includes_nil_l | discriminate H].
  - cbn [includes] in H. cbn [append includes].
    apply orb_true_iff in H as [H|H].
    + change (String x (a ++ b)) with (String x a ++ b).
      now rewrite (prefix_append _ _ b H).
    + rewrite (IH H). apply orb_true_r.
Qed.

Lemma includes_short (p s : string) :
  (String.length s < String.length p)%nat -> includes p s = false.
Proof.
  induction s as [|x s IH]; intros H.
  - destruct p; [simpl in H; lia | reflexivity].
  - cbn [includes]. rewrite IH by (simpl in H; lia).
    destruct (prefix p (String x s)) eqn:E; [|reflexivity].
    apply prefix_length in E. lia.
Qed.

(** A text that lacks a character of the pattern does not hold it. *)
Lemma includes_missing_char (c : ascii) (p s : string) :
  hasChar c p = true -> hasChar c s = false -> includes p s = false.
Proof.
  intros Hp. assert (Hpre : forall s, hasChar c s = false -> prefix p s = false).
  { clear s. revert Hp. induction p as [|a p IH]; intros Hp s Hs;
      [discriminate Hp|].
    destruct s as [|b s]; [reflexivity|].
    rewrite prefix_cons. cbn [hasChar] in Hp, Hs.
    apply orb_false_iff in Hs as [Hb Hs].
    destruct (Ascii.eqb_spec a b) as [->|Hab]; [|reflexivity].
    rewrite Hb in Hp. cbn in *. now apply IH. }
  induction s as [|x s IH]; intros Hs.
  - destruct p; [discriminate Hp | reflexivity].
  - cbn [includes]. rewrite (Hpre _ Hs).
    cbn [hasChar] in Hs. apply orb_false_iff in Hs as [_ Hs].
    now apply IH.
Qed.

(** Around a character that is not in the pattern, the occurrences are
    those of the two sides. *)
Lemma includes_split_char (c : ascii) (p a l b : string) :
  hasChar c p = false -> p <> "" ->
  includes p (a ++ String c l ++ b) = includes p a || includes p (l ++ b).
Proof.
  intros Hc Hp. cbn [append].
  assert (Hhead : prefix p (String c (l ++ b)) = false).
  { destruct p as [|x p]; [congruence|].
    rewrite prefix_cons. cbn [hasChar] in Hc.
    apply orb_false_iff in Hc as [Hx _]. now rewrite Hx. }
  induction a as [|x a IH].
  - cbn [append includes]. rewrite Hhead.
    destruct p; [congruence | reflexivity].
  - cbn [append includes]. rewrite IH.
    change (String x (a ++ String c (l ++ b)))
      with (String x a ++ String c (l ++ b)).
    rewrite (prefix_stop c p (String x a) (l ++ b) Hc).
    now rewrite orb_assoc.
Qed.

(** After a literal no occurrence can straddle, the occurrences are those
    of the rest. *)
Lemma includes_after_literal (p lit v : string) :
  noStraddle p lit = true -> includes p (lit ++ v) = includes p v.
Proof.
  induction lit as [|x lit IH]; intros H; [reflexivity|].
  cbn [noStraddle] in H. apply andb_true_iff in H as [H1 H2].
  cbn [append includes]. rewrite (IH H2).
  destruct (prefix p (String x (lit ++ v))) eqn:E; [|reflexivity].
  change (String x (lit ++ v)) with (String x lit ++ v) in E.
  apply prefix_compat in E. rewrite E in H1. discriminate H1.
Qed.

Lemma matchCountFrom_absent (p s : string) :
  includes p s = false -> forall k, matchCountFrom p k s = O.
Proof.
  induction s as [|x s IH]; intros H k; [reflexivity|].
  cbn [includes] in H. apply orb_false_iff in H as [H1 H2].
  cbn [matchCountFrom]. destruct k as [|k]; [rewrite H1|]; now apply IH.
Qed.

Lemma matchCount_absent (p s : string) :
  includes p s = false -> matchCount p s = O.
Proof. intros H. now apply matchCountFrom_absent. Qed.

(** The count is additive around a character that is not in the pattern:
    a match never runs across it. *)
Lemma matchCountFrom_split_char (c : ascii) (p a b : string) :
  hasChar c p = false -> p <> "" ->
  forall k, (k <= String.length a)%nat ->
    matchCountFrom p k (a ++ String c b)
    = (matchCountFrom p k a + matchCount p b)%nat.
Proof.
  intros Hc Hp. induction a as [|x a IH]; intros k Hk.
  - simpl in Hk. assert (k = O) by lia. subst k.
    cbn [append matchCountFrom].
    destruct p as [|y p]; [congruence|].
    rewrite prefix_cons. cbn [hasChar] in Hc.
    apply orb_false_iff in Hc as [Hy _]. rewrite Hy. reflexivity.
  - cbn [append matchCountFrom]. destruct k as [|k].
    + change (String x (a ++ String c b)) with (String x a ++ String c b).
      rewrite (prefix_stop c p (String x a) b Hc).
      destruct (prefix p (String x a)) eqn:E.
      * apply prefix_length in E. cbn [String.length] in E.
        rewrite IH by lia. reflexivity.
      * apply IH. lia.
    + apply IH. simpl in Hk. lia.
Qed.

Lemma matchCount_split_char (c : ascii) (p a b : string) :
  hasChar c p = false -> p <> "" ->
  matchCount p (a ++ String c b) = (matchCount p a + matchCount p b)%nat.
Proof.
  intros Hc Hp. apply matchCountFrom_split_char; auto. lia.
Qed.

Lemma matchCount_skip_char (c : ascii) (p b : string) :
  hasChar c p = false -> p <> "" ->
  matchCount p (String c b) = matchCount p b.
Proof.
  intros Hc Hp. apply (matchCount_split_char c p "" b Hc Hp).
Qed.

(** In a document of lines ended by CRLF, a pattern without CR and LF is
    counted line by line. *)
Lemma matchCount_join (p : string) (lines : list string) :
  hasChar CR p = false -> hasChar LF p = false -> p <> "" ->
  matchCount p (join CRLF lines ++ CRLF) = sumCount p lines.
Proof.
  intros Hcr Hlf Hp.
  assert (Hend : forall rest, matchCount p (CRLF ++ rest) = matchCount p rest).
  { intros rest. unfold CRLF. cbn [append].
    rewrite (matchCount_skip_char CR p _ Hcr Hp).
    apply (matchCount_skip_char LF p _ Hlf Hp). }
  assert (Hline : forall line rest,
             matchCount p (line ++ CRLF ++ rest)
             = (matchCount p line + matchCount p rest)%nat).
  { intros line rest. unfold CRLF. cbn [append].
    rewrite (matchCount_split_char CR p line (String LF rest) Hcr Hp).
    now rewrite (matchCount_skip_char LF p _ Hlf Hp). }
  induction lines as [|line rest IH].
  - cbn [join String.concat append sumCount].
    rewrite <- (append_nil_r CRLF), Hend. reflexivity.
  - cbn [sumCount]. destruct rest as [|line' rest'].
    + cbn [join String.concat sumCount].
      rewrite <- (append_nil_r CRLF), Hline. reflexivity.
    + unfold join in *. cbn [String.concat] in *.
      rewrite !append_assoc. rewrite Hline. rewrite IH. reflexivity.
Qed.

Lemma sumCount_app (p : string) (l1 l2 : list string) :
  sumCount p (l1 ++ l2) = (sumCount p l1 + sumCount p l2)%nat.
Proof.
  induction l1 as [|x l1 IH]; [reflexivity|].
  cbn [app sumCount]. rewrite IH. lia.
Qed.

(** A pattern that occurs in a line occurs in the document. *)
Lemma includes_join (p line tail : string) (lines : list string) :
  In line lines -> includes p line = true ->
  includes p (join CRLF lines ++ tail) = true.
Proof.
  intros Hin Hp. apply includes_append_l.
  induction lines as [|x rest IH]; [destruct Hin|].
  unfold join in *. cbn [String.concat].
  destruct Hin as [->|Hin].
  - destruct rest; [exact Hp | now apply includes_append_l].
  - destruct rest as [|y rest]; [destruct Hin|].
    apply includes_append_r, includes_append_r. now apply IH.
Qed.

(* ================================================================== *)
(** ** Where the markers can occur in a generated document *)
(* ================================================================== *)

Lemma markerFree_absent (s m : string) :
  markerFree s = true -> isMarker m -> includes m s = false.
Proof.
  unfold markerFree. intros H Hm. apply andb_true_iff in H as [H1 H2].
  apply negb_true_iff in H1, H2. now destruct Hm as [-> | ->].
Qed.

Lemma marker_shape (m : string) :
  isMarker m ->
  hasChar "V" m = true /\ hasChar CR m = false /\ hasChar LF m = false
  /\ hasChar "-" m = false /\ hasChar "@" m = false /\ hasChar " " m = false
  /\ hasChar "/" m = false /\ hasChar "?" m = false /\ m <> "".
Proof. intros [-> | ->]; repeat split; try reflexivity; discriminate. Qed.

Lemma hasChar_append (c : ascii) (a b : string) :
  hasChar c (a ++ b) = hasChar c a || hasChar c b.
Proof.
  induction a as [|x a IH]; [reflexivity|].
  cbn [append hasChar]. now rewrite IH, orb_assoc.
Qed.

Lemma string_of_uint_noV (d : Decimal.uint) :
  hasChar "V" (NilEmpty.string_of_uint d) = false.
Proof. induction d; cbn [NilEmpty.string_of_uint hasChar]; auto. Qed.

Lemma ofZ_noV (n : Z) : hasChar "V" (ofZ n) = false.
Proof.
  unfold ofZ, NilZero.string_of_int, NilZero.string_of_uint.
  destruct (Z.to_int n) as [d|d]; destruct d; try reflexivity;
    cbn [hasChar Ascii.eqb Bool.eqb orb]; apply string_of_uint_noV.
Qed.

Lemma ofNumber_noV (n : option Z) : hasChar "V" (ofNumber n) = false.
Proof. destruct n; [apply ofZ_noV | reflexivity]. Qed.

Lemma padStart2_noV (s : string) :
  hasChar "V" s = false -> hasChar "V" (padStart2 s) = false.
Proof. destruct s as [|a [|b s]]; intros H; [reflexivity | exact H | exact H]. Qed.

Lemma replaceAll_noV (c : ascii) (s : string) :
  hasChar "V" s = false -> hasChar "V" (replaceAll c "" s) = false.
Proof.
  induction s as [|a s IH]; intros H; [reflexivity|].
  cbn [hasChar] in H. apply orb_false_iff in H as [Ha Hs].
  cbn [replaceAll]. destruct (Ascii.eqb a c); cbn [append hasChar].
  - now apply IH.
  - now rewrite Ha, IH.
Qed.

Section MarkerPlaces.
Variable host : Host.
Variable config : ICalConfig.
Variable m : string.
Hypothesis Hm : isMarker m.

Lemma absent_noV (s : string) : hasChar "V" s = false -> includes m s = false.
Proof.
  intros H. destruct (marker_shape m Hm) as (HV & _).
  exact (includes_missing_char "V" m s HV H).
Qed.

Lemma localDateText_noV (d : JSDate.t) :
  hasChar "V" (localDateText host d) = false.
Proof.
  unfold localDateText.
  rewrite !hasChar_append, !padStart2_noV, !ofNumber_noV
    by apply ofNumber_noV. reflexivity.
Qed.

Lemma formatDateTime_noV (d : JSDate.t) (utc : bool) :
  hasChar "V" (formatDateTime host d utc) = false.
Proof.
  unfold formatDateTime. destruct utc;
    rewrite !hasChar_append, !padStart2_noV, !ofNumber_noV
      by apply ofNumber_noV; reflexivity.
Qed.

Lemma formatDate_object_noV (d : JSDate.t) :
  hasChar "V" (formatDate host (DateObject d)) = false.
Proof. unfold formatDate. apply replaceAll_noV, localDateText_noV. Qed.

(** A literal followed by a value free of the marker. *)
Lemma absent_literal_value (lit v : string) :
  noStraddle m lit = true -> includes m v = false ->
  includes m (lit ++ v) = false.
Proof. intros Hl Hv. now rewrite includes_after_literal. Qed.

Lemma absent_split (c : ascii) (a l b : string) :
  hasChar c m = false ->
  includes m a = false -> includes m (l ++ b) = false ->
  includes m (a ++ String c l ++ b) = false.
Proof.
  intros Hc Ha Hb. destruct (marker_shape m Hm) as (_ & _ & _ & _ & _ & _ & _ & _ & Hne).
  rewrite (includes_split_char c m a l b Hc Hne), Ha, Hb. reflexivity.
Qed.

Ltac marker_cases := destruct Hm as [-> | ->].

Lemma absent_category (icon : string) :
  includes m (JSObject.toString (iconToCategory icon)) = false.
Proof.
  unfold iconToCategory, JSObject.get.
  destruct (JSObject.ownGet categoryMap icon) as [s|] eqn:Hown.
  - destruct (categoryMap_values _ _ Hown) as [Hin Ht].
    cbn [JSObject.truthy]. rewrite Ht. cbn [JSObject.toString].
    unfold arrayIncludes, categories in Hin. cbn [existsb] in Hin.
    rewrite !orb_true_iff in Hin.
    repeat (destruct Hin as [Hin|Hin]);
      try discriminate Hin; apply String.eqb_eq in Hin; subst s;
      marker_cases; reflexivity.
  - unfold JSObject.prototypeGet.
    destruct (String.eqb icon "constructor"); [marker_cases; reflexivity|].
    destruct (String.eqb icon "__proto__"); [marker_cases; reflexivity|].
    destruct (existsb (String.eqb icon) JSObject.prototypeFunctions) eqn:Hf;
      [|marker_cases; reflexivity].
    unfold JSObject.prototypeFunctions in Hf. cbn [existsb] in Hf.
    rewrite !orb_true_iff in Hf.
    repeat (destruct Hf as [Hf|Hf]);
      try discriminate Hf; apply String.eqb_eq in Hf; subst icon;
      marker_cases; reflexivity.
Qed.

Lemma literal_ok (lit : string) :
  noStraddle beginMarker lit = true -> noStraddle endMarker lit = true ->
  noStraddle m lit = true.
Proof. intros H1 H2. now marker_cases. Qed.

Variable userHash : string.
Hypothesis Hconfig : configMarkerFree config = true.
Hypothesis Hhash : markerFree userHash = true.

Lemma absent_hash : includes m userHash = false.
Proof. exact (markerFree_absent _ _ Hhash Hm). Qed.

Lemma absent_config :
  includes m (show (prodId config)) = false
  /\ includes m (show (calName config)) = false
  /\ includes m (show (calDescription config)) = false
  /\ includes m (show (timezone config)) = false
  /\ includes m (show (url config)) = false.
Proof.
  unfold configMarkerFree in Hconfig.
  rewrite !andb_true_iff in Hconfig.
  destruct Hconfig as ((((H1 & H2) & H3) & H4) & H5).
  repeat split; eapply markerFree_absent; eassumption.
Qed.

Lemma header_clean : sumCount m (calendarHeader config userHash) = O.
Proof.
  destruct absent_config as (Hp & Hn & Hd & Ht & Hu).
  destruct (marker_shape m Hm)
    as (_ & _ & _ & Hdash & _ & Hsp & Hsl & _ & Hne).
  pose proof absent_hash as Hh.
  unfold calendarHeader. cbn [sumCount].
  rewrite (matchCount_absent m "BEGIN:VCALENDAR") by (marker_cases; reflexivity).
  rewrite (matchCount_absent m "VERSION:2.0") by (marker_cases; reflexivity).
  rewrite (matchCount_absent m "CALSCALE:GREGORIAN") by (marker_cases; reflexivity).
  rewrite (matchCount_absent m "METHOD:PUBLISH") by (marker_cases; reflexivity).
  rewrite (matchCount_absent m "X-PUBLISHED-TTL:PT1H") by (marker_cases; reflexivity).
  rewrite (matchCount_absent m "REFRESH-INTERVAL;VALUE=DURATION:PT1H")
    by (marker_cases; reflexivity).
  rewrite (matchCount_absent m ("PRODID:" ++ _))
    by (apply absent_literal_value; [apply literal_ok; reflexivity | exact Hp]).
  rewrite (matchCount_absent m ("X-WR-CALDESC:" ++ _))
    by (apply absent_literal_value; [apply literal_ok; reflexivity | exact Hd]).
  rewrite (matchCount_absent m ("X-WR-TIMEZONE:" ++ _))
    by (apply absent_literal_value; [apply literal_ok; reflexivity | exact Ht]).
  rewrite (matchCount_absent m ("X-WR-RELCALID:" ++ _))
    by (apply absent_literal_value; [apply literal_ok; reflexivity | exact Hh]).
  rewrite (matchCount_absent m ("X-WR-CALNAME:" ++ _)).
  2:{ apply absent_literal_value; [apply literal_ok; reflexivity|].
      apply absent_split; [exact Hsp | exact Hn |].
      apply absent_literal_value; [apply literal_ok; reflexivity|].
      apply includes_short.
      assert (Hlen : forall n s, (String.length (substring 0 n s) <= n)%nat).
      { intros n. induction n as [|n IH]; intros [|a s]; simpl; try lia.
        specialize (IH s). lia. }
      specialize (Hlen 8%nat userHash). unfold substring0.
      marker_cases; simpl; lia. }
  rewrite (matchCount_absent m ("URL:" ++ _)).
  2:{ apply absent_literal_value; [apply literal_ok; reflexivity|].
      apply absent_split; [exact Hsl | exact Hu |].
      apply absent_literal_value; [apply literal_ok; reflexivity | exact Hh]. }
  reflexivity.
Qed.

Lemma timezone_clean : sumCount m generateTimezone = O.
Proof. marker_cases; reflexivity. Qed.

Lemma dateLines_clean (event : Event) :
  eventMarkerFree event = true -> sumCount m (dateLines host event) = O.
Proof.
  intros He. unfold dateLines. destruct (timeOf event) as [time|] eqn:Htime.
  - cbn [sumCount].
    rewrite !matchCount_absent; [reflexivity| |];
      (apply absent_literal_value; [apply literal_ok; reflexivity|]);
      apply absent_noV, formatDateTime_noV.
  - cbn [sumCount].
    rewrite !matchCount_absent; [reflexivity| |];
      (apply absent_literal_value; [apply literal_ok; reflexivity|]).
    + apply absent_noV, formatDate_object_noV.
    + unfold eventMarkerFree in He. rewrite Htime, !andb_true_iff in He.
      destruct He as (_ & Hd).
      destruct (event_date event) as [s|d].
      * unfold formatDate. exact (markerFree_absent _ _ Hd Hm).
      * apply absent_noV, formatDate_object_noV.
Qed.

Lemma descriptionLines_clean (event : Event) :
  eventMarkerFree event = true -> sumCount m (descriptionLines event) = O.
Proof.
  intros He. unfold descriptionLines.
  unfold eventMarkerFree in He. rewrite !andb_true_iff in He.
  destruct He as (((_ & Hd) & _) & _).
  destruct (description event) as [d|]; [|reflexivity].
  destruct (JSString.truthy d); [|reflexivity].
  cbn [sumCount]. rewrite matchCount_absent; [reflexivity|].
  apply absent_literal_value; [apply literal_ok; reflexivity|].
  exact (markerFree_absent _ _ Hd Hm).
Qed.

Lemma categoryLines_clean (event : Event) :
  sumCount m (categoryLines event) = O.
Proof.
  unfold categoryLines.
  destruct (JSObject.truthy (iconToCategory (icon event))); [|reflexivity].
  cbn [sumCount]. rewrite matchCount_absent; [reflexivity|].
  apply absent_literal_value; [apply literal_ok; reflexivity|].
  apply absent_category.
Qed.

(** In an event block the markers occur in the first and the last line
    and nowhere else. *)
Lemma generateEvent_count (now : Z) (event : Event) :
  eventMarkerFree event = true ->
  sumCount m (generateEvent host config now event userHash)
  = (matchCount m "BEGIN:VEVENT" + matchCount m "END:VEVENT")%nat.
Proof.
  intros He.
  destruct absent_config as (_ & _ & _ & _ & Hu).
  destruct (marker_shape m Hm)
    as (_ & _ & _ & Hdash & Hat & _ & _ & Hq & Hne).
  pose proof absent_hash as Hh.
  assert (Htitle : includes m (escapeText (title event)) = false).
  { unfold eventMarkerFree in He. rewrite !andb_true_iff in He.
    destruct He as (((Ht & _) & _) & _).
    exact (markerFree_absent _ _ Ht Hm). }
  assert (Hicon : includes m (icon event) = false).
  { unfold eventMarkerFree in He. rewrite !andb_true_iff in He.
    destruct He as ((_ & Hi) & _).
    exact (markerFree_absent _ _ Hi Hm). }
  unfold generateEvent. rewrite !sumCount_app.
  rewrite (dateLines_clean event He), (descriptionLines_clean event He),
    (categoryLines_clean event).
  cbn [sumCount].
  rewrite (matchCount_absent m ("UID:" ++ _)).
  2:{ apply absent_literal_value; [apply literal_ok; reflexivity|].
      apply absent_split; [exact Hdash | apply absent_noV, ofZ_noV |].
      cbn [append].
      apply (absent_split "@" userHash "" "yatwa.app"); [exact Hat | exact Hh |].
      marker_cases; reflexivity. }
  rewrite (matchCount_absent m ("DTSTAMP:" ++ _))
    by (apply absent_literal_value; [apply literal_ok; reflexivity|];
        apply absent_noV, formatDateTime_noV).
  rewrite (matchCount_absent m ("CREATED:" ++ _))
    by (apply absent_literal_value; [apply literal_ok; reflexivity|];
        apply absent_noV, formatDateTime_noV).
  rewrite (matchCount_absent m ("LAST-MODIFIED:" ++ _))
    by (apply absent_literal_value; [apply literal_ok; reflexivity|];
        apply absent_noV, formatDateTime_noV).
  rewrite (matchCount_absent m ("SUMMARY:" ++ _))
    by (apply absent_literal_value; [apply literal_ok; reflexivity|];
        exact Htitle).
  rewrite (matchCount_absent m ("PRIORITY:" ++ _))
    by (apply absent_literal_value; [apply literal_ok; reflexivity|];
        apply absent_noV, ofZ_noV).
  rewrite (matchCount_absent m "STATUS:CONFIRMED") by (marker_cases; reflexivity).
  rewrite (matchCount_absent m "TRANSP:OPAQUE") by (marker_cases; reflexivity).
  rewrite (matchCount_absent m "CLASS:PRIVATE") by (marker_cases; reflexivity).
  rewrite (matchCount_absent m "SEQUENCE:0") by (marker_cases; reflexivity).
  rewrite (matchCount_absent m ("URL:" ++ _)).
  2:{ apply absent_literal_value; [apply literal_ok; reflexivity|].
      apply absent_split; [exact Hq | exact Hu |].
      apply absent_literal_value; [apply literal_ok; reflexivity | exact Hh]. }
  rewrite (matchCount_absent m ("X-YATWA-ICON:" ++ _))
    by (apply absent_literal_value; [apply literal_ok; reflexivity|];
        exact Hicon).
  rewrite (matchCount_absent m ("X-YATWA-ID:" ++ _))
    by (apply absent_literal_value; [apply literal_ok; reflexivity|];
        apply absent_noV, ofZ_noV).
  lia.
Qed.

Lemma generateEvents_count (clock : nat -> Z) (events : list Event) :
  forallb eventMarkerFree events = true ->
  forall k,
    sumCount m (generateEvents host config clock k events userHash)
    = (List.length events
       * (matchCount m "BEGIN:VEVENT" + matchCount m "END:VEVENT"))%nat.
Proof.
  induction events as [|e rest IH]; intros H k; [reflexivity|].
  cbn [forallb] in H. apply andb_true_iff in H as [He Hrest].
  cbn [generateEvents List.length]. rewrite sumCount_app.
  rewrite (generateEvent_count _ e He), (IH Hrest). lia.
Qed.

(** The markers are counted in the document as in its event blocks. *)
Lemma generateCalendar_count (clock : nat -> Z) (events : list Event) :
  forallb eventMarkerFree events = true ->
  matchCount m (generateCalendar host config clock events userHash)
  = (List.length events
     * (matchCount m "BEGIN:VEVENT" + matchCount m "END:VEVENT"))%nat.
Proof.
  intros H.
  destruct (marker_shape m Hm) as (_ & Hcr & Hlf & _ & _ & _ & _ & _ & Hne).
  unfold generateCalendar. rewrite (matchCount_join m _ Hcr Hlf Hne).
  unfold calendarLines. rewrite !sumCount_app.
  rewrite header_clean, timezone_clean, (generateEvents_count clock events H).
  cbn [sumCount].
  rewrite (matchCount_absent m "END:VCALENDAR") by (marker_cases; reflexivity).
  lia.
Qed.

End MarkerPlaces.

(* ================================================================== *)
(** ** Generated documents and their validation *)
(* ================================================================== *)

(** Whatever the inputs, the generated document carries the four texts
    the validator looks for. *)
Lemma generateCalendar_envelope
      (host : Host) (config : ICalConfig) (clock : nat -> Z)
      (events : list Event) (userHash : string) :
  let doc := generateCalendar host config clock events userHash in
  includes "BEGIN:VCALENDAR" doc = true
  /\ includes "END:VCALENDAR" doc = true
  /\ includes "VERSION:2.0" doc = true
  /\ includes "PRODID:" doc = true.
Proof.
  cbv zeta. unfold generateCalendar, calendarLines, calendarHeader.
  split; [|split; [|split]].
  - apply (includes_join _ "BEGIN:VCALENDAR"); [now left | reflexivity].
  - apply (includes_join _ "END:VCALENDAR"); [|reflexivity].
    rewrite !in_app_iff. right. right. right. now left.
  - apply (includes_join _ "VERSION:2.0"); [right; now left | reflexivity].
  - apply (includes_join _ ("PRODID:" ++ show (prodId config)));
      [right; right; now left|].
    apply includes_prefix. apply (prefix_append "PRODID:" "PRODID:"). reflexivity.
Qed.

Lemma generateCalendar_valid_iff_balanced
      (host : Host) (config : ICalConfig) (clock : nat -> Z)
      (events : list Event) (userHash : string) :
  let doc := generateCalendar host config clock events userHash in
  matchCount "BEGIN:VEVENT" doc = matchCount "END:VEVENT" doc ->
  isValid (validateCalendar doc) = true /\ errors (validateCalendar doc) = [].
Proof.
  cbv zeta. intros Hbal.
  destruct (generateCalendar_envelope host config clock events userHash)
    as (H1 & H2 & H3 & H4).
  assert (He : structureErrors
                 (generateCalendar host config clock events userHash) = []).
  { apply structureErrors_nil. auto. }
  cbn [validateCalendar isValid errors]. rewrite He. split; reflexivity.
Qed.

Lemma lineCount_app (text : string) (l1 l2 : list string) :
  lineCount text (l1 ++ l2) = (lineCount text l1 + lineCount text l2)%nat.
Proof. unfold lineCount. now rewrite filter_app, length_app. Qed.

(** Whatever the texts of an event are, its block has one line that is
    the begin marker and one that is the end marker. *)
Lemma generateEvent_marker_lines
      (host : Host) (config : ICalConfig) (now : Z) (event : Event)
      (userHash : string) :
  lineCount "BEGIN:VEVENT" (generateEvent host config now event userHash) = 1%nat
  /\ lineCount "END:VEVENT" (generateEvent host config now event userHash) = 1%nat.
Proof.
  unfold generateEvent, dateLines, descriptionLines, categoryLines.
  destruct (timeOf event); destruct (description event) as [d|];
    try destruct (JSString.truthy d);
    destruct (JSObject.truthy (iconToCategory (icon event)));
    split; reflexivity.
Qed.

(** The array of lines [generateCalendar] joins always holds one begin
    line and one end line for each event. *)
Lemma calendarLines_marker_lines
      (host : Host) (config : ICalConfig) (clock : nat -> Z)
      (events : list Event) (userHash : string) :
  lineCount "BEGIN:VEVENT" (calendarLines host config clock events userHash)
  = List.length events
  /\ lineCount "END:VEVENT" (calendarLines host config clock events userHash)
     = List.length events.
Proof.
  assert (Hev : forall k,
             lineCount "BEGIN:VEVENT"
               (generateEvents host config clock k events userHash)
             = List.length events
             /\ lineCount "END:VEVENT"
                  (generateEvents host config clock k events userHash)
                = List.length events).
  { induction events as [|e rest IH]; intros k; [split; reflexivity|].
    cbn [generateEvents List.length]. rewrite !lineCount_app.
    destruct (generateEvent_marker_lines host config (clock k) e userHash)
      as [-> ->].
    destruct (IH (S k)) as [-> ->]. split; reflexivity. }
  unfold calendarLines. rewrite !lineCount_app.
  destruct (Hev 1%nat) as [-> ->].
  split; cbn; lia.
Qed.

(** When no value written into the document holds a marker, each marker
    is counted once for each event. *)
Lemma generateCalendar_marker_counts
      (host : Host) (config : ICalConfig) (clock : nat -> Z)
      (events : list Event) (userHash : string) :
  configMarkerFree config = true ->
  markerFree userHash = true ->
  forallb eventMarkerFree events = true ->
  matchCount "BEGIN:VEVENT"
    (generateCalendar host config clock events userHash) = List.length events
  /\ matchCount "END:VEVENT"
       (generateCalendar host config clock events userHash) = List.length events.
Proof.
  intros Hc Hh He. split.
  - pose proof (generateCalendar_count host config beginMarker
                  (or_introl eq_refl) userHash Hc Hh clock events He) as H.
    change (matchCount beginMarker "BEGIN:VEVENT") with 1%nat in H.
    change (matchCount beginMarker "END:VEVENT") with 0%nat in H.
    unfold beginMarker in H. rewrite H. lia.
  - pose proof (generateCalendar_count host config endMarker
                  (or_intror eq_refl) userHash Hc Hh clock events He) as H.
    change (matchCount endMarker "BEGIN:VEVENT") with 0%nat in H.
    change (matchCount endMarker "END:VEVENT") with 1%nat in H.
    unfold endMarker in H. rewrite H. lia.
Qed.

(** C3, as stated, fails: one event whose title is the text of the begin
    marker gives a document with two begin markers and one end marker. *)
Lemma generateCalendar_title_adds_marker :
  let events := [allDayEvent 1 "BEGIN:VEVENT" "2024-05-01"] in
  let doc := generateCalendar hostUTC defaultConfig frozenClock events sampleHash in
  matchCount "BEGIN:VEVENT" doc = 2%nat
  /\ matchCount "END:VEVENT" doc = 1%nat
  /\ matchCount "BEGIN:VEVENT" doc <> List.length events.
Proof. vm_compute. repeat split; discriminate. Qed.

(** C3, amended.  For every list of events, user identifier and
    configuration, provided none of the values written into the document
    (the escaped title and description, the icon, for an all-day event the
    date string without its dashes, the user identifier, the configuration
    values) contains
    [BEGIN:VEVENT] or [END:VEVENT], the generated document holds as many
    begin markers as end markers, and as many as the list has events. *)
Theorem generateCalendar_markers_count_events
        (host : Host) (config : ICalConfig) (clock : nat -> Z)
        (events : list Event) (userHash : string) :
  configMarkerFree config = true ->
  markerFree userHash = true ->
  forallb eventMarkerFree events = true ->
  matchCount "BEGIN:VEVENT"
    (generateCalendar host config clock events userHash) = List.length events
  /\ matchCount "END:VEVENT"
       (generateCalendar host config clock events userHash) = List.length events.
Proof.
  intros Hc Hh He.
  exact (generateCalendar_marker_counts host config clock events userHash
           Hc Hh He).
Qed.

Lemma generateCalendar_markers_count_events_witness :
  matchCount "BEGIN:VEVENT"
    (generateCalendar hostEast defaultConfig frozenClock
       [dayAllDay; dayAt0900; dayAt1700] sampleHash) = 3%nat
  /\ matchCount "END:VEVENT"
       (generateCalendar hostEast defaultConfig frozenClock
          [dayAllDay; dayAt0900; dayAt1700] sampleHash) = 3%nat.
Proof.
  apply (generateCalendar_markers_count_events hostEast defaultConfig frozenClock
           [dayAllDay; dayAt0900; dayAt1700] sampleHash);
    vm_compute; reflexivity.
Defined.

(** C10, as stated, fails: the document generated for an event whose
    description names the end marker is rejected by the validator. *)
Lemma validateCalendar_rejects_marker_in_text :
  let events :=
    [mkEvent 7 sampleHash "Feed check" (DateString "2024-05-01") None "task"
             (Some "ends with END:VEVENT") (Some sampleInstant)
             (Some sampleInstant)] in
  let report :=
    validateCalendar
      (generateCalendar hostUTC defaultConfig frozenClock events sampleHash) in
  isValid report = false
  /\ errors report = ["Mismatched VEVENT tags: 1 begin, 2 end"].
Proof. vm_compute. split; reflexivity. Qed.

(** C10, amended.  For every list of events, user identifier and
    configuration, provided none of the values written into the document
    (the escaped title and description, the icon, for an all-day event the
    date string without its dashes, the user identifier, the configuration
    values) contains
    [BEGIN:VEVENT] or [END:VEVENT], the validator accepts the generated
    document: [isValid] is true and the list of errors is empty. *)
Theorem validateCalendar_accepts_generated
        (host : Host) (config : ICalConfig) (clock : nat -> Z)
        (events : list Event) (userHash : string) :
  configMarkerFree config = true ->
  markerFree userHash = true ->
  forallb eventMarkerFree events = true ->
  isValid (validateCalendar (generateCalendar host config clock events userHash))
  = true
  /\ errors (validateCalendar (generateCalendar host config clock events userHash))
     = [].
Proof.
  intros Hc Hh He.
  apply generateCalendar_valid_iff_balanced.
  destruct (generateCalendar_marker_counts
              host config clock events userHash Hc Hh He) as [-> ->].
  reflexivity.
Qed.

Lemma validateCalendar_accepts_generated_witness :
  isValid (validateCalendar
             (generateCalendar hostWest defaultConfig frozenClock
                [timedEvent 2 "Budget, Q3; review" "2024-12-31" "23:30:00";
                 allDayEvent 3 "New Year" "2025-01-01"] sampleHash)) = true
  /\ errors (validateCalendar
               (generateCalendar hostWest defaultConfig frozenClock
                  [timedEvent 2 "Budget, Q3; review" "2024-12-31" "23:30:00";
                   allDayEvent 3 "New Year" "2025-01-01"] sampleHash)) = [].
Proof.
  apply (validateCalendar_accepts_generated hostWest defaultConfig frozenClock
           [timedEvent 2 "Budget, Q3; review" "2024-12-31" "23:30:00";
            allDayEvent 3 "New Year" "2025-01-01"] sampleHash);
    vm_compute; reflexivity.
Defined.

(** C9, as stated, fails: with no events, a user identifier that is the
    text of the begin marker is written twice into the envelope, and the
    validator rejects the document.  So does a calendar name holding the
    marker, with a well-formed identifier. *)
Lemma validateCalendar_rejects_envelope_with_marker :
  isValid (validateCalendar
             (generateCalendar hostUTC defaultConfig frozenClock []
                               "BEGIN:VEVENT")) = false
  /\ matchCount "BEGIN:VEVENT"
       (generateCalendar hostUTC defaultConfig frozenClock [] "BEGIN:VEVENT")
     = 2%nat
  /\ isValid (validateCalendar
                (generateCalendar hostUTC
                   (constructor hostUTC
                      (Some (mkPartial None (Some (Some "YATWA - BEGIN:VEVENT"))
                                       None None None)))
                   frozenClock [] sampleHash)) = false.
Proof. vm_compute. repeat split; reflexivity. Qed.

(** C9, amended.  For no events, and a user identifier and configuration
    values that contain neither [BEGIN:VEVENT] nor [END:VEVENT], the
    generated document is the envelope alone (header, time zone block and
    the closing line, each ended by CRLF), it holds no event marker, and
    the validator accepts it. *)
Theorem generateCalendar_empty_is_valid_envelope
        (host : Host) (config : ICalConfig) (clock : nat -> Z)
        (userHash : string) :
  configMarkerFree config = true ->
  markerFree userHash = true ->
  generateCalendar host config clock [] userHash
  = join CRLF (calendarHeader config userHash ++ generateTimezone
               ++ ["END:VCALENDAR"]) ++ CRLF
  /\ matchCount "BEGIN:VEVENT" (generateCalendar host config clock [] userHash)
     = O
  /\ matchCount "END:VEVENT" (generateCalendar host config clock [] userHash)
     = O
  /\ isValid (validateCalendar (generateCalendar host config clock [] userHash))
     = true.
Proof.
  intros Hc Hh.
  destruct (generateCalendar_marker_counts
              host config clock [] userHash Hc Hh eq_refl) as [Hb He].
  split; [reflexivity|]. split; [exact Hb|]. split; [exact He|].
  apply generateCalendar_valid_iff_balanced. now rewrite Hb, He.
Qed.

Lemma generateCalendar_empty_is_valid_envelope_witness :
  matchCount "BEGIN:VEVENT"
    (generateCalendar hostUTC defaultConfig frozenClock [] sampleHash) = O
  /\ isValid (validateCalendar
                (generateCalendar hostUTC defaultConfig frozenClock []
                                  sampleHash)) = true.
Proof.
  destruct (generateCalendar_empty_is_valid_envelope
              hostUTC defaultConfig frozenClock sampleHash eq_refl eq_refl)
    as (_ & Hb & _ & Hv).
  split; [exact Hb | exact Hv].
Defined.

(* ================================================================== *)
(** ** Days and dates *)
(* ================================================================== *)

Import JSDate.

Ltac div_lia := Z.div_mod_to_equations; lia.

Lemma DayFromYear_mono (a b : Z) : a <= b -> DayFromYear a <= DayFromYear b.
Proof. unfold DayFromYear. intros H. div_lia. Qed.

Lemma DayFromYear_step (y : Z) :
  DayFromYear (y + 1) = DayFromYear y + DaysInYear y.
Proof.
  unfold DayFromYear, DaysInYear, isLeap.
  destruct (Z.eqb_spec (y mod 4) 0); destruct (Z.eqb_spec (y mod 100) 0);
    destruct (Z.eqb_spec (y mod 400) 0); cbn [andb orb negb]; div_lia.
Qed.

(** [YearFromDay] is the year the day falls in. *)
Lemma YearFromDay_spec (y d : Z) :
  DayFromYear y <= d < DayFromYear (y + 1) -> YearFromDay d = y.
Proof.
  intros H. unfold YearFromDay. cbv zeta.
  assert (Hest : y - 1 <= 1970 + 400 * d / 146097 <= y + 1).
  { unfold DayFromYear in H. div_lia. }
  set (y0 := 1970 + 400 * d / 146097) in *.
  assert (y0 = y - 1 \/ y0 = y \/ y0 = y + 1) as [->|[->| ->]] by lia.
  - replace (y - 1 + 1) with y by lia.
    pose proof (DayFromYear_mono (y - 1) y ltac:(lia)).
    destruct (Z.ltb_spec d (DayFromYear (y - 1))); [lia|].
    destruct (Z.leb_spec (DayFromYear y) d); lia.
  - destruct (Z.ltb_spec d (DayFromYear y)); [lia|].
    destruct (Z.leb_spec (DayFromYear (y + 1)) d); lia.
  - destruct (Z.ltb_spec d (DayFromYear (y + 1))); lia.
Qed.

Lemma validDate_bounds (y m d : Z) :
  JSDateText.validDate y m d = true ->
  1 <= m <= 12 /\ 1 <= d <= JSDateText.DaysInMonth y m.
Proof.
  unfold JSDateText.validDate. rewrite !andb_true_iff, !Z.leb_le. lia.
Qed.

Lemma MakeDay_valid (y m d : Z) :
  1 <= m <= 12 ->
  MakeDay y (m - 1) d
  = DayFromYear y + monthStart (m - 1) (if isLeap y then 1 else 0) + d - 1.
Proof.
  intros Hm. unfold MakeDay. cbv zeta.
  replace ((m - 1) / 12) with 0 by div_lia.
  replace ((m - 1) mod 12) with (m - 1) by div_lia.
  now rewrite Z.add_0_r.
Qed.

Ltac month_cases m :=
  let H := fresh in
  assert (H : m = 1 \/ m = 2 \/ m = 3 \/ m = 4 \/ m = 5 \/ m = 6 \/ m = 7
              \/ m = 8 \/ m = 9 \/ m = 10 \/ m = 11 \/ m = 12) by lia;
  repeat (destruct H as [H|H]); subst m;
  repeat match goal with
         | H : context [Z.pos ?p - 1] |- _ =>
             let v := eval compute in (Z.pos p - 1) in
             change (Z.pos p - 1) with v in H
         | |- context [Z.pos ?p - 1] =>
             let v := eval compute in (Z.pos p - 1) in
             change (Z.pos p - 1) with v
         | |- context [Z.pos ?p + 1] =>
             let v := eval compute in (Z.pos p + 1) in
             change (Z.pos p + 1) with v
         end;
  cbn [monthStart JSDateText.DaysInMonth] in *.

(** A time value on the day of [(y, m, d)] reads back as that date. *)
Lemma civil_of_day (y m d tv : Z) :
  JSDateText.validDate y m d = true ->
  Day tv = MakeDay y (m - 1) d ->
  YearFromTime tv = y /\ MonthFromTime tv = m - 1 /\ DateFromTime tv = d.
Proof.
  intros Hv Hday. destruct (validDate_bounds y m d Hv) as [Hm Hd].
  rewrite (MakeDay_valid y m d Hm) in Hday. clear Hv.
  assert (Hy : YearFromTime tv = y).
  { unfold YearFromTime. apply YearFromDay_spec.
    rewrite DayFromYear_step, Hday. unfold DaysInYear.
    month_cases m; destruct (isLeap y); lia. }
  assert (Hw : DayWithinYear tv
               = monthStart (m - 1) (if isLeap y then 1 else 0) + d - 1).
  { unfold DayWithinYear. rewrite Hy, Hday. ring. }
  split; [exact Hy|].
  unfold DateFromTime, MonthFromTime, InLeapYear. cbv zeta. rewrite Hy, Hw.
  clear Hday Hw Hy.
  month_cases m; destruct (isLeap y);
    repeat match goal with
           | |- context [?a <? ?b] => destruct (Z.ltb_spec a b); try lia
           end; split; try reflexivity; lia.
Qed.

Lemma nextDay_valid (y m d : Z) :
  JSDateText.validDate y m d = true ->
  let '(y', m', d') := nextDay y m d in
  JSDateText.validDate y' m' d' = true
  /\ MakeDay y' (m' - 1) d' = MakeDay y (m - 1) d + 1.
Proof.
  intros Hv. destruct (validDate_bounds y m d Hv) as [Hm Hd].
  unfold nextDay.
  destruct (Z.ltb_spec d (JSDateText.DaysInMonth y m)) as [Hlt|Hge].
  - split.
    + unfold JSDateText.validDate. rewrite !andb_true_iff, !Z.leb_le. lia.
    + rewrite !MakeDay_valid by lia. lia.
  - assert (d = JSDateText.DaysInMonth y m) by lia. subst d.
    destruct (Z.ltb_spec m 12) as [Hm12|Hm12].
    + split.
      * unfold JSDateText.validDate.
        rewrite !andb_true_iff, !Z.leb_le. clear Hv.
        month_cases m; destruct (isLeap y); lia.
      * rewrite !MakeDay_valid by lia. clear Hv.
        replace (m + 1 - 1) with m by lia.
        month_cases m; destruct (isLeap y); lia.
    + assert (m = 12) by lia. subst m. split; [reflexivity|].
      rewrite !MakeDay_valid by lia.
      replace (1 - 1) with 0 by lia. cbn [monthStart].
      rewrite DayFromYear_step. unfold DaysInYear.
      destruct (isLeap y); cbn; lia.
Qed.

(* ================================================================== *)
(** ** The end date of an all-day event *)
(* ================================================================== *)

(** A string that is exactly [YYYY-MM-DD] is read the same with more text
    behind it, and its year has four digits. *)
Lemma readDate_exact (s tail : string) (y m d : Z) :
  JSDateText.readDate s = Some (y, m, d, "") ->
  JSDateText.readDate (s ++ tail) = Some (y, m, d, tail) /\ 0 <= y <= 9999.
Proof.
  unfold JSDateText.readDate.
  do 10 (destruct s as [|? s]; [discriminate|]).
  cbn [append].
  destruct (Ascii.eqb _ "-" && Ascii.eqb _ "-"); [|discriminate].
  destruct (JSDateText.digits4 _ _ _ _) as [y'|] eqn:Hy; [|discriminate].
  destruct (JSDateText.digits2 _ _) as [m'|]; [|discriminate].
  destruct (JSDateText.digits2 _ _) as [d'|]; [|discriminate].
  intros H. injection H as <- <- <- ->.
  split; [reflexivity | exact (digits4_bounds _ _ _ _ _ Hy)].
Qed.

Lemma MakeDay_bounds (y m d : Z) :
  0 <= y <= 9999 -> JSDateText.validDate y m d = true ->
  -719528 <= MakeDay y (m - 1) d <= 2932897.
Proof.
  intros Hy Hv. destruct (validDate_bounds y m d Hv) as [Hm Hd].
  rewrite (MakeDay_valid y m d Hm). clear Hv.
  pose proof (DayFromYear_mono 0 y ltac:(lia)) as H0.
  pose proof (DayFromYear_mono y 9999 ltac:(lia)) as H1.
  change (DayFromYear 0) with (-719528) in H0.
  change (DayFromYear 9999) with 2932532 in H1.
  month_cases m; destruct (isLeap y); lia.
Qed.

Lemma Day_of_midnight (day off : Z) :
  0 <= off < msPerDay -> Day (day * msPerDay + off) = day.
Proof. unfold Day, msPerDay. intros H. div_lia. Qed.

Lemma TimeClip_day (day : Z) :
  -719528 <= day <= 2932898 -> TimeClip (day * msPerDay) = Some (day * msPerDay).
Proof.
  intros H. unfold TimeClip, msPerDay.
  destruct (Z.leb_spec (Z.abs (day * 86400000)) 8640000000000000);
    [reflexivity | lia].
Qed.

(** [new Date(s + 'T00:00:00.000Z')] is midnight UTC of the day [s]
    names. *)
Lemma ofString_midnight (host : Host) (s : string) (y m d : Z) :
  JSDateText.readDate s = Some (y, m, d, "") ->
  JSDateText.validDate y m d = true ->
  JSDateText.ofString host (s ++ "T00:00:00.000Z")
  = Some (MakeDay y (m - 1) d * msPerDay).
Proof.
  intros Hr Hv.
  destruct (readDate_exact s "T00:00:00.000Z" y m d Hr) as [Hr' Hy].
  pose proof (MakeDay_bounds y m d Hy Hv) as Hb.
  unfold JSDateText.ofString, JSDateText.parseISO. rewrite Hr', Hv.
  cbv zeta. generalize dependent (MakeDay y (m - 1) d). intros day Hb.
  match goal with
  | |- match ?X with _ => _ end = _ => change X with (Some (MakeDate day 0))
  end.
  cbv beta iota. unfold MakeDate. rewrite Z.add_0_r.
  apply TimeClip_day. lia.
Qed.

Lemma string_of_uint_no_dash (d : Decimal.uint) :
  hasChar "-" (NilEmpty.string_of_uint d) = false.
Proof. induction d; cbn [NilEmpty.string_of_uint hasChar]; auto. Qed.

Lemma ofZ_no_dash (n : Z) : 0 <= n -> hasChar "-" (ofZ n) = false.
Proof.
  intros Hn. unfold ofZ, NilZero.string_of_int, NilZero.string_of_uint.
  destruct n as [|p|p]; [reflexivity| |lia].
  cbn [Z.to_int]. destruct (Pos.to_uint p); try reflexivity;
    cbn [hasChar Ascii.eqb Bool.eqb orb]; apply string_of_uint_no_dash.
Qed.

Lemma padStart2_no_dash (s : string) :
  hasChar "-" s = false -> hasChar "-" (padStart2 s) = false.
Proof. destruct s as [|a [|b s]]; intros H; [reflexivity | exact H | exact H]. Qed.

Lemma replaceAll_absent (c : ascii) (rep s : string) :
  hasChar c s = false -> replaceAll c rep s = s.
Proof.
  induction s as [|a s IH]; intros H; [reflexivity|].
  cbn [hasChar] in H. apply orb_false_iff in H as [Ha Hs].
  cbn [replaceAll]. now rewrite Ha, IH.
Qed.

Lemma replaceAll_literal_dash (a b : string) :
  replaceAll "-" "" (a ++ "-" ++ b) = replaceAll "-" "" a ++ replaceAll "-" "" b.
Proof. now rewrite replaceAll_append. Qed.

(** A [Date] object on the day of [(y, m, d)] in local time is formatted
    as that date. *)
Lemma formatDate_object (host : Host) (y m d tv : Z) :
  0 <= y -> JSDateText.validDate y m d = true ->
  Day (LocalTime host tv) = MakeDay y (m - 1) d ->
  formatDate host (DateObject (Some tv)) = basicDate (y, m, d).
Proof.
  intros Hy Hv Hday.
  destruct (civil_of_day y m d (LocalTime host tv) Hv Hday) as (E1 & E2 & E3).
  destruct (validDate_bounds y m d Hv) as [Hm Hd].
  unfold formatDate, localDateText, getFullYear, getMonth, getDate.
  cbn [option_map ofNumber]. rewrite E1, E2, E3.
  replace (m - 1 + 1) with m by lia.
  rewrite !replaceAll_literal_dash.
  rewrite !replaceAll_absent; [reflexivity| | |].
  - apply padStart2_no_dash, ofZ_no_dash. lia.
  - apply padStart2_no_dash, ofZ_no_dash. lia.
  - apply ofZ_no_dash. lia.
Qed.

(** On a host whose local time is at or ahead of UTC, the end date the
    service writes for an all-day event dated by a string is the day after
    the start date. *)
Lemma nextDayDate_string_east (host : Host) (s : string) (y m d : Z) :
  atOrEastOfUTC host ->
  JSDateText.readDate s = Some (y, m, d, "") ->
  JSDateText.validDate y m d = true ->
  formatDate host (DateObject (nextDayDate host (DateString s)))
  = basicDate (nextDay y m d).
Proof.
  intros Heast Hr Hv.
  destruct (readDate_exact s "" y m d Hr) as [_ Hy].
  pose proof (MakeDay_bounds y m d Hy Hv) as Hb.
  destruct (validDate_bounds y m d Hv) as [Hm Hd].
  unfold nextDayDate. rewrite (ofString_midnight host s y m d Hr Hv).
  set (day := MakeDay y (m - 1) d) in *.
  assert (Hday : Day (day * msPerDay) = day).
  { rewrite <- (Z.add_0_r (day * msPerDay)). apply Day_of_midnight.
    unfold msPerDay. lia. }
  destruct (civil_of_day y m d (day * msPerDay) Hv Hday) as (E1 & E2 & E3).
  unfold getUTCDate, setUTCDate. cbn [option_map]. rewrite E1, E2, E3.
  assert (Hnext : MakeDate (MakeDay y (m - 1) (d + 1))
                           (TimeWithinDay (day * msPerDay))
                  = (day + 1) * msPerDay).
  { unfold MakeDate, TimeWithinDay. rewrite Z.mod_mul by (unfold msPerDay; lia).
    rewrite !MakeDay_valid by lia. subst day. rewrite MakeDay_valid by lia.
    ring. }
  rewrite Hnext, TimeClip_day by lia.
  pose proof (nextDay_valid y m d Hv) as Hnv.
  destruct (nextDay y m d) as [[y' m'] d'] eqn:Hn.
  destruct Hnv as [Hv' Hday'].
  apply formatDate_object; [|exact Hv'|].
  - unfold nextDay in Hn.
    destruct (d <? JSDateText.DaysInMonth y m);
      [|destruct (m <? 12)]; injection Hn as <- <- <-; lia.
  - unfold LocalTime. rewrite Day_of_midnight by apply Heast.
    fold day in Hday'. lia.
Qed.

(** On a host whose local time is behind UTC, the end date the service
    writes for an all-day event dated by a string is the start date
    itself: the next day is computed in UTC and formatted in local time,
    where midnight UTC still belongs to the day before. *)
Lemma nextDayDate_string_west (host : Host) (s : string) (y m d : Z) :
  westOfUTC host ->
  JSDateText.readDate s = Some (y, m, d, "") ->
  JSDateText.validDate y m d = true ->
  formatDate host (DateObject (nextDayDate host (DateString s)))
  = basicDate (y, m, d).
Proof.
  intros Hwest Hr Hv.
  destruct (readDate_exact s "" y m d Hr) as [_ Hy].
  pose proof (MakeDay_bounds y m d Hy Hv) as Hb.
  destruct (validDate_bounds y m d Hv) as [Hm Hd].
  unfold nextDayDate. rewrite (ofString_midnight host s y m d Hr Hv).
  set (day := MakeDay y (m - 1) d) in *.
  assert (Hday : Day (day * msPerDay) = day).
  { rewrite <- (Z.add_0_r (day * msPerDay)). apply Day_of_midnight.
    unfold msPerDay. lia. }
  destruct (civil_of_day y m d (day * msPerDay) Hv Hday) as (E1 & E2 & E3).
  unfold getUTCDate, setUTCDate. cbn [option_map]. rewrite E1, E2, E3.
  assert (Hnext : MakeDate (MakeDay y (m - 1) (d + 1))
                           (TimeWithinDay (day * msPerDay))
                  = (day + 1) * msPerDay).
  { unfold MakeDate, TimeWithinDay. rewrite Z.mod_mul by (unfold msPerDay; lia).
    rewrite !MakeDay_valid by lia. subst day. rewrite MakeDay_valid by lia.
    ring. }
  rewrite Hnext, TimeClip_day by lia.
  apply formatDate_object; [lia | exact Hv |].
  unfold LocalTime. fold day.
  specialize (Hwest ((day + 1) * msPerDay)).
  replace ((day + 1) * msPerDay + LocalTZA host ((day + 1) * msPerDay) true)
    with (day * msPerDay
          + (msPerDay + LocalTZA host ((day + 1) * msPerDay) true)) by ring.
  apply Day_of_midnight. lia.
Qed.

(** The examples of the specification, on a host on UTC and on one east
    of it: 2024-02-29 ends on 2024-03-01 and 2024-12-31 on 2025-01-01. *)
Example all_day_end_date_boundaries :
  dateLines hostUTC (allDayEvent 1 "Leap day" "2024-02-29")
  = ["DTSTART;VALUE=DATE:20240229"; "DTEND;VALUE=DATE:20240301"]
  /\ dateLines hostUTC (allDayEvent 2 "New Year's Eve" "2024-12-31")
     = ["DTSTART;VALUE=DATE:20241231"; "DTEND;VALUE=DATE:20250101"]
  /\ dateLines hostEast (allDayEvent 1 "Leap day" "2024-02-29")
     = ["DTSTART;VALUE=DATE:20240229"; "DTEND;VALUE=DATE:20240301"]
  /\ dateLines hostEast (allDayEvent 2 "New Year's Eve" "2024-12-31")
     = ["DTSTART;VALUE=DATE:20241231"; "DTEND;VALUE=DATE:20250101"].
Proof. vm_compute. repeat split; reflexivity. Qed.

(** An event dated by a [Date] object gets both dates from local time,
    so the end date is the day after the start date, but behind UTC a
    [Date] at midnight UTC of 2024-02-29 is already written as the day
    before. *)
Example all_day_date_object_behind_UTC :
  dateLines hostWest
    (mkEvent 3 sampleHash "Leap day" (DateObject (Some 1709164800000)) None
             "calendar" None (Some sampleInstant) (Some sampleInstant))
  = ["DTSTART;VALUE=DATE:20240228"; "DTEND;VALUE=DATE:20240229"]
  /\ JSDateText.toISOString (Some 1709164800000)
     = Normal "2024-02-29T00:00:00.000Z".
Proof. vm_compute. split; reflexivity. Qed.

(** C1, the failing input.  On a host five hours behind UTC, the all-day
    event of 2024-02-29, dated by a string as the event model declares,
    gets a DTEND equal to its DTSTART, 2024-02-29, and not 2024-03-01;
    likewise 2024-12-31 ends on 2024-12-31.  Both lines are part of the
    VEVENT block of the generated calendar. *)
Theorem all_day_end_date_behind_UTC :
  dateLines hostWest (allDayEvent 1 "Leap day" "2024-02-29")
  = ["DTSTART;VALUE=DATE:20240229"; "DTEND;VALUE=DATE:20240229"]
  /\ dateLines hostWest (allDayEvent 2 "New Year's Eve" "2024-12-31")
     = ["DTSTART;VALUE=DATE:20241231"; "DTEND;VALUE=DATE:20241231"]
  /\ In "DTEND;VALUE=DATE:20240229"
        (calendarLines hostWest defaultConfig frozenClock
           [allDayEvent 1 "Leap day" "2024-02-29"] sampleHash)
  /\ basicDate (nextDay 2024 2 29) = "20240301"
  /\ basicDate (nextDay 2024 12 31) = "20250101".
Proof.
  split; [vm_compute; reflexivity|]. split; [vm_compute; reflexivity|].
  split; [vm_compute; tauto|]. split; reflexivity.
Qed.

(* ================================================================== *)
(** * Further properties of the service *)
(* ================================================================== *)

(** ** What escaping guarantees for every text *)

Lemma hasChar_substring (c : ascii) (n : nat) (s : string) :
  hasChar c s = false -> hasChar c (substring0 n s) = false.
Proof.
  unfold substring0. revert n. induction s as [|a s IH]; intros n H.
  - destruct n; reflexivity.
  - cbn [hasChar] in H. apply orb_false_iff in H as [Ha Hs].
    destruct n as [|n]; [reflexivity|].
    cbn [substring hasChar]. now rewrite Ha, IH.
Qed.

Lemma length_substring0 (n : nat) (s : string) :
  (String.length (substring0 n s) <= n)%nat.
Proof.
  unfold substring0. revert s. induction n as [|n IH]; intros [|a s];
    simpl; try lia. specialize (IH s). lia.
Qed.

Lemma escapeAll_no_line_break (s : string) :
  hasChar LF (escapeAll s) = false /\ hasChar CR (escapeAll s) = false.
Proof.
  induction s as [|a s [IH1 IH2]]; [split; reflexivity|].
  cbn [escapeAll]. rewrite !hasChar_append, IH1, IH2, !orb_false_r.
  unfold escapeChar.
  destruct (Ascii.eqb_spec a backslash); [split; reflexivity|].
  destruct (Ascii.eqb_spec a ";"%char); [split; reflexivity|].
  destruct (Ascii.eqb_spec a ","%char); [split; reflexivity|].
  destruct (Ascii.eqb_spec a LF) as [|Hlf]; [split; reflexivity|].
  destruct (Ascii.eqb_spec a CR) as [|Hcr]; [split; reflexivity|].
  cbn [hasChar]. apply Ascii.eqb_neq in Hlf, Hcr.
  rewrite Hlf, Hcr. split; reflexivity.
Qed.

Lemma separatorsGuarded_escapeAll (s : string) :
  forall p, separatorsGuarded p (escapeAll s) = true.
Proof.
  induction s as [|a s IH]; intros p; [reflexivity|].
  cbn [escapeAll]. unfold escapeChar.
  destruct (Ascii.eqb_spec a backslash);
    [cbn [append separatorsGuarded]; cbn; apply IH|].
  destruct (Ascii.eqb_spec a ";"%char);
    [cbn [append separatorsGuarded]; cbn; apply IH|].
  destruct (Ascii.eqb_spec a ","%char);
    [cbn [append separatorsGuarded]; cbn; apply IH|].
  destruct (Ascii.eqb_spec a LF);
    [cbn [append separatorsGuarded]; cbn; apply IH|].
  destruct (Ascii.eqb_spec a CR); [cbn [append]; apply IH|].
  cbn [append separatorsGuarded].
  destruct (Ascii.eqb_spec a ";"%char); [contradiction|].
  destruct (Ascii.eqb_spec a ","%char); [contradiction|].
  cbn [orb andb]. apply IH.
Qed.

Lemma separatorsGuarded_substring (n : nat) (s : string) :
  forall p, separatorsGuarded p s = true ->
            separatorsGuarded p (substring0 n s) = true.
Proof.
  unfold substring0. revert n. induction s as [|a s IH]; intros n p H.
  - destruct n; reflexivity.
  - destruct n as [|n]; [reflexivity|].
    cbn [separatorsGuarded] in H. apply andb_true_iff in H as [H1 H2].
    cbn [substring separatorsGuarded]. rewrite H1. cbn [andb]. now apply IH.
Qed.

(** X1.  Whatever text it is given, however long, [escapeText] returns at
    most 1000 characters with no line feed and no carriage return in them,
    and every semicolon and comma of the result stands right after a
    backslash: an escaped value never ends the content line it is written
    into and never separates a property value. *)
Theorem escapeText_never_breaks_line (text : string) :
  (String.length (escapeText text) <= 1000)%nat
  /\ hasChar LF (escapeText text) = false
  /\ hasChar CR (escapeText text) = false
  /\ separatorsGuarded false (escapeText text) = true.
Proof.
  unfold escapeText. rewrite replacements_single_pass.
  destruct (escapeAll_no_line_break text) as [Hlf Hcr].
  split; [apply length_substring0|].
  split; [now apply hasChar_substring|].
  split; [now apply hasChar_substring|].
  apply separatorsGuarded_substring, separatorsGuarded_escapeAll.
Qed.

(** ** The UID of an event *)

Lemma ofZ_inj (n m : Z) : ofZ n = ofZ m -> n = m.
Proof.
  unfold ofZ. intros H.
  assert (Hn : forall z, NilZero.int_of_string
                           (NilZero.string_of_int (Z.to_int z))
                         = Some (Z.to_int z)).
  { intros z. apply NilZero.isi; destruct z as [|p|p]; cbn; try discriminate;
      intros E; injection E as E;
      now apply DecimalPos.Unsigned.to_uint_nonnil in E. }
  apply (f_equal NilZero.int_of_string) in H. rewrite !Hn in H.
  injection H as H. now apply DecimalZ.to_int_inj.
Qed.

Lemma string_of_uint_digits (d : Decimal.uint) :
  allDigits (NilEmpty.string_of_uint d) = true.
Proof. induction d; cbn [NilEmpty.string_of_uint allDigits]; auto. Qed.

(** [String(n)] is one or more digits, after a minus sign when [n] is
    negative. *)
Lemma ofZ_shape (n : Z) :
  exists ds, allDigits ds = true /\ ds <> ""
             /\ ofZ n = if n <? 0 then String "-" ds else ds.
Proof.
  unfold ofZ, NilZero.string_of_int, NilZero.string_of_uint.
  destruct n as [|p|p]; cbn [Z.to_int Z.ltb Z.compare].
  - exists "0". repeat split; discriminate.
  - exists (NilEmpty.string_of_uint (Pos.to_uint p)).
    pose proof (DecimalPos.Unsigned.to_uint_nonnil p) as Hnn.
    split; [apply string_of_uint_digits|]. split.
    + destruct (Pos.to_uint p); try contradiction; discriminate.
    + destruct (Pos.to_uint p); try contradiction; reflexivity.
  - exists (NilEmpty.string_of_uint (Pos.to_uint p)).
    pose proof (DecimalPos.Unsigned.to_uint_nonnil p) as Hnn.
    split; [apply string_of_uint_digits|]. split.
    + destruct (Pos.to_uint p); try contradiction; discriminate.
    + destruct (Pos.to_uint p); try contradiction; reflexivity.
Qed.

(** Digits followed by a dash: where the digits end can be read off. *)
Lemma digits_dash_inj (u v r r' : string) :
  allDigits u = true -> allDigits v = true ->
  u ++ String "-" r = v ++ String "-" r' -> u = v /\ r = r'.
Proof.
  revert v. induction u as [|a u IH]; intros [|b v] Hu Hv H;
    cbn [append allDigits] in *.
  - injection H as ->. now split.
  - injection H as <- _. apply andb_true_iff in Hv as [Hb _]. discriminate Hb.
  - injection H as -> _. apply andb_true_iff in Hu as [Ha _]. discriminate Ha.
  - injection H as -> H.
    apply andb_true_iff in Hu as [_ Hu]. apply andb_true_iff in Hv as [_ Hv].
    destruct (IH v Hu Hv H) as [-> ->]. now split.
Qed.

Lemma append_inj_tail (a b c : string) : a ++ c = b ++ c -> a = b.
Proof.
  intros H.
  assert (Hlen : String.length a = String.length b).
  { apply (f_equal String.length) in H. rewrite !length_append in H. lia. }
  revert b H Hlen. induction a as [|x a IH]; intros [|y b] H Hlen;
    try discriminate Hlen; [reflexivity|].
  cbn [append] in H. injection H as -> H. f_equal.
  apply IH; [exact H | simpl in Hlen; lia].
Qed.

Lemma uid_text_inj (n m : Z) (h h' : string) :
  ofZ n ++ "-" ++ h ++ "@yatwa.app" = ofZ m ++ "-" ++ h' ++ "@yatwa.app" ->
  n = m /\ h = h'.
Proof.
  destruct (ofZ_shape n) as (dn & Hdn & Hnn & En).
  destruct (ofZ_shape m) as (dm & Hdm & Hmn & Em).
  intros H. cbn [append] in H.
  assert (Hcore : ofZ n = ofZ m /\ h ++ "@yatwa.app" = h' ++ "@yatwa.app").
  { rewrite En, Em in *.
    destruct (n <? 0), (m <? 0); cbn [append] in H.
    - injection H as H.
      destruct (digits_dash_inj _ _ _ _ Hdn Hdm H) as [-> ->]. now split.
    - destruct dm as [|c dm]; [congruence|].
      cbn [append allDigits] in *. injection H as <- _.
      apply andb_true_iff in Hdm as [Hc _]. discriminate Hc.
    - destruct dn as [|c dn]; [congruence|].
      cbn [append allDigits] in *. injection H as -> _.
      apply andb_true_iff in Hdn as [Hc _]. discriminate Hc.
    - destruct (digits_dash_inj _ _ _ _ Hdn Hdm H) as [-> ->]. now split. }
  destruct Hcore as [Hz Hh]. split; [now apply ofZ_inj|].
  exact (append_inj_tail _ _ _ Hh).
Qed.

(** X2.  The UID line of an event block determines the event id and the
    user identifier it was built from: two blocks carry the same UID only
    for the same id and the same user, whatever else differs (host,
    configuration, clock, the other fields of the events). *)
Theorem uid_identifies_event_and_user
        (host1 host2 : Host) (config1 config2 : ICalConfig) (now1 now2 : Z)
        (event1 event2 : Event) (userHash1 userHash2 : string) :
  uidLine (generateEvent host1 config1 now1 event1 userHash1)
  = uidLine (generateEvent host2 config2 now2 event2 userHash2) ->
  id event1 = id event2 /\ userHash1 = userHash2.
Proof.
  unfold uidLine, generateEvent. cbn [app nth]. intros H.
  cbn [append] in H. repeat (injection H as H).
  apply uid_text_inj. exact H.
Qed.

Lemma uid_identifies_event_and_user_witness :
  id dayAllDay = id (timedEvent 1 "Rehearsal" "2031-01-01" "10:00:00")
  /\ sampleHash = sampleHash.
Proof.
  apply (uid_identifies_event_and_user hostUTC hostWest defaultConfig
           defaultConfig sampleInstant 0 dayAllDay
           (timedEvent 1 "Rehearsal" "2031-01-01" "10:00:00")
           sampleHash sampleHash).
  reflexivity.
Defined.

(** ** The statistics *)

Lemma ownGet_set_sum (table : list (string * nat)) (key : string) :
  sumValues
    (JSObject.set table key
       (S (match JSObject.ownGet table key with Some n => n | None => O end)))
  = S (sumValues table).
Proof.
  induction table as [|[k n] rest IH]; [reflexivity|].
  cbn [JSObject.set JSObject.ownGet].
  destruct (String.eqb k key); cbn [sumValues]; [lia|].
  rewrite IH. lia.
Qed.

Lemma set_keys (table : list (string * nat)) (key : string) (v : nat) :
  map fst (JSObject.set table key v)
  = if existsb (String.eqb key) (map fst table) then map fst table
    else (map fst table ++ [key])%list.
Proof.
  induction table as [|[k n] rest IH]; [reflexivity|].
  cbn [JSObject.set map fst existsb].
  rewrite (String.eqb_sym key k).
  destruct (String.eqb k key); cbn [map fst orb]; [reflexivity|].
  rewrite IH. destruct (existsb (String.eqb key) (map fst rest)); reflexivity.
Qed.

Lemma set_keys_NoDup (table : list (string * nat)) (key : string) (v : nat) :
  NoDup (map fst table) -> NoDup (map fst (JSObject.set table key v)).
Proof.
  intros H. rewrite set_keys.
  destruct (existsb (String.eqb key) (map fst table)) eqn:E; [exact H|].
  apply NoDup_app; [exact H | repeat constructor; intros [] | ].
  intros k Hin [<-|[]].
  assert (existsb (String.eqb key) (map fst table) = true); [|congruence].
  apply existsb_exists. exists key. split; [exact Hin | apply String.eqb_refl].
Qed.

Lemma countCategory_fold (events : list Event) :
  forall table,
    NoDup (map fst table) ->
    sumValues (fold_left countCategory events table)
    = (sumValues table + List.length events)%nat
    /\ NoDup (map fst (fold_left countCategory events table)).
Proof.
  induction events as [|e rest IH]; intros table Hnd.
  - cbn [fold_left List.length]. split; [lia | exact Hnd].
  - cbn [fold_left List.length].
    destruct (IH (countCategory table e)) as [Hs Hn].
    { unfold countCategory. now apply set_keys_NoDup. }
    split; [|exact Hn].
    rewrite Hs. unfold countCategory. rewrite ownGet_set_sum. lia.
Qed.

Lemma filterUpcoming_throws (today : string) (events : list Event) :
  (exists err, filterUpcoming today events = Throw err)
  <-> existsb hasInvalidDate events = true.
Proof.
  induction events as [|e rest IH].
  - split; [intros [err H]; discriminate H | discriminate].
  - cbn [filterUpcoming existsb]. unfold dateKey, hasInvalidDate, isoDay.
    destruct (event_date e) as [s|[tv|]]; cbn [JSDateText.toISOString bind orb].
    + rewrite <- IH.
      destruct (filterUpcoming today rest) as [up|err]; cbn [bind].
      * split; intros [err H]; discriminate H.
      * split; intros _; eauto.
    + rewrite <- IH.
      destruct (filterUpcoming today rest) as [up|err]; cbn [bind].
      * split; intros [err H]; discriminate H.
      * split; intros _; eauto.
    + split; [reflexivity | eauto].
Qed.

(** X3.  [generateStats] throws exactly when some event is dated by an
    invalid [Date] object (whose [toISOString] raises a [RangeError]);
    events dated by strings, whatever the strings are, never make it
    throw. *)
Theorem generateStats_throws_iff_invalid_date (now : Z) (events : list Event) :
  (exists err, generateStats now events = Throw err)
  <-> existsb hasInvalidDate events = true.
Proof.
  unfold generateStats, isoDay. cbn [JSDateText.toISOString bind].
  rewrite <- (filterUpcoming_throws
                (hd EmptyString
                   (split "T"
                      (JSDateText.isoYear (YearFromTime now) ++ "-"
                       ++ padStart0 2 (ofZ (MonthFromTime now + 1)) ++ "-"
                       ++ padStart0 2 (ofZ (DateFromTime now)) ++ "T"
                       ++ padStart0 2 (ofZ (HourFromTime now)) ++ ":"
                       ++ padStart0 2 (ofZ (MinFromTime now)) ++ ":"
                       ++ padStart0 2 (ofZ (SecFromTime now)) ++ "."
                       ++ padStart0 3 (ofZ (msFromTime now)) ++ "Z")))
                events).
  match goal with
  | |- context [filterUpcoming ?t events] =>
      destruct (filterUpcoming t events) as [up|err]; cbn [bind]
  end.
  - split; intros [err H]; discriminate H.
  - split; intros _; eauto.
Qed.

(** X4.  When [generateStats] completes: [totalEvents] is the number of
    events, [upcomingEvents] is at most that, the category table lists
    each category once and its counts add up to [totalEvents], and
    [nextEvent] is [null] exactly when [upcomingEvents] is 0. *)
Theorem generateStats_counts_consistent
        (now : Z) (events : list Event) (stats : CalendarStats) :
  generateStats now events = Normal stats ->
  totalEvents stats = List.length events
  /\ (upcomingEvents stats <= totalEvents stats)%nat
  /\ sumValues (eventsByCategory stats) = totalEvents stats
  /\ NoDup (map fst (eventsByCategory stats))
  /\ (nextEvent stats = None <-> upcomingEvents stats = O).
Proof.
  unfold generateStats. intros H.
  destruct (isoDay (Some now)) as [today|err]; [|discriminate H].
  cbn [bind] in H.
  destruct (filterUpcoming today events) as [upcoming|err] eqn:Hup;
    [|discriminate H].
  cbn [bind] in H. injection H as <-.
  cbn [totalEvents upcomingEvents eventsByCategory nextEvent].
  apply filterUpcoming_normal in Hup.
  destruct (countCategory_fold events [] (NoDup_nil _)) as [Hs Hn].
  split; [reflexivity|]. split.
  { rewrite Hup. apply filter_length_le. }
  split; [exact Hs|]. split; [exact Hn|].
  split.
  - intros Hhd. apply sortStable_head_none in Hhd. now rewrite Hhd.
  - intros Hlen. destruct upcoming; [reflexivity | discriminate Hlen].
Qed.

Lemma generateStats_counts_consistent_witness :
  totalEvents
    (mkStats 3 3 [("MEETING", 2%nat); ("PERSONAL", 1%nat)] (Some dayAllDay))
  = List.length [dayAt1700; dayAllDay; dayAt0900]
  /\ sumValues [("MEETING", 2%nat); ("PERSONAL", 1%nat)] = 3%nat.
Proof.
  destruct (generateStats_counts_consistent sampleInstant
              [dayAt1700; dayAllDay; dayAt0900]
              (mkStats 3 3 [("MEETING", 2%nat); ("PERSONAL", 1%nat)]
                       (Some dayAllDay)) eq_refl)
    as (Ht & _ & Hs & _).
  split; [exact Ht | exact Hs].
Defined.

(** ** The line-length warnings *)

Lemma split_line (l rest : string) :
  hasChar LF l = false ->
  split LF (l ++ CRLF ++ rest) = (l ++ String CR "") :: split LF rest.
Proof.
  unfold CRLF. induction l as [|a l IH]; intros H.
  - reflexivity.
  - cbn [hasChar] in H. apply orb_false_iff in H as [Ha Hl].
    cbn [append split]. rewrite Ha.
    cbn [append] in IH. rewrite (IH Hl). reflexivity.
Qed.

Lemma split_document (lines : list string) :
  lines <> [] ->
  forallb (fun l => negb (hasChar LF l)) lines = true ->
  split LF (join CRLF lines ++ CRLF)
  = (map (fun l => (l ++ String CR "")%string) lines ++ [EmptyString])%list.
Proof.
  induction lines as [|l rest IH]; intros Hne H; [congruence|].
  cbn [forallb] in H. apply andb_true_iff in H as [Hl Hrest].
  apply negb_true_iff in Hl.
  destruct rest as [|l' rest'].
  - cbn [join String.concat map app].
    rewrite <- (append_nil_r CRLF), (split_line l "" Hl). reflexivity.
  - unfold join in *. cbn [String.concat] in *.
    rewrite !append_assoc, (split_line l _ Hl).
    rewrite IH by (congruence || exact Hrest). reflexivity.
Qed.

Lemma lengthWarnings_count (lines : list string) :
  forall index,
    List.length (lengthWarnings index lines)
    = List.length (filter (fun l => Nat.ltb 75 (String.length l)) lines).
Proof.
  induction lines as [|l rest IH]; intros index; [reflexivity|].
  cbn [lengthWarnings filter]. rewrite length_app, IH.
  destruct (Nat.ltb 75 (String.length l)); reflexivity.
Qed.

(** X5.  The validator splits the document at line feeds only, so each
    line it measures still ends in the carriage return of its CRLF.  For a
    generated calendar whose lines hold no line feed of their own, the
    number of warnings is therefore the number of content lines of 75
    characters or more (not of more than 75): a line of exactly 75
    characters is reported as exceeding 75. *)
Theorem validateCalendar_warns_from_75_characters
        (host : Host) (config : ICalConfig) (clock : nat -> Z)
        (events : list Event) (userHash : string) :
  forallb (fun l => negb (hasChar LF l))
          (calendarLines host config clock events userHash) = true ->
  List.length
    (warnings (validateCalendar
                 (generateCalendar host config clock events userHash)))
  = List.length
      (filter (fun l => Nat.leb 75 (String.length l))
              (calendarLines host config clock events userHash)).
Proof.
  intros H. unfold generateCalendar. cbn [validateCalendar warnings].
  rewrite split_document; [|unfold calendarLines, calendarHeader; discriminate
                           |exact H].
  rewrite lengthWarnings_count, filter_app. cbn [filter String.length Nat.ltb].
  rewrite length_app, Nat.add_0_r.
  generalize (calendarLines host config clock events userHash).
  intros lines. induction lines as [|l rest IH]; [reflexivity|].
  cbn [map filter]. rewrite length_append. cbn [String.length].
  replace (Nat.ltb 75 (String.length l + 1)) with (Nat.leb 75 (String.length l)).
  - destruct (Nat.leb 75 (String.length l)); cbn [List.length]; now rewrite IH.
  - destruct (Nat.leb_spec 75 (String.length l));
      destruct (Nat.ltb_spec 75 (String.length l + 1)); lia || reflexivity.
Qed.

Lemma validateCalendar_warns_from_75_characters_witness :
  List.length
    (warnings (validateCalendar
                 (generateCalendar hostUTC defaultConfig frozenClock
                    [allDayEvent 1 (zeros 67) "2024-05-01"] sampleHash)))
  = List.length
      (filter (fun l => Nat.leb 75 (String.length l))
              (calendarLines hostUTC defaultConfig frozenClock
                 [allDayEvent 1 (zeros 67) "2024-05-01"] sampleHash)).
Proof.
  apply (validateCalendar_warns_from_75_characters hostUTC defaultConfig
           frozenClock [allDayEvent 1 (zeros 67) "2024-05-01"] sampleHash).
  vm_compute. reflexivity.
Defined.

(** A SUMMARY line of exactly 75 characters draws the warning. *)
Example warning_at_75_characters :
  let lines := calendarLines hostUTC defaultConfig frozenClock
                 [allDayEvent 1 (zeros 67) "2024-05-01"] sampleHash in
  existsb (fun l => Nat.eqb (String.length l) 75) lines = true
  /\ existsb (fun l => Nat.ltb 75 (String.length l)) lines = false
  /\ List.length
       (warnings (validateCalendar
                    (generateCalendar hostUTC defaultConfig frozenClock
                       [allDayEvent 1 (zeros 67) "2024-05-01"] sampleHash)))
     = 1%nat.
Proof. vm_compute. repeat split; reflexivity. Qed.

(** ** Dates and times on a host with a fixed offset *)

Lemma YearFromDay_bounds (n : Z) :
  DayFromYear (YearFromDay n) <= n < DayFromYear (YearFromDay n + 1).
Proof.
  unfold YearFromDay. cbv zeta.
  set (y0 := 1970 + 400 * n / 146097).
  assert (Hest : DayFromYear (y0 - 1) <= n < DayFromYear (y0 + 2)).
  { subst y0. unfold DayFromYear. div_lia. }
  destruct (Z.ltb_spec n (DayFromYear y0)).
  - replace (y0 - 1 + 1) with y0 by lia. lia.
  - destruct (Z.leb_spec (DayFromYear (y0 + 1)) n).
    + replace (y0 + 1 + 1) with (y0 + 2) by lia. lia.
    + lia.
Qed.

Ltac norm_literals :=
  repeat match goal with
         | |- context [Z.pos ?p - 1] =>
             let v := eval compute in (Z.pos p - 1) in
             change (Z.pos p - 1) with v
         | |- context [Z.pos ?p + 1] =>
             let v := eval compute in (Z.pos p + 1) in
             change (Z.pos p + 1) with v
         | |- context [0 + 1] => change (0 + 1) with 1
         end.

(** Every time value falls on a date of the calendar. *)
Lemma civilDate_valid (tv : Z) :
  let '(y, m, d) := civilDate tv in
  JSDateText.validDate y m d = true /\ Day tv = MakeDay y (m - 1) d.
Proof.
  unfold civilDate.
  pose proof (YearFromDay_bounds (Day tv)) as Hb.
  fold (YearFromTime tv) in Hb. rewrite DayFromYear_step in Hb.
  assert (Hw : 0 <= DayWithinYear tv < DaysInYear (YearFromTime tv)).
  { unfold DayWithinYear. lia. }
  assert (Hday : Day tv = DayFromYear (YearFromTime tv) + DayWithinYear tv).
  { unfold DayWithinYear. lia. }
  rewrite Hday. clear Hb Hday.
  unfold JSDateText.validDate. rewrite !andb_true_iff, !Z.leb_le.
  unfold DateFromTime, MonthFromTime, InLeapYear, DaysInYear in *.
  cbv zeta.
  generalize dependent (DayWithinYear tv). intros w.
  generalize (YearFromTime tv). intros y Hw.
  destruct (isLeap y) eqn:Hleap;
    repeat match goal with
           | |- context [?a <? ?b] => destruct (Z.ltb_spec a b); try lia
           end;
    rewrite MakeDay_valid by lia; norm_literals;
    rewrite ?Hleap; cbn [monthStart JSDateText.DaysInMonth]; rewrite ?Hleap;
    repeat split; lia.
Qed.

Lemma Day_next (tv : Z) : Day (tv + msPerDay) = Day tv + 1.
Proof. unfold Day, msPerDay. div_lia. Qed.

Lemma time_splits (tv : Z) : tv = Day tv * msPerDay + TimeWithinDay tv.
Proof. unfold Day, TimeWithinDay, msPerDay. div_lia. Qed.

Lemma TimeClip_in_range (tv : Z) :
  -8640000000000000 <= tv <= 8640000000000000 -> TimeClip tv = Some tv.
Proof.
  intros H. unfold TimeClip.
  destruct (Z.leb_spec (Z.abs tv) 8640000000000000); [reflexivity | lia].
Qed.

Lemma nextDay_year (y m d : Z) :
  let '(y', _, _) := nextDay y m d in y <= y' <= y + 1.
Proof.
  unfold nextDay. destruct (d <? JSDateText.DaysInMonth y m);
    [|destruct (m <? 12)]; lia.
Qed.

(** X6.  On a host with a fixed offset from UTC, an all-day event dated
    by a [Date] object gets as DTSTART the local date of that object and
    as DTEND the calendar day after it, across the ends of months and
    years (for local dates of the years 0 to 9999). *)
Theorem all_day_date_object_ends_next_day
        (host : Host) (offset tv : Z) (event : Event) :
  fixedOffset host offset ->
  event_date event = DateObject (Some tv) ->
  timeOf event = None ->
  0 <= YearFromTime (tv + offset) <= 9999 ->
  let '(y, m, d) := civilDate (tv + offset) in
  dateLines host event
  = [ "DTSTART;VALUE=DATE:" ++ basicDate (y, m, d);
      "DTEND;VALUE=DATE:" ++ basicDate (nextDay y m d) ].
Proof.
  intros [Hoff Hrange] Hdate Htime Hyear.
  pose proof (civilDate_valid (tv + offset)) as Hcivil.
  unfold civilDate in *.
  set (lt := tv + offset) in *.
  set (y := YearFromTime lt) in *. set (k := MonthFromTime lt) in *.
  set (d := DateFromTime lt) in *.
  destruct Hcivil as [Hv Hday].
  pose proof (MakeDay_bounds y (k + 1) d Hyear Hv) as Hb.
  assert (Hlocal : forall x, LocalTime host x = x + offset).
  { intros x. unfold LocalTime. now rewrite Hoff. }
  unfold dateLines. rewrite Htime, Hdate. f_equal; [|f_equal].
  - f_equal. apply formatDate_object; [lia | exact Hv |].
    rewrite Hlocal. exact Hday.
  - f_equal. unfold nextDayDate, getDate, setDate. cbn [option_map].
    rewrite Hlocal. fold lt. fold y. fold k. fold d.
    assert (Hnew : UTC host (MakeDate (MakeDay y k (d + 1)) (TimeWithinDay lt))
                   = tv + msPerDay).
    { unfold UTC. rewrite Hoff. unfold MakeDate.
      replace k with (k + 1 - 1) by lia.
      destruct (validDate_bounds _ _ _ Hv) as [Hm Hd].
      rewrite MakeDay_valid by lia. rewrite MakeDay_valid in Hday by lia.
      pose proof (time_splits lt) as Hs. rewrite Hday in Hs.
      subst lt. lia. }
    rewrite Hnew.
    assert (Hlt : lt = MakeDay y (k + 1 - 1) d * msPerDay + TimeWithinDay lt).
    { rewrite <- Hday. apply time_splits. }
    assert (Htw : 0 <= TimeWithinDay lt < msPerDay).
    { unfold TimeWithinDay, msPerDay. div_lia. }
    rewrite TimeClip_in_range
      by (unfold msPerDay in *; subst lt; lia).
    pose proof (nextDay_valid y (k + 1) d Hv) as Hnv.
    pose proof (nextDay_year y (k + 1) d) as Hny.
    destruct (nextDay y (k + 1) d) as [[y' m'] d'].
    destruct Hnv as [Hv' Hday'].
    apply formatDate_object; [lia | exact Hv' |].
    rewrite Hlocal.
    replace (tv + msPerDay + offset) with (lt + msPerDay) by (subst lt; lia).
    rewrite Day_next, Hday', Hday. reflexivity.
Qed.

Lemma all_day_date_object_ends_next_day_witness :
  dateLines hostWest
    (mkEvent 3 sampleHash "Year's end" (DateObject (Some 1735689599000)) None
             "calendar" None (Some sampleInstant) (Some sampleInstant))
  = [ "DTSTART;VALUE=DATE:" ++ basicDate (2024, 12, 31);
      "DTEND;VALUE=DATE:" ++ basicDate (nextDay 2024 12 31) ].
Proof.
  apply (all_day_date_object_ends_next_day hostWest (- (5 * 3600000))
           1735689599000
           (mkEvent 3 sampleHash "Year's end" (DateObject (Some 1735689599000))
                    None "calendar" None (Some sampleInstant)
                    (Some sampleInstant))).
  - split; [intros tv isUTC; reflexivity | unfold msPerDay; lia].
  - reflexivity.
  - reflexivity.
  - vm_compute. split; discriminate.
Defined.

Lemma digits3_bounds (a b c : ascii) (n : Z) :
  JSDateText.digits3 a b c = Some n -> 0 <= n <= 999.
Proof.
  unfold JSDateText.digits3.
  destruct (JSDateText.digit a) as [x|] eqn:Hx; [|discriminate].
  destruct (JSDateText.digits2 b c) as [v|] eqn:Hv; [|discriminate].
  intros Heq. apply Some_inj in Heq.
  pose proof (digit_bounds _ _ Hx). pose proof (digits2_bounds _ _ _ Hv). lia.
Qed.

Lemma readMillis_bounds (s rest : string) (ms : Z) :
  JSDateText.readMillis s = Some (ms, rest) -> 0 <= ms <= 999.
Proof.
  unfold JSDateText.readMillis.
  destruct s as [|dot [|f1 [|f2 [|f3 s]]]];
    try (intros Heq; injection Heq as <- _; lia).
  destruct (Ascii.eqb dot "."); [|intros Heq; injection Heq as <- _; lia].
  destruct (JSDateText.digits3 f1 f2 f3) as [v|] eqn:Hv; [|discriminate].
  intros Heq. injection Heq as <- _. exact (digits3_bounds _ _ _ _ Hv).
Qed.

Lemma readSeconds_bounds (s rest : string) (sec ms : Z) :
  JSDateText.readSeconds s = Some (sec, ms, rest) ->
  0 <= sec <= 59 /\ 0 <= ms <= 999.
Proof.
  unfold JSDateText.readSeconds.
  destruct s as [|colon [|s1 [|s2 s]]];
    try (intros Heq; injection Heq as <- <- _; lia).
  destruct (Ascii.eqb colon ":"); [|intros Heq; injection Heq as <- <- _; lia].
  destruct (JSDateText.digits2 s1 s2) as [v|] eqn:Hv; [|discriminate].
  destruct (Z.leb_spec v 59); [|discriminate].
  destruct (JSDateText.readMillis s) as [[ms' rest']|] eqn:Hms; [|discriminate].
  intros Heq. injection Heq as <- <- _.
  pose proof (digits2_bounds _ _ _ Hv). pose proof (readMillis_bounds _ _ _ Hms).
  lia.
Qed.

(** A time of day that is read lies within the day. *)
Lemma readTime_bounds (s rest : string) (tm : Z) :
  JSDateText.readTime s = Some (tm, rest) -> 0 <= tm < msPerDay.
Proof.
  unfold JSDateText.readTime.
  destruct s as [|h1 [|h2 [|colon [|n1 [|n2 s]]]]]; try discriminate.
  destruct (Ascii.eqb colon ":"); [|discriminate].
  destruct (JSDateText.digits2 h1 h2) as [h|] eqn:Hh; [|discriminate].
  destruct (JSDateText.digits2 n1 n2) as [m|] eqn:Hm; [|discriminate].
  destruct (Z.leb_spec h 23); [|discriminate].
  destruct (Z.leb_spec m 59); [|discriminate].
  cbn [andb].
  destruct (JSDateText.readSeconds s) as [[[sec ms] rest']|] eqn:Hs;
    [|discriminate].
  intros Heq. injection Heq as <- _.
  pose proof (digits2_bounds _ _ _ Hh). pose proof (digits2_bounds _ _ _ Hm).
  pose proof (readSeconds_bounds _ _ _ _ Hs).
  unfold MakeTime, msPerDay, msPerHour, msPerMinute, msPerSecond. lia.
Qed.

Lemma time_fields_of_day (day tm : Z) :
  HourFromTime (day * msPerDay + tm) = HourFromTime tm
  /\ MinFromTime (day * msPerDay + tm) = MinFromTime tm
  /\ SecFromTime (day * msPerDay + tm) = SecFromTime tm.
Proof.
  unfold HourFromTime, MinFromTime, SecFromTime,
         msPerDay, msPerHour, msPerMinute, msPerSecond.
  repeat split; div_lia.
Qed.

(** A [Date] object whose local time is [tm] into the day of [(y, m, d)]
    is formatted as that date and time. *)
Lemma formatDateTime_local (host : Host) (offset tv y m d tm : Z) :
  fixedOffset host offset ->
  JSDateText.validDate y m d = true ->
  0 <= tm < msPerDay ->
  tv + offset = MakeDay y (m - 1) d * msPerDay + tm ->
  formatDateTime host (Some tv) false = basicDateTime (y, m, d) tm.
Proof.
  intros [Hoff _] Hv Htm Hlt.
  assert (Hlocal : LocalTime host tv = MakeDay y (m - 1) d * msPerDay + tm).
  { unfold LocalTime. now rewrite Hoff. }
  assert (Hday : Day (LocalTime host tv) = MakeDay y (m - 1) d).
  { rewrite Hlocal. now apply Day_of_midnight. }
  destruct (civil_of_day y m d _ Hv Hday) as (E1 & E2 & E3).
  destruct (time_fields_of_day (MakeDay y (m - 1) d) tm) as (F1 & F2 & F3).
  unfold formatDateTime, getFullYear, getMonth, getDate, getHours, getMinutes,
         getSeconds, basicDateTime, basicDate.
  cbn [option_map ofNumber]. rewrite E1, E2, E3.
  rewrite Hlocal, F1, F2, F3.
  replace (m - 1 + 1) with m by lia.
  now rewrite !append_assoc.
Qed.

(** X7.  On a host with a fixed offset from UTC, a timed event with a
    valid [YYYY-MM-DD] date string and a time of the forms [HH:mm],
    [HH:mm:ss] or [HH:mm:ss.sss] starts at that date and time and ends
    one hour later; a start from 23:00 on ends on the next calendar
    day. *)
Theorem timed_event_lasts_one_hour
        (host : Host) (offset : Z) (event : Event)
        (s time : string) (y m d tm : Z) :
  fixedOffset host offset ->
  event_date event = DateString s ->
  timeOf event = Some time ->
  JSDateText.readDate s = Some (y, m, d, "") ->
  JSDateText.validDate y m d = true ->
  JSDateText.readTime time = Some (tm, "") ->
  dateLines host event
  = [ "DTSTART;TZID=Europe/Berlin:" ++ basicDateTime (y, m, d) tm;
      "DTEND;TZID=Europe/Berlin:"
        ++ (if tm + 3600000 <? msPerDay
            then basicDateTime (y, m, d) (tm + 3600000)
            else basicDateTime (nextDay y m d) (tm + 3600000 - msPerDay)) ].
Proof.
  intros Hfix Hdate Htime Hr Hv Ht.
  pose proof Hfix as [Hoff Hrange].
  destruct (readDate_exact s ("T" ++ time) y m d Hr) as [Hr' Hy].
  pose proof (MakeDay_bounds y m d Hy Hv) as Hb.
  pose proof (readTime_bounds _ _ _ Ht) as Htm.
  unfold dateLines. rewrite Htime, Hdate.
  assert (Hstart : combineDateTime host (DateString s) time
                   = Some (MakeDay y (m - 1) d * msPerDay + tm - offset)).
  { unfold combineDateTime, JSDateText.ofString, JSDateText.parseISO.
    rewrite Hr', Hv. cbn [append Ascii.eqb Bool.eqb]. rewrite Ht.
    cbn [String.eqb]. unfold UTC, MakeDate. rewrite Hoff.
    apply TimeClip_in_range. unfold msPerDay in *. lia. }
  rewrite Hstart. cbn [addMillis].
  rewrite TimeClip_in_range by (unfold msPerDay in *; lia).
  f_equal; [|f_equal]; f_equal.
  - apply (formatDateTime_local host offset); [exact Hfix | exact Hv | exact Htm | lia].
  - destruct (Z.ltb_spec (tm + 3600000) msPerDay) as [Hin|Hout].
    + apply (formatDateTime_local host offset);
        [exact Hfix | exact Hv | lia | lia].
    + pose proof (nextDay_valid y m d Hv) as Hnv.
      destruct (nextDay y m d) as [[y' m'] d'].
      destruct Hnv as [Hv' Hday'].
      apply (formatDateTime_local host offset);
        [exact Hfix | exact Hv' | unfold msPerDay in *; lia |].
      rewrite Hday'. lia.
Qed.

Lemma timed_event_lasts_one_hour_witness :
  dateLines hostEast
    (mkEvent 4 sampleHash "New Year's Eve" (DateString "2024-12-31")
             (Some "23:30") "party" None (Some sampleInstant)
             (Some sampleInstant))
  = [ "DTSTART;TZID=Europe/Berlin:" ++ basicDateTime (2024, 12, 31) 84600000;
      "DTEND;TZID=Europe/Berlin:"
        ++ (if 84600000 + 3600000 <? msPerDay
            then basicDateTime (2024, 12, 31) (84600000 + 3600000)
            else basicDateTime (nextDay 2024 12 31)
                               (84600000 + 3600000 - msPerDay)) ].
Proof.
  apply (timed_event_lasts_one_hour hostEast 3600000
           (mkEvent 4 sampleHash "New Year's Eve" (DateString "2024-12-31")
                    (Some "23:30") "party" None (Some sampleInstant)
                    (Some sampleInstant))
           "2024-12-31" "23:30" 2024 12 31 84600000).
  - split; [intros tv isUTC; reflexivity | unfold msPerDay; lia].
  - reflexivity.
  - reflexivity.
  - reflexivity.
  - reflexivity.
  - reflexivity.
Defined.

(* ================================================================== *)
(** ** Regular expressions *)
(* ================================================================== *)

Lemma flat_map_flat_map {A B C : Type} (f : A -> list B) (g : B -> list C)
      (l : list A) :
  flat_map g (flat_map f l) = flat_map (fun x => flat_map g (f x)) l.
Proof.
  induction l as [|x l IH]; [reflexivity|].
  cbn [flat_map]. now rewrite flat_map_app, IH.
Qed.

Lemma test_Seq_assoc (a b c : Regex) (s : string) :
  test (Seq (Seq a b) c) s = test (Seq a (Seq b c)) s.
Proof. unfold test. cbn [matchPrefix]. now rewrite flat_map_flat_map. Qed.

Lemma test_Seq_Eps (r : Regex) (s : string) : test (Seq Eps r) s = test r s.
Proof. unfold test. cbn [matchPrefix flat_map]. now rewrite app_nil_r. Qed.

Lemma test_Eps (s : string) : test Eps s = String.eqb "" s.
Proof. unfold test. cbn. apply orb_false_r. Qed.

Lemma test_Seq_Class (p : ascii -> bool) (r : Regex) (s : string) :
  test (Seq (Class p) r) s
  = match s with
    | String c s' => p c && test r s'
    | EmptyString => false
    end.
Proof.
  unfold test. cbn [matchPrefix]. destruct s as [|c s]; [reflexivity|].
  destruct (p c); [|reflexivity].
  cbn [flat_map andb]. now rewrite app_nil_r.
Qed.

Lemma test_Class (p : ascii -> bool) (s : string) :
  test (Class p) s
  = match s with
    | String c EmptyString => p c
    | _ => false
    end.
Proof.
  unfold test. cbn [matchPrefix]. destruct s as [|c [|d s]]; [reflexivity| |].
  - destruct (p c); reflexivity.
  - destruct (p c); reflexivity.
Qed.

Lemma test_Seq_Alt (a b r : Regex) (s : string) :
  test (Seq (Alt a b) r) s = test (Seq a r) s || test (Seq b r) s.
Proof.
  unfold test. cbn [matchPrefix]. now rewrite flat_map_app, existsb_app.
Qed.

Lemma test_Seq_Opt (a r : Regex) (s : string) :
  test (Seq (Opt a) r) s = test (Seq a r) s || test r s.
Proof.
  unfold test. cbn [matchPrefix].
  rewrite flat_map_app, existsb_app. cbn [flat_map]. now rewrite app_nil_r.
Qed.

Lemma test_Opt (a : Regex) (s : string) :
  test (Opt a) s = test a s || String.eqb "" s.
Proof.
  unfold test. cbn [matchPrefix]. rewrite existsb_app. cbn [existsb].
  now rewrite orb_false_r.
Qed.

Lemma test_Many (p : ascii -> bool) (s : string) :
  test (Many p) s = forallChars p s.
Proof.
  unfold test. cbn [matchPrefix].
  induction s as [|c s IH]; [reflexivity|].
  cbn [matchMany forallChars]. rewrite existsb_app. cbn [existsb String.eqb].
  rewrite orb_false_r. destruct (p c); [exact IH | reflexivity].
Qed.

(** Normal form of a test: sequences are nested to the right and the
    first character is looked at. *)
Ltac regex_step :=
  rewrite ?test_Seq_assoc, ?test_Seq_Eps;
  first [ rewrite test_Seq_Class
        | rewrite test_Seq_Alt
        | rewrite test_Seq_Opt
        | rewrite test_Opt
        | rewrite test_Class
        | rewrite test_Eps
        | rewrite test_Many ].

Lemma test_times_Many (n : nat) (p : ascii -> bool) (s : string) :
  test (Seq (times n (Class p)) (Many p)) s
  = Nat.leb n (String.length s) && forallChars p s.
Proof.
  revert s. induction n as [|n IH]; intros s.
  - cbn [times]. now rewrite test_Seq_Eps, test_Many.
  - cbn [times]. rewrite test_Seq_assoc, test_Seq_Class.
    destruct s as [|c s]; [reflexivity|].
    rewrite IH. cbn [String.length forallChars Nat.leb].
    destruct (p c), (Nat.leb n (String.length s)); reflexivity.
Qed.

Lemma test_times_exact (n : nat) (p : ascii -> bool) (s : string) :
  test (times n (Class p)) s
  = Nat.eqb (String.length s) n && forallChars p s.
Proof.
  revert s. induction n as [|n IH]; intros s.
  - cbn [times]. rewrite test_Eps. destruct s; reflexivity.
  - cbn [times]. rewrite test_Seq_Class.
    destruct s as [|c s]; [reflexivity|].
    rewrite IH. cbn [String.length forallChars Nat.eqb].
    destruct (p c), (Nat.eqb (String.length s) n); reflexivity.
Qed.

Ltac regex_step_in H :=
  rewrite ?test_Seq_assoc, ?test_Seq_Eps in H;
  first [ rewrite test_Seq_Class in H
        | rewrite test_Seq_Alt in H
        | rewrite test_Seq_Opt in H
        | rewrite test_Opt in H
        | rewrite test_Class in H
        | rewrite test_Eps in H
        | rewrite test_Many in H ].

(* ================================================================== *)
(** ** Validation of dates *)
(* ================================================================== *)

Lemma between_digit (c : ascii) :
  between "0" "9" c = true ->
  exists v, JSDateText.digit c = Some v /\ Ascii.eqb c "-" = false.
Proof.
  unfold between, JSDateText.digit.
  change (nat_of_ascii "0") with 48%nat. change (nat_of_ascii "9") with 57%nat.
  intros H. apply andb_true_iff in H as [Hlo Hhi].
  apply Nat.leb_le in Hlo. apply Nat.leb_le in Hhi.
  destruct (Z.leb_spec 48 (Z.of_nat (nat_of_ascii c))); [|lia].
  destruct (Z.leb_spec (Z.of_nat (nat_of_ascii c)) 57); [|lia].
  eexists. split; [reflexivity|].
  apply Ascii.eqb_neq. intros ->. cbn in Hlo. lia.
Qed.

Lemma digit_between (c : ascii) (v : Z) :
  JSDateText.digit c = Some v -> between "0" "9" c = true.
Proof.
  unfold between, JSDateText.digit.
  change (nat_of_ascii "0") with 48%nat. change (nat_of_ascii "9") with 57%nat.
  destruct (Z.leb_spec 48 (Z.of_nat (nat_of_ascii c))); [|discriminate].
  destruct (Z.leb_spec (Z.of_nat (nat_of_ascii c)) 57); [|discriminate].
  intros _. apply andb_true_iff. split; apply Nat.leb_le; lia.
Qed.

Ltac peel H s :=
  let Hc := fresh "Hc" in
  regex_step_in H; destruct s as [|? s]; [discriminate|];
  apply andb_true_iff in H as [Hc H].

(** A string the date pattern lets through is read as a date, and its
    three parts convert to the numbers read. *)
Lemma dateRegex_parts (s : string) :
  test ValidationService.dateRegex s = true ->
  exists y m d,
    JSDateText.readDate s = Some (y, m, d, "")
    /\ map toNumber (split "-" s) = [Some y; Some m; Some d].
Proof.
  unfold ValidationService.dateRegex, digitClass, lit. cbn [times].
  intros H.
  do 10 peel H s.
  rewrite test_Eps in H. destruct s; [clear H|discriminate].
  apply Ascii.eqb_eq in Hc3, Hc6. subst.
  destruct (between_digit _ Hc) as (y1 & Hd & Hn).
  destruct (between_digit _ Hc0) as (y2 & Hd0 & Hn0).
  destruct (between_digit _ Hc1) as (y3 & Hd1 & Hn1).
  destruct (between_digit _ Hc2) as (y4 & Hd2 & Hn2).
  destruct (between_digit _ Hc4) as (m1 & Hd3 & Hn3).
  destruct (between_digit _ Hc5) as (m2 & Hd5 & Hn5).
  destruct (between_digit _ Hc7) as (d1 & Hd6 & Hn6).
  destruct (between_digit _ Hc8) as (dv & Hd4 & Hn4).
  exists (100 * (10 * y1 + y2) + (10 * y3 + y4)), (10 * m1 + m2), (10 * d1 + dv).
  split.
  - unfold JSDateText.readDate, JSDateText.digits4, JSDateText.digits2.
    cbn [Ascii.eqb Bool.eqb andb].
    now rewrite Hd, Hd0, Hd1, Hd2, Hd3, Hd5, Hd6, Hd4.
  - cbn [split]. rewrite Hn, Hn0, Hn1, Hn2, Hn3, Hn5, Hn6, Hn4.
    cbn [Ascii.eqb Bool.eqb map]. unfold toNumber. cbn [digitsValue].
    rewrite Hd, Hd0, Hd1, Hd2, Hd3, Hd5, Hd6, Hd4.
    repeat (f_equal; try lia).
Qed.

Lemma readDate_dateRegex (s : string) (y m d : Z) :
  JSDateText.readDate s = Some (y, m, d, "") ->
  test ValidationService.dateRegex s = true.
Proof.
  unfold JSDateText.readDate, JSDateText.digits4, JSDateText.digits2.
  do 10 (destruct s as [|? s]; [discriminate|]).
  destruct (Ascii.eqb_spec a3 "-"); [subst a3|discriminate].
  destruct (Ascii.eqb_spec a6 "-"); [subst a6|discriminate].
  cbn [andb].
  destruct (JSDateText.digit a) eqn:E1; [|discriminate].
  destruct (JSDateText.digit a0) eqn:E2; [|discriminate].
  destruct (JSDateText.digit a1) eqn:E3; [|discriminate].
  destruct (JSDateText.digit a2) eqn:E4; [|discriminate].
  destruct (JSDateText.digit a4) eqn:E5; [|discriminate].
  destruct (JSDateText.digit a5) eqn:E6; [|discriminate].
  destruct (JSDateText.digit a7) eqn:E7; [|discriminate].
  destruct (JSDateText.digit a8) eqn:E8; [|discriminate].
  intros Heq. injection Heq as _ _ _ ->.
  unfold ValidationService.dateRegex, digitClass, lit. cbn [times].
  do 10 regex_step. rewrite test_Eps.
  rewrite (digit_between _ _ E1), (digit_between _ _ E2),
    (digit_between _ _ E3), (digit_between _ _ E4), (digit_between _ _ E5),
    (digit_between _ _ E6), (digit_between _ _ E7), (digit_between _ _ E8).
  reflexivity.
Qed.

Lemma isValidDate_calendar_date (host : Host) (s : string) :
  ValidationService.isValidDate host s = true ->
  exists y m d,
    JSDateText.readDate s = Some (y, m, d, "")
    /\ JSDateText.validDate y m d = true.
Proof.
  unfold ValidationService.isValidDate.
  destruct (test ValidationService.dateRegex s) eqn:Hre; [|discriminate].
  cbn [negb].
  destruct (dateRegex_parts s Hre) as (y & m & d & Hr & Hparts).
  rewrite Hparts. intros H. exists y, m, d. split; [exact Hr|].
  destruct (JSDateText.validDate y m d) eqn:Hv; [reflexivity|].
  destruct (readDate_exact s "T00:00:00.000Z" y m d Hr) as [Hr' _].
  unfold JSDateText.ofString, JSDateText.parseISO in H.
  rewrite Hr', Hv in H.
  destruct (parseLegacy host _) as [tv|]; [|discriminate].
  unfold TimeClip in H. destruct (Z.abs tv <=? _); [|discriminate].
  cbn [getUTCFullYear getUTCMonth getUTCDate option_map strictEq] in H.
  apply andb_true_iff in H as [H E3]. apply andb_true_iff in H as [E1 E2].
  apply Z.eqb_eq in E1, E2, E3.
  pose proof (civilDate_valid tv) as Hc. unfold civilDate in Hc.
  destruct Hc as [Hc _]. rewrite E1, E2, E3 in Hc.
  replace (m - 1 + 1) with m in Hc by lia. congruence.
Qed.

Lemma calendar_date_isValidDate (host : Host) (s : string) (y m d : Z) :
  JSDateText.readDate s = Some (y, m, d, "") ->
  JSDateText.validDate y m d = true ->
  ValidationService.isValidDate host s = true.
Proof.
  intros Hr Hv. unfold ValidationService.isValidDate.
  pose proof (readDate_dateRegex s y m d Hr) as Hre. rewrite Hre. cbn [negb].
  destruct (dateRegex_parts s Hre) as (y' & m' & d' & Hr' & Hparts).
  rewrite Hr in Hr'. injection Hr' as <- <- <-.
  rewrite Hparts, (ofString_midnight host s y m d Hr Hv).
  assert (Hday : Day (MakeDay y (m - 1) d * msPerDay) = MakeDay y (m - 1) d).
  { rewrite <- (Z.add_0_r (_ * msPerDay)). apply Day_of_midnight.
    unfold msPerDay. lia. }
  destruct (civil_of_day y m d _ Hv Hday) as (E1 & E2 & E3).
  cbn [getUTCFullYear getUTCMonth getUTCDate option_map strictEq].
  rewrite E1, E2, E3, !Z.eqb_refl. reflexivity.
Qed.

(** X8.  [isValidDate] accepts exactly the strings [YYYY-MM-DD] that name
    a day of the calendar, on every host: whatever a host's [Date] makes of
    an impossible date such as [2023-02-30] (an invalid date, or a day of
    the next month), the comparison of the parts rejects it. *)
Theorem isValidDate_iff_calendar_date (host : Host) (s : string) :
  ValidationService.isValidDate host s = true
  <-> exists y m d,
        JSDateText.readDate s = Some (y, m, d, "")
        /\ JSDateText.validDate y m d = true.
Proof.
  split.
  - apply isValidDate_calendar_date.
  - intros (y & m & d & Hr & Hv).
    exact (calendar_date_isValidDate host s y m d Hr Hv).
Qed.

(* ================================================================== *)
(** ** Validation and storage form of times *)
(* ================================================================== *)

(** A character of a class of digits is a digit with a value in the
    range of the class; it is no colon. *)
Lemma between_value (lo hi c : ascii) :
  between lo hi c = true ->
  (48 <= nat_of_ascii lo)%nat -> (nat_of_ascii hi <= 57)%nat ->
  exists v,
    JSDateText.digit c = Some v
    /\ Z.of_nat (nat_of_ascii lo) - 48 <= v <= Z.of_nat (nat_of_ascii hi) - 48
    /\ Ascii.eqb c ":" = false
    /\ between "0" "9" c = true.
Proof.
  unfold between, JSDateText.digit.
  change (nat_of_ascii "0") with 48%nat. change (nat_of_ascii "9") with 57%nat.
  intros H Hlo Hhi. apply andb_true_iff in H as [H1 H2].
  apply Nat.leb_le in H1. apply Nat.leb_le in H2.
  destruct (Z.leb_spec 48 (Z.of_nat (nat_of_ascii c))); [|lia].
  destruct (Z.leb_spec (Z.of_nat (nat_of_ascii c)) 57); [|lia].
  eexists. split; [reflexivity|]. split; [cbn [andb]; lia|]. split.
  - apply Ascii.eqb_neq. intros ->. cbn in H2. lia.
  - apply andb_true_iff. split; apply Nat.leb_le; lia.
Qed.

Ltac class_facts H v :=
  let Hd := fresh "Hd" in
  let Hr := fresh "Hr" in
  let Hn := fresh "Hn" in
  let Hb := fresh "Hb" in
  destruct (between_value _ _ _ H ltac:(cbn; lia) ltac:(cbn; lia))
    as (v & Hd & Hr & Hn & Hb);
  cbn in Hr.

Ltac regex_norm :=
  repeat first [ rewrite test_Seq_assoc | rewrite test_Seq_Eps
               | rewrite test_Seq_Class | rewrite test_Seq_Alt
               | rewrite test_Seq_Opt | rewrite test_Opt
               | rewrite test_Class | rewrite test_Eps ].

Lemma formatTimeString_full (a b c d e f : ascii) :
  between "0" "9" a = true -> between "0" "9" b = true ->
  between "0" "9" c = true -> between "0" "9" d = true ->
  between "0" "9" e = true -> between "0" "9" f = true ->
  let t := String a (String b (String ":" (String c (String d
             (String ":" (String e (String f ""))))))) in
  ValidationService.formatTimeString t = t.
Proof.
  intros Ha Hb Hc Hd He Hf t. subst t.
  unfold ValidationService.formatTimeString, ValidationService.fullTimeRegex,
         digitClass, lit.
  cbn [times]. regex_norm.
  now rewrite Ha, Hb, Hc, Hd, He, Hf.
Qed.

Lemma formatTimeString_hours_minutes (a b c d : ascii) :
  between "0" "9" a = true -> between "0" "9" b = true ->
  between "0" "9" c = true -> between "0" "9" d = true ->
  ValidationService.formatTimeString
    (String a (String b (String ":" (String c (String d "")))))
  = String a (String b (String ":" (String c (String d ":00")))).
Proof.
  intros Ha Hb Hc Hd.
  class_facts Ha va. class_facts Hb vb. class_facts Hc vc. class_facts Hd vd.
  unfold ValidationService.formatTimeString, ValidationService.fullTimeRegex,
         ValidationService.shortTimeRegex, digitClass, lit.
  cbn [times]. regex_norm.
  rewrite Ha, Hb, Hc, Hd. cbn [Ascii.eqb Bool.eqb andb orb String.eqb].
  rewrite ?andb_false_r. cbn [orb].
  cbn [split]. rewrite Hn, Hn0, Hn1, Hn2. cbn [Ascii.eqb Bool.eqb].
  reflexivity.
Qed.

Lemma formatTimeString_hour_minutes (a c d : ascii) :
  between "0" "9" a = true ->
  between "0" "9" c = true -> between "0" "9" d = true ->
  ValidationService.formatTimeString
    (String a (String ":" (String c (String d ""))))
  = String "0" (String a (String ":" (String c (String d ":00")))).
Proof.
  intros Ha Hc Hd.
  class_facts Ha va. class_facts Hc vc. class_facts Hd vd.
  unfold ValidationService.formatTimeString, ValidationService.fullTimeRegex,
         ValidationService.shortTimeRegex, digitClass, lit.
  cbn [times]. regex_norm.
  assert (Hcolon : between "0" "9" ":" = false) by reflexivity.
  rewrite Ha, Hc, Hd, Hcolon.
  cbn [Ascii.eqb Bool.eqb andb orb String.eqb].
  rewrite ?andb_false_r. cbn [orb].
  cbn [split]. rewrite Hn, Hn0, Hn1. cbn [Ascii.eqb Bool.eqb].
  reflexivity.
Qed.

Lemma formatTimeString_hour_minutes_seconds (a c d e f : ascii) :
  between "0" "9" a = true ->
  let t := String a (String ":" (String c (String d
             (String ":" (String e (String f "")))))) in
  ValidationService.formatTimeString t = t /\ JSDateText.readTime t = None.
Proof.
  intros Ha t. subst t.
  class_facts Ha va.
  assert (Hcolon : between "0" "9" ":" = false) by reflexivity.
  split.
  - unfold ValidationService.formatTimeString, ValidationService.fullTimeRegex,
           ValidationService.shortTimeRegex, digitClass, lit.
    cbn [times]. regex_norm. rewrite Hcolon.
    cbn [Ascii.eqb Bool.eqb andb orb String.eqb].
    now rewrite !andb_false_r.
  - unfold JSDateText.readTime.
    destruct (Ascii.eqb c ":"); [|reflexivity].
    unfold JSDateText.digits2 at 1.
    assert (Hcd : JSDateText.digit ":" = None) by reflexivity.
    rewrite Hcd. now destruct (JSDateText.digit a).
Qed.

Lemma readTime_canonical (a b c d e f : ascii) (h m sec : Z) :
  JSDateText.digits2 a b = Some h -> h <= 23 ->
  JSDateText.digits2 c d = Some m -> m <= 59 ->
  JSDateText.digits2 e f = Some sec -> sec <= 59 ->
  JSDateText.readTime
    (String a (String b (String ":" (String c (String d
       (String ":" (String e (String f ""))))))))
  = Some (MakeTime h m sec 0, "").
Proof.
  intros Hh Hh' Hm Hm' Hs Hs'.
  unfold JSDateText.readTime, JSDateText.readSeconds, JSDateText.readMillis.
  cbn [Ascii.eqb Bool.eqb]. rewrite Hh, Hm, Hs.
  destruct (Z.leb_spec h 23); [|lia].
  destruct (Z.leb_spec m 59); [|lia].
  destruct (Z.leb_spec sec 59); [|lia].
  reflexivity.
Qed.

Lemma digits2_of (a b : ascii) (x y : Z) :
  JSDateText.digit a = Some x -> JSDateText.digit b = Some y ->
  JSDateText.digits2 a b = Some (10 * x + y).
Proof. intros Ha Hb. unfold JSDateText.digits2. now rewrite Ha, Hb. Qed.

Ltac regex_norm_in H :=
  repeat first [ rewrite test_Seq_assoc in H | rewrite test_Seq_Eps in H
               | rewrite test_Seq_Class in H | rewrite test_Seq_Alt in H
               | rewrite test_Seq_Opt in H | rewrite test_Opt in H
               | rewrite test_Class in H | rewrite test_Eps in H ].

Lemma class_value (hi c : ascii) (k : Z) :
  between "0" hi c = true ->
  Z.of_nat (nat_of_ascii hi) = 48 + k -> k <= 9 ->
  exists v,
    JSDateText.digit c = Some v /\ 0 <= v <= k
    /\ between "0" "9" c = true.
Proof.
  intros H Hhi Hk.
  destruct (between_value "0" hi c H) as (v & Hd & Hr & _ & Hb).
  - cbn. lia.
  - lia.
  - exists v. change (Z.of_nat (nat_of_ascii "0")) with 48 in Hr.
    repeat split; try assumption; lia.
Qed.

(** Splits a hypothesis that a combination of tests holds into the tests. *)
Ltac bool_split H :=
  cbn [String.eqb orb andb] in H;
  rewrite ?andb_false_r, ?orb_false_r, ?andb_true_r in H;
  cbn [orb andb] in H;
  repeat match goal with
         | Hx : false = true |- _ => discriminate Hx
         | Hx : _ || _ = true |- _ =>
             apply orb_true_iff in Hx; destruct Hx as [Hx|Hx]
         | Hx : _ && _ = true |- _ =>
             let Hy := fresh "Hy" in apply andb_true_iff in Hx; destruct Hx as [Hy Hx]
         | Hx : Ascii.eqb (Ascii _ _ _ _ _ _ _ _) ?c = true |- _ =>
             apply Ascii.eqb_eq in Hx; subst c
         end.

Ltac digit_value H k v :=
  let Hd := fresh "Hd" in
  let Hr := fresh "Hr" in
  let Hb := fresh "Hb" in
  destruct (class_value _ _ k H eq_refl ltac:(lia)) as (v & Hd & Hr & Hb).

(** The stored form [HH:MM:SS] of a time is read by the [Date] parser. *)
Lemma stored_time_read (a b c d e f : ascii) (x1 x2 x3 x4 x5 x6 : Z) :
  JSDateText.digit a = Some x1 -> JSDateText.digit b = Some x2 ->
  JSDateText.digit c = Some x3 -> JSDateText.digit d = Some x4 ->
  JSDateText.digit e = Some x5 -> JSDateText.digit f = Some x6 ->
  10 * x1 + x2 <= 23 -> 10 * x3 + x4 <= 59 -> 10 * x5 + x6 <= 59 ->
  let t := String a (String b (String ":" (String c (String d
             (String ":" (String e (String f ""))))))) in
  exists tm, JSDateText.readTime t = Some (tm, "")
             /\ String.length t = 8%nat.
Proof.
  intros Ha Hb Hc Hd He Hf H1 H2 H3 t. subst t.
  eexists. split; [|reflexivity].
  apply readTime_canonical with (h := 10 * x1 + x2) (m := 10 * x3 + x4)
                                (sec := 10 * x5 + x6);
    try assumption; now apply digits2_of.
Qed.

(** X9.  A time the validation accepts is stored as [HH:MM:SS], a form the
    [Date] parser reads, with one exception: a time of the form [H:MM:SS]
    (one digit for the hour, seconds given) is accepted, stored unchanged
    and not read by the parser. *)
Theorem validated_time_storage_form (t : string) :
  ValidationService.isValidTime t = true ->
  (String.length t <> 7%nat ->
   exists tm,
     JSDateText.readTime (ValidationService.formatTimeString t) = Some (tm, "")
     /\ String.length (ValidationService.formatTimeString t) = 8%nat)
  /\ (String.length t = 7%nat ->
      ValidationService.formatTimeString t = t
      /\ JSDateText.readTime t = None).
Proof.
  unfold ValidationService.isValidTime, ValidationService.timeRegex, lit.
  intros H. regex_norm_in H.
  destruct t as [|a t]; [discriminate|]. regex_norm_in H.
  destruct t as [|b t]; [bool_split H|]. regex_norm_in H.
  destruct t as [|c t]; [bool_split H|]. regex_norm_in H.
  destruct t as [|d t]; [bool_split H|]. regex_norm_in H.
  assert (H0 : JSDateText.digit "0" = Some 0) by reflexivity.
  assert (H2 : JSDateText.digit "2" = Some 2) by reflexivity.
  destruct t as [|e t].
  { bool_split H. split; [intros _|discriminate].
    digit_value Hy 9 va. digit_value Hy1 5 vc. digit_value H 9 vd.
    rewrite formatTimeString_hour_minutes by assumption.
    apply (stored_time_read "0" a c d "0" "0" 0 va vc vd 0 0);
      try assumption; lia. }
  regex_norm_in H.
  destruct t as [|f t].
  { bool_split H; (split; [intros _|discriminate]).
    - digit_value Hy 1 va. digit_value Hy0 9 vb.
      digit_value Hy2 5 vd. digit_value H 9 ve.
      rewrite formatTimeString_hours_minutes by assumption.
      apply (stored_time_read a b d e "0" "0" va vb vd ve 0 0);
        try assumption; lia.
    - digit_value Hy0 3 vb. digit_value Hy2 5 vd. digit_value H 9 ve.
      rewrite formatTimeString_hours_minutes by (assumption || reflexivity).
      apply (stored_time_read "2" b d e "0" "0" 2 vb vd ve 0 0);
        try assumption; lia. }
  regex_norm_in H.
  destruct t as [|g t]; [bool_split H|]. regex_norm_in H.
  destruct t as [|h t].
  { bool_split H. split; [intros Hlen; now elim Hlen | intros _].
    apply formatTimeString_hour_minutes_seconds. assumption. }
  regex_norm_in H.
  destruct t as [|i t].
  { bool_split H; (split; [intros _|discriminate]).
    - digit_value Hy 1 va. digit_value Hy0 9 vb.
      digit_value Hy2 5 vd. digit_value Hy3 9 ve.
      digit_value Hy5 5 vg. digit_value H 9 vh.
      rewrite formatTimeString_full by assumption.
      apply (stored_time_read a b d e g h va vb vd ve vg vh);
        try assumption; lia.
    - digit_value Hy0 3 vb.
      digit_value Hy2 5 vd. digit_value Hy3 9 ve.
      digit_value Hy5 5 vg. digit_value H 9 vh.
      rewrite formatTimeString_full by (assumption || reflexivity).
      apply (stored_time_read "2" b d e g h 2 vb vd ve vg vh);
        try assumption; lia. }
  bool_split H.
Qed.

Lemma validated_time_storage_form_witness :
  (String.length "9:30" <> 7%nat ->
   exists tm,
     JSDateText.readTime (ValidationService.formatTimeString "9:30")
     = Some (tm, "")
     /\ String.length (ValidationService.formatTimeString "9:30") = 8%nat)
  /\ (String.length "9:30" = 7%nat ->
      ValidationService.formatTimeString "9:30" = "9:30"
      /\ JSDateText.readTime "9:30" = None).
Proof. apply (validated_time_storage_form "9:30"). reflexivity. Defined.

Example time_with_short_hour_and_seconds :
  ValidationService.isValidTime "9:30:15" = true
  /\ ValidationService.formatTimeString "9:30:15" = "9:30:15"
  /\ JSDateText.readTime "9:30:15" = None.
Proof. repeat split. Qed.

(* ================================================================== *)
(** ** Sanitised text *)
(* ================================================================== *)

Lemma trimEnd_cons (c : ascii) (s : string) :
  trimEnd (String c s) = String c s ->
  trimEnd s = s /\ (isWhiteSpace c = true -> s <> "").
Proof.
  cbn [trimEnd]. destruct (trimEnd s) as [|d r] eqn:E.
  - destruct (isWhiteSpace c); [discriminate|].
    intros H. injection H as <-. split; [reflexivity | discriminate].
  - intros H. injection H as <-. split; [reflexivity|]. intros _. discriminate.
Qed.

Lemma trimEnd_idem (s : string) : trimEnd (trimEnd s) = trimEnd s.
Proof.
  induction s as [|c s IH]; [reflexivity|].
  cbn [trimEnd]. destruct (trimEnd s) as [|d r] eqn:E.
  - destruct (isWhiteSpace c) eqn:Hc; [reflexivity|].
    cbn [trimEnd]. now rewrite Hc.
  - cbn [trimEnd] in *. now rewrite IH.
Qed.

Lemma trimEnd_head (c : ascii) (s : string) :
  isWhiteSpace c = false -> exists r, trimEnd (String c s) = String c r.
Proof.
  intros Hc. cbn [trimEnd]. destruct (trimEnd s); rewrite ?Hc; eauto.
Qed.

Lemma trimStart_head (s : string) :
  match trimStart s with
  | EmptyString => True
  | String c _ => isWhiteSpace c = false
  end.
Proof.
  induction s as [|c s IH]; [exact I|].
  cbn [trimStart]. destruct (isWhiteSpace c) eqn:Hc; [exact IH | exact Hc].
Qed.

(** What [trim] returns has no white space at either end. *)
Lemma trim_clean (s : string) :
  trimEnd (trim s) = trim s
  /\ match trim s with
     | EmptyString => True
     | String c _ => isWhiteSpace c = false
     end.
Proof.
  unfold trim. split; [apply trimEnd_idem|].
  pose proof (trimStart_head s) as H.
  destruct (trimStart s) as [|c r]; [exact I|].
  destruct (trimEnd_head c r H) as [r' ->]. exact H.
Qed.

Lemma replaceSpaceRuns_single (u : string) :
  trimEnd u = u ->
  singleSpacedFrom false (replaceSpaceRuns false u) = true
  /\ (u <> "" -> singleSpacedFrom true (replaceSpaceRuns true u) = true).
Proof.
  induction u as [|c u IH]; intros Hu.
  - split; [reflexivity|]. intros H. now elim H.
  - apply trimEnd_cons in Hu as [Hu Hne]. destruct (IH Hu) as [IHa IHb].
    cbn [replaceSpaceRuns]. destruct (isWhiteSpace c) eqn:Hc.
    + specialize (IHb (Hne eq_refl)). split; [|intros _; exact IHb].
      cbn [singleSpacedFrom]. now rewrite IHb.
    + cbn [singleSpacedFrom]. rewrite Hc. split; [exact IHa | intros _; exact IHa].
Qed.

Lemma singleSpacedFrom_fixed (s : string) (b : bool) :
  singleSpacedFrom b s = true ->
  replaceSpaceRuns b s = s /\ trimEnd s = s.
Proof.
  revert b. induction s as [|c s IH]; intros b H; [split; reflexivity|].
  cbn [singleSpacedFrom] in H. cbn [replaceSpaceRuns trimEnd].
  destruct (isWhiteSpace c) eqn:Hc.
  - apply andb_true_iff in H as [H Hs]. apply andb_true_iff in H as [Heq Hb].
    apply Ascii.eqb_eq in Heq. subst c. destruct b; [discriminate|].
    destruct (IH true Hs) as [-> ->].
    split; [reflexivity|]. destruct s; [discriminate | reflexivity].
  - destruct (IH false H) as [E1 ->].
    split.
    + destruct b; now rewrite E1.
    + destruct s; reflexivity.
Qed.

Lemma isWhiteSpace_line_break (c : ascii) :
  isWhiteSpace c = false -> Ascii.eqb c LF = false /\ Ascii.eqb c CR = false.
Proof.
  intros H. split; apply Ascii.eqb_neq; intros ->; discriminate.
Qed.

Lemma replaceSpaceRuns_no_line_break (b : bool) (s : string) :
  hasChar LF (replaceSpaceRuns b s) = false
  /\ hasChar CR (replaceSpaceRuns b s) = false.
Proof.
  revert b. induction s as [|c s IH]; intros b; [split; reflexivity|].
  cbn [replaceSpaceRuns]. destruct (isWhiteSpace c) eqn:Hc.
  - destruct b; [apply IH|]. cbn [hasChar]. destruct (IH true) as [-> ->].
    split; reflexivity.
  - destruct (isWhiteSpace_line_break c Hc) as [E1 E2].
    cbn [hasChar]. rewrite E1, E2. apply IH.
Qed.

Lemma replaceSpaceRuns_length (b : bool) (s : string) :
  (String.length (replaceSpaceRuns b s) <= String.length s)%nat.
Proof.
  revert b. induction s as [|c s IH]; intros b; [apply Nat.le_refl|].
  pose proof (IH true). pose proof (IH false).
  cbn [replaceSpaceRuns]. destruct (isWhiteSpace c); [destruct b|];
    cbn [String.length]; lia.
Qed.

Lemma trimStart_length (s : string) :
  (String.length (trimStart s) <= String.length s)%nat.
Proof.
  induction s as [|c s IH]; [apply Nat.le_refl|].
  cbn [trimStart]. destruct (isWhiteSpace c); cbn [String.length]; lia.
Qed.

Lemma trimEnd_length (s : string) :
  (String.length (trimEnd s) <= String.length s)%nat.
Proof.
  induction s as [|c s IH]; [apply Nat.le_refl|].
  cbn [trimEnd]. destruct (trimEnd s); [destruct (isWhiteSpace c)|];
    cbn [String.length] in *; lia.
Qed.

Lemma sanitizeString_single (s : string) :
  singleSpaced (ValidationService.sanitizeString s) = true.
Proof.
  unfold ValidationService.sanitizeString.
  destruct (trim_clean s) as [Hend Hstart].
  destruct (trim s) as [|c u]; [reflexivity|].
  apply trimEnd_cons in Hend as [Hend _].
  cbn [replaceSpaceRuns]. rewrite Hstart.
  unfold singleSpaced. cbn [singleSpacedFrom]. rewrite Hstart.
  apply (replaceSpaceRuns_single u Hend).
Qed.

Lemma sanitizeString_fixed (s : string) :
  singleSpaced s = true -> ValidationService.sanitizeString s = s.
Proof.
  unfold singleSpaced, ValidationService.sanitizeString, trim.
  destruct s as [|c s]; [reflexivity|]. intros H.
  destruct (singleSpacedFrom_fixed _ _ H) as [_ Hend].
  cbn [singleSpacedFrom] in H. cbn [trimStart].
  destruct (isWhiteSpace c) eqn:Hc.
  - rewrite andb_false_r in H. discriminate.
  - rewrite Hend. cbn [replaceSpaceRuns]. rewrite Hc.
    now destruct (singleSpacedFrom_fixed _ _ H) as [-> _].
Qed.

Lemma sanitizeString_length (s : string) :
  (String.length (ValidationService.sanitizeString s) <= String.length s)%nat.
Proof.
  unfold ValidationService.sanitizeString, trim.
  pose proof (replaceSpaceRuns_length false (trimEnd (trimStart s))).
  pose proof (trimEnd_length (trimStart s)).
  pose proof (trimStart_length s). lia.
Qed.

(** X10.  [sanitizeString] returns a text whose white space is single
    spaces between other characters, without line breaks and no longer
    than the input; a text already of that form is returned as it is, so
    sanitising twice changes nothing. *)
Theorem sanitizeString_normal_form (input : string) :
  let output := ValidationService.sanitizeString input in
  singleSpaced output = true
  /\ hasChar LF output = false /\ hasChar CR output = false
  /\ (String.length output <= String.length input)%nat
  /\ ValidationService.sanitizeString output = output.
Proof.
  cbv zeta. split; [apply sanitizeString_single|].
  split; [apply replaceSpaceRuns_no_line_break|].
  split; [apply replaceSpaceRuns_no_line_break|].
  split; [apply sanitizeString_length|].
  apply sanitizeString_fixed, sanitizeString_single.
Qed.

(* ================================================================== *)
(** ** User identifiers *)
(* ================================================================== *)

Lemma forallChars_append (p : ascii -> bool) (a b : string) :
  forallChars p (a ++ b) = forallChars p a && forallChars p b.
Proof.
  induction a as [|c a IH]; [reflexivity|].
  cbn [append forallChars]. now rewrite IH, andb_assoc.
Qed.

Lemma forallChars_substring0 (p : ascii -> bool) (n : nat) (s : string) :
  forallChars p s = true -> forallChars p (substring0 n s) = true.
Proof.
  unfold substring0. revert n. induction s as [|c s IH]; intros n H.
  - now destruct n.
  - cbn [forallChars] in H. apply andb_true_iff in H as [Hc Hs].
    destruct n as [|n]; [reflexivity|].
    cbn [substring forallChars]. now rewrite Hc, IH.
Qed.

Lemma hex_noV (s : string) :
  forallChars hexDigit s = true -> hasChar "V" s = false.
Proof.
  induction s as [|c s IH]; [reflexivity|].
  cbn [forallChars hasChar]. intros H. apply andb_true_iff in H as [Hc Hs].
  rewrite (IH Hs), orb_false_r.
  apply Ascii.eqb_neq. intros ->. discriminate.
Qed.

Lemma markerFree_noV (s : string) : hasChar "V" s = false -> markerFree s = true.
Proof.
  intros H. unfold markerFree.
  rewrite (absent_noV beginMarker (or_introl eq_refl) s H).
  rewrite (absent_noV endMarker (or_intror eq_refl) s H).
  reflexivity.
Qed.

Lemma isValidHash_hex (hash : string) :
  ValidationService.isValidHash hash
  = Nat.leb 16 (String.length hash) && forallChars hexDigit hash.
Proof.
  unfold ValidationService.isValidHash, ValidationService.hashRegex.
  rewrite test_times_Many. now destruct hash.
Qed.

Lemma isValidHashFormat_hex (hash : string) :
  HashService.isValidHashFormat hash
  = Nat.eqb (String.length hash) 40 && forallChars hexDigit hash.
Proof.
  unfold HashService.isValidHashFormat, HashService.hashFormatRegex.
  apply test_times_exact.
Qed.

(** X11.  The routes accept as user identifier exactly the texts of at
    least 16 hexadecimal digits; such a text carries no VEVENT marker into
    a calendar document. *)
Theorem isValidHash_hex_without_marker (hash : string) :
  (ValidationService.isValidHash hash = true
   <-> (16 <= String.length hash)%nat /\ forallChars hexDigit hash = true)
  /\ (ValidationService.isValidHash hash = true -> markerFree hash = true).
Proof.
  rewrite isValidHash_hex, andb_true_iff, Nat.leb_le. split; [reflexivity|].
  intros [_ H]. apply markerFree_noV, hex_noV, H.
Qed.

Lemma dashed_not_hex (a b : string) :
  forallChars hexDigit (a ++ "-" ++ b) = false.
Proof.
  rewrite forallChars_append. cbn [append forallChars].
  change (hexDigit "-") with false. apply andb_false_r.
Qed.

(** X12.  The identifiers the hash service makes for the development and
    the staging environment, and its backup identifiers, contain a dash:
    the routes reject every one of them, and so does the format check of
    the service itself. *)
Theorem demo_and_backup_hashes_rejected
        (prefix digest timestamp randomPart : string) :
  let demo := HashService.generateDemoHash prefix timestamp randomPart in
  let dev := HashService.generateHashForEnvironment
               "development" digest timestamp randomPart in
  let stage := HashService.generateHashForEnvironment
                 "staging" digest timestamp randomPart in
  let backup := HashService.generateBackupHash digest in
  existsb (fun hash => ValidationService.isValidHash hash
                       || HashService.isValidHashFormat hash)
          [demo; dev; stage; backup] = false.
Proof.
  cbv zeta. cbn [existsb].
  rewrite !isValidHash_hex, !isValidHashFormat_hex.
  unfold HashService.generateHashForEnvironment.
  cbn [String.eqb Ascii.eqb Bool.eqb].
  unfold HashService.generateDemoHash, HashService.generateBackupHash.
  change ("backup-" ++ substring0 32 digest)
    with ("backup" ++ "-" ++ substring0 32 digest).
  rewrite !dashed_not_hex, !andb_false_r. reflexivity.
Qed.

Lemma substring0_length (n : nat) (s : string) :
  (n <= String.length s)%nat -> String.length (substring0 n s) = n.
Proof.
  unfold substring0. revert n. induction s as [|c s IH]; intros n H.
  - cbn [String.length] in H. now replace n with 0%nat by lia.
  - destruct n as [|n]; [reflexivity|].
    cbn [substring String.length] in *. rewrite IH; lia.
Qed.

(** X13.  A user identifier the hash service generates, the first 40
    characters of a hexadecimal digest, passes the format check of the
    service and is accepted by the routes; so is every text that passes
    the format check. *)
Theorem generated_user_hash_accepted (digest hash : string) :
  forallChars hexDigit digest = true ->
  (40 <= String.length digest)%nat ->
  HashService.isValidHashFormat (HashService.generateUserHash digest) = true
  /\ (HashService.isValidHashFormat hash = true ->
      ValidationService.isValidHash hash = true).
Proof.
  intros Hhex Hlen. rewrite !isValidHashFormat_hex, isValidHash_hex.
  unfold HashService.generateUserHash. split.
  - rewrite (substring0_length 40 digest Hlen).
    now rewrite (forallChars_substring0 hexDigit 40 digest Hhex).
  - intros H. apply andb_true_iff in H as [H1 H2].
    apply Nat.eqb_eq in H1. rewrite H1, H2. reflexivity.
Qed.

Lemma generated_user_hash_accepted_witness :
  HashService.isValidHashFormat
    (HashService.generateUserHash
       "9f86d081884c7d659a2feaa0c55ad015a3bf4f1b2b0b822cd15d6c15b0f00a08")
  = true
  /\ (HashService.isValidHashFormat "3f9a1c0b7d2e4f563f9a1c0b7d2e4f5600000000"
      = true ->
      ValidationService.isValidHash "3f9a1c0b7d2e4f563f9a1c0b7d2e4f5600000000"
      = true).
Proof.
  apply (generated_user_hash_accepted
           "9f86d081884c7d659a2feaa0c55ad015a3bf4f1b2b0b822cd15d6c15b0f00a08"
           "3f9a1c0b7d2e4f563f9a1c0b7d2e4f5600000000").
  - reflexivity.
  - cbn. lia.
Defined.



(* ================================================================== *)
(** ** Creation of events through the route *)
(* ================================================================== *)

Lemma app_nil_inv {A : Type} (l1 l2 : list A) :
  (l1 ++ l2)%list = [] -> l1 = [] /\ l2 = [].
Proof. destruct l1; [cbn; intros ->; now split | discriminate]. Qed.

Lemma titleErrors_required_nil (v : Field) :
  ValidationService.titleErrors true v = [] ->
  exists s, v = FString s /\ trim s <> "" /\ (String.length s <= 255)%nat.
Proof.
  unfold ValidationService.titleErrors.
  destruct v as [| |s|b]; try discriminate. cbn [andb].
  destruct (negb (JSString.truthy s)); [discriminate|].
  destruct (Nat.eqb_spec (String.length (trim s)) 0) as [|Hne]; [discriminate|].
  destruct (Nat.ltb_spec 255 (String.length s)); [discriminate|].
  intros _. exists s. split; [reflexivity|]. split; [|lia].
  intros E. rewrite E in Hne. now elim Hne.
Qed.

Lemma timeErrors_nil (v : Field) :
  ValidationService.timeErrors v = [] ->
  match v with
  | FString s => ValidationService.isValidTime s = true
  | FOther _ => False
  | _ => True
  end.
Proof.
  unfold ValidationService.timeErrors. destruct v as [| |s|b]; try easy.
  now destruct (ValidationService.isValidTime s).
Qed.

Lemma iconErrors_nil (v : Field) :
  ValidationService.iconErrors v = [] ->
  fieldTruthy v = false
  \/ exists s, v = FString s
               /\ arrayIncludes ValidationService.VALID_ICONS s = true.
Proof.
  unfold ValidationService.iconErrors.
  destruct v as [| |s|[|]]; try (now left); try discriminate.
  cbn [fieldTruthy]. destruct (JSString.truthy s); [|now left].
  destruct (arrayIncludes ValidationService.VALID_ICONS s) eqn:E;
    [|discriminate].
  intros _. right. now exists s.
Qed.

Lemma descriptionErrors_nil (v : Field) :
  ValidationService.descriptionErrors v = [] ->
  match v with
  | FString s => (String.length s <= 1000)%nat
  | _ => True
  end.
Proof.
  unfold ValidationService.descriptionErrors. destruct v as [| |s|b]; try easy.
  destruct (Nat.ltb_spec 1000 (String.length s)); [|intros _; lia].
  destruct s; [cbn in *; lia | discriminate].
Qed.

(** What [validateCreateEvent] has checked when it reports no error. *)
Lemma validateCreateEvent_accepts
      (host : Host) (data : ValidationService.EventValidationData) :
  ValidationService.isValid (ValidationService.validateCreateEvent host data)
  = true ->
  ValidationService.titleErrors true (ValidationService.title data) = []
  /\ (exists s, ValidationService.event_date data = FString s
                /\ ValidationService.isValidDate host s = true)
  /\ ValidationService.timeErrors (ValidationService.event_time data) = []
  /\ ValidationService.iconErrors (ValidationService.icon data) = []
  /\ ValidationService.descriptionErrors (ValidationService.description data)
     = [].
Proof.
  unfold ValidationService.validateCreateEvent.
  cbn [ValidationService.isValid]. intros H.
  apply Nat.eqb_eq, length_zero_iff_nil in H.
  apply app_nil_inv in H as [H1 H]. apply app_nil_inv in H as [H2 H].
  apply app_nil_inv in H as [H3 H]. apply app_nil_inv in H as [H4 H5].
  repeat split; try assumption.
  destruct (ValidationService.event_date data) as [| |s|b]; try discriminate.
  destruct (negb (JSString.truthy s)); [discriminate|].
  destruct (ValidationService.isValidDate host s) eqn:E; [|discriminate].
  now exists s.
Qed.

Lemma valid_icon_category (icon : string) :
  arrayIncludes ValidationService.VALID_ICONS icon = true ->
  isCategory (iconToCategory icon) = true.
Proof.
  unfold arrayIncludes. intros H. apply existsb_exists in H as (x & Hin & Heq).
  apply String.eqb_eq in Heq. subst x.
  assert (Hall : forallb (fun i => isCategory (iconToCategory i))
                         ValidationService.VALID_ICONS = true)
    by (vm_compute; reflexivity).
  rewrite forallb_forall in Hall. exact (Hall icon Hin).
Qed.

Lemma sanitizeString_nonempty (s : string) :
  trim s <> "" -> ValidationService.sanitizeString s <> "".
Proof.
  unfold ValidationService.sanitizeString. intros H.
  destruct (trim_clean s) as [_ Hstart].
  destruct (trim s) as [|c u]; [now elim H|].
  cbn [replaceSpaceRuns]. rewrite Hstart. discriminate.
Qed.

(** A sanitised text of at most 500 characters is written in full and
    reads back as it is. *)
Lemma sanitized_roundtrip (s : string) :
  (String.length s <= 500)%nat ->
  unescape (escapeText (ValidationService.sanitizeString s))
  = Some (ValidationService.sanitizeString s).
Proof.
  intros Hlen. pose proof (sanitizeString_length s) as Hl.
  rewrite escapeText_short by lia. rewrite unescape_escapeAll.
  rewrite replaceAll_absent; [reflexivity|].
  apply replaceSpaceRuns_no_line_break.
Qed.

(** X15.  Whatever the request, the row the create route hands to the
    database belongs to the user of a valid identifier and has: a title
    that is not empty, is at most 255 characters long, has single spaces
    for white space and reads back unchanged from the SUMMARY line; a date
    [YYYY-MM-DD] that names a day of the calendar; an icon that maps to
    one of the six categories; a description, when there is one, of at
    most 1000 characters with single spaces for white space; and a time,
    when there is one, that is the stored form of a valid time. *)
Theorem createEvent_stores_clean_rows
        (host : Host) (db : Database) (hash : string) (requestBody : JsonBody)
        (params : EventModel.InsertParams) :
  eventRoutes.createEvent host db hash requestBody = eventRoutes.Create params ->
  EventModel.p_user_hash params = hash
  /\ ValidationService.isValidHash hash = true
  /\ EventModel.p_title params <> ""
  /\ singleSpaced (EventModel.p_title params) = true
  /\ (String.length (EventModel.p_title params) <= 255)%nat
  /\ unescape (escapeText (EventModel.p_title params))
     = Some (EventModel.p_title params)
  /\ (exists s y m d,
        EventModel.p_event_date params = FString s
        /\ JSDateText.readDate s = Some (y, m, d, "")
        /\ JSDateText.validDate y m d = true)
  /\ (exists i, EventModel.p_icon params = FString i
                /\ isCategory (iconToCategory i) = true)
  /\ match EventModel.p_description params with
     | Some d => d <> "" /\ singleSpaced d = true
                 /\ (String.length d <= 1000)%nat
     | None => True
     end
  /\ match EventModel.p_event_time params with
     | Some t => exists time, ValidationService.isValidTime time = true
                              /\ t = ValidationService.formatTimeString time
     | None => True
     end.
Proof.
  unfold eventRoutes.createEvent.
  destruct (ValidationService.isValidHash hash) eqn:Hhash; [|discriminate].
  cbn [negb]. destruct (userExists db hash) as [[|]|]; try discriminate.
  cbn [bind negb]. destruct requestBody as [| |data]; try discriminate.
  destruct (ValidationService.isValid
              (ValidationService.validateCreateEvent host data)) eqn:Hval;
    [|discriminate].
  cbn [negb].
  destruct (validateCreateEvent_accepts host data Hval)
    as (Ht & (ds & Hds & Hdv) & Htime & Hicon & Hdesc).
  destruct (titleErrors_required_nil _ Ht) as (ts & Hts & Htrim & Htlen).
  apply timeErrors_nil in Htime. apply descriptionErrors_nil in Hdesc.
  apply (isValidDate_calendar_date host) in Hdv.
  rewrite Hts, Hds. cbn [eventRoutes.sanitizeField bind].
  set (time := match ValidationService.event_time data with
               | FString s =>
                   Normal (if JSString.truthy s
                           then Some (ValidationService.formatTimeString s)
                           else None)
               | FOther true => Throw "TypeError"
               | _ => Normal None
               end).
  assert (Htm : exists t, time = Normal t
                  /\ match EventModel.orNull t with
                     | Some t' =>
                         exists orig, ValidationService.isValidTime orig = true
                           /\ t' = ValidationService.formatTimeString orig
                     | None => True
                     end).
  { subst time.
    destruct (ValidationService.event_time data) as [| |s|b];
      try (eexists; split; [reflexivity | exact I]); [|contradiction].
    eexists. split; [reflexivity|].
    destruct (JSString.truthy s); [|exact I]. cbn [EventModel.orNull].
    destruct (JSString.truthy _); [|exact I]. now exists s. }
  destruct Htm as (t & -> & Htm). cbn [bind].
  set (desc := if fieldTruthy (ValidationService.description data)
               then _ else _).
  assert (Hd : (exists b, ValidationService.description data = FOther b
                          /\ b = true /\ desc = Throw "TypeError")
               \/ exists d, desc = Normal d
                    /\ match EventModel.orNull d with
                       | Some d' => d' <> "" /\ singleSpaced d' = true
                                    /\ (String.length d' <= 1000)%nat
                       | None => True
                       end).
  { subst desc.
    destruct (ValidationService.description data) as [| |s|[|]];
      cbn [fieldTruthy eventRoutes.sanitizeField bind];
      try (right; eexists; split; [reflexivity | exact I]).
    - right. destruct (JSString.truthy s);
        [|eexists; split; [reflexivity | exact I]].
      eexists. split; [reflexivity|]. cbn [EventModel.orNull].
      destruct (ValidationService.sanitizeString s) eqn:E; [exact I|].
      cbn [JSString.truthy]. rewrite <- E.
      split; [rewrite E; discriminate|].
      split; [apply sanitizeString_single|].
      pose proof (sanitizeString_length s). lia.
    - left. now exists true. }
  destruct Hd as [(b & _ & _ & ->) | (d & -> & Hd)]; [discriminate|].
  cbn [bind]. intros Heq. injection Heq as <-.
  cbn [EventModel.createParams EventModel.p_user_hash EventModel.p_title
       EventModel.p_event_date EventModel.p_event_time EventModel.p_icon
       EventModel.p_description EventModel.user_hash EventModel.title
       EventModel.event_date EventModel.event_time EventModel.icon
       EventModel.description].
  split; [reflexivity|]. split; [reflexivity|].
  split; [now apply sanitizeString_nonempty|].
  split; [apply sanitizeString_single|].
  split; [pose proof (sanitizeString_length ts); lia|].
  split; [apply sanitized_roundtrip; lia|].
  split.
  { destruct Hdv as (y & m & dd & Hr & Hv). now exists ds, y, m, dd. }
  split.
  { destruct (iconErrors_nil _ Hicon) as [Hf | (i & Hi & Hin)].
    - rewrite Hf. cbn [fieldTruthy]. exists eventRoutes.defaultIcon.
      split; [reflexivity | vm_compute; reflexivity].
    - rewrite Hi. cbn [fieldTruthy].
      destruct (JSString.truthy i) eqn:Hti.
      + cbn [fieldTruthy]. rewrite Hti. exists i.
        split; [reflexivity | now apply valid_icon_category].
      + cbn [fieldTruthy]. exists eventRoutes.defaultIcon.
        split; [reflexivity | vm_compute; reflexivity]. }
  split; [exact Hd | exact Htm].
Qed.

Lemma createEvent_stores_clean_rows_witness :
  EventModel.p_user_hash sampleRow = sampleHash
  /\ ValidationService.isValidHash sampleHash = true
  /\ EventModel.p_title sampleRow <> ""
  /\ singleSpaced (EventModel.p_title sampleRow) = true
  /\ (String.length (EventModel.p_title sampleRow) <= 255)%nat
  /\ unescape (escapeText (EventModel.p_title sampleRow))
     = Some (EventModel.p_title sampleRow)
  /\ (exists s y m d,
        EventModel.p_event_date sampleRow = FString s
        /\ JSDateText.readDate s = Some (y, m, d, "")
        /\ JSDateText.validDate y m d = true)
  /\ (exists i, EventModel.p_icon sampleRow = FString i
                /\ isCategory (iconToCategory i) = true)
  /\ match EventModel.p_description sampleRow with
     | Some d => d <> "" /\ singleSpaced d = true
                 /\ (String.length d <= 1000)%nat
     | None => True
     end
  /\ match EventModel.p_event_time sampleRow with
     | Some t => exists time, ValidationService.isValidTime time = true
                              /\ t = ValidationService.formatTimeString time
     | None => True
     end.
Proof.
  apply (createEvent_stores_clean_rows hostUTC sampleDatabase sampleHash
           sampleRequest sampleRow).
  vm_compute. reflexivity.
Defined.

(** X16.  A description that is truthy and not a string (a number, an
    array, an object) is no error for [validateCreateEvent]; the create
    route then fails on it, and a request that is valid otherwise is
    answered with status 500 instead of 400. *)
Theorem createEvent_fails_on_description_of_other_type
        (host : Host) (db : Database) (hash : string)
        (data : ValidationService.EventValidationData) :
  ValidationService.isValidHash hash = true ->
  userExists db hash = Normal true ->
  ValidationService.description data = FOther true ->
  ValidationService.isValid (ValidationService.validateCreateEvent host data)
  = true ->
  eventRoutes.createEvent host db hash (JsonObject data)
  = eventRoutes.Respond 500 [ "Fehler beim Erstellen des Termins" ].
Proof.
  intros Hhash Hdb Hdesc Hval. unfold eventRoutes.createEvent.
  rewrite Hhash, Hdb. cbn [negb bind]. rewrite Hval. cbn [negb].
  destruct (validateCreateEvent_accepts host data Hval)
    as (Ht & _ & Htime & _ & _).
  destruct (titleErrors_required_nil _ Ht) as (ts & -> & _ & _).
  cbn [eventRoutes.sanitizeField bind].
  apply timeErrors_nil in Htime.
  destruct (ValidationService.event_time data) as [| |s|b];
    try contradiction; cbn [bind]; rewrite Hdesc; reflexivity.
Qed.

Lemma createEvent_fails_on_description_of_other_type_witness :
  eventRoutes.createEvent hostUTC sampleDatabase sampleHash
    (JsonObject
       (ValidationService.mkData (FString "Team meeting")
                                 (FString "2024-02-29") FNull
                                 FUndefined (FOther true)))
  = eventRoutes.Respond 500 [ "Fehler beim Erstellen des Termins" ].
Proof.
  apply (createEvent_fails_on_description_of_other_type
           hostUTC sampleDatabase sampleHash
           (ValidationService.mkData (FString "Team meeting")
                                     (FString "2024-02-29") FNull
                                     FUndefined (FOther true))).
  - reflexivity.
  - reflexivity.
  - reflexivity.
  - vm_compute. reflexivity.
Defined.

Lemma titleErrors_update (v : Field) :
  ValidationService.titleErrors true v = [] ->
  ValidationService.titleErrors false v = [].
Proof.
  unfold ValidationService.titleErrors.
  destruct v as [| |s|b]; try discriminate. cbn [andb].
  destruct (negb (JSString.truthy s)); [discriminate|]. auto.
Qed.

(** X17.  What [validateCreateEvent] accepts, [validateUpdateEvent]
    accepts: the data of a created event can be sent again as an
    update. *)
Theorem validateUpdateEvent_accepts_created
        (host : Host) (data : ValidationService.EventValidationData) :
  ValidationService.isValid (ValidationService.validateCreateEvent host data)
  = true ->
  ValidationService.isValid (ValidationService.validateUpdateEvent host data)
  = true
  /\ ValidationService.errors (ValidationService.validateUpdateEvent host data)
     = [].
Proof.
  intros Hval.
  destruct (validateCreateEvent_accepts host data Hval)
    as (Ht & (ds & Hds & Hdv) & Htime & Hicon & Hdesc).
  unfold ValidationService.validateUpdateEvent.
  cbn [ValidationService.isValid ValidationService.errors].
  rewrite (titleErrors_update _ Ht), Hds, Hdv, Htime, Hicon, Hdesc.
  split; reflexivity.
Qed.

Lemma validateUpdateEvent_accepts_created_witness :
  ValidationService.isValid
    (ValidationService.validateUpdateEvent hostUTC
       (ValidationService.mkData (FString "Team meeting")
                                 (FString "2024-02-29") (FString "09:30")
                                 (FString "meeting") FNull))
  = true
  /\ ValidationService.errors
       (ValidationService.validateUpdateEvent hostUTC
          (ValidationService.mkData (FString "Team meeting")
                                    (FString "2024-02-29") (FString "09:30")
                                    (FString "meeting") FNull))
     = [].
Proof.
  apply (validateUpdateEvent_accepts_created hostUTC
           (ValidationService.mkData (FString "Team meeting")
                                     (FString "2024-02-29") (FString "09:30")
                                     (FString "meeting") FNull)).
  vm_compute. reflexivity.
Defined.

(* ================================================================== *)
(** ** Date ranges *)
(* ================================================================== *)

(** [new Date(s)] for a date [s] alone is midnight UTC of that day. *)
Lemma ofString_date_only (host : Host) (s : string) (y m d : Z) :
  JSDateText.readDate s = Some (y, m, d, "") ->
  JSDateText.validDate y m d = true ->
  JSDateText.ofString host s = Some (MakeDay y (m - 1) d * msPerDay).
Proof.
  intros Hr Hv.
  destruct (readDate_exact s "" y m d Hr) as [_ Hy].
  pose proof (MakeDay_bounds y m d Hy Hv) as Hb.
  unfold JSDateText.ofString, JSDateText.parseISO. rewrite Hr, Hv.
  unfold MakeDate. rewrite Z.add_0_r. apply TimeClip_day. lia.
Qed.

Lemma readDate_truthy (s : string) (y m d : Z) (rest : string) :
  JSDateText.readDate s = Some (y, m, d, rest) -> JSString.truthy s = true.
Proof. destruct s; [discriminate | reflexivity]. Qed.

Lemma ceilDiv_days (n : Z) :
  ValidationService.ceilDiv (Z.abs (n * msPerDay)) (1000 * 60 * 60 * 24)
  = Z.abs n.
Proof.
  unfold ValidationService.ceilDiv, msPerDay.
  change (1000 * 60 * 60 * 24) with 86400000.
  replace (- Z.abs (n * 86400000)) with ((- Z.abs n) * 86400000) by lia.
  rewrite Z.div_mul by lia. lia.
Qed.

(** X18.  For two dates of the calendar, [validateDateRange] accepts the
    range exactly when the end is no earlier than the start and at most
    730 days after it. *)
Theorem validateDateRange_accepts_iff
        (host : Host) (startDate endDate : string)
        (y1 m1 d1 y2 m2 d2 : Z) :
  JSDateText.readDate startDate = Some (y1, m1, d1, "") ->
  JSDateText.validDate y1 m1 d1 = true ->
  JSDateText.readDate endDate = Some (y2, m2, d2, "") ->
  JSDateText.validDate y2 m2 d2 = true ->
  ValidationService.isValid
    (ValidationService.validateDateRange host (Some startDate) (Some endDate))
  = true
  <-> 0 <= MakeDay y2 (m2 - 1) d2 - MakeDay y1 (m1 - 1) d1 <= 730.
Proof.
  intros Hr1 Hv1 Hr2 Hv2.
  unfold ValidationService.validateDateRange. cbv zeta.
  rewrite (readDate_truthy _ _ _ _ _ Hr1), (readDate_truthy _ _ _ _ _ Hr2).
  rewrite (calendar_date_isValidDate host _ _ _ _ Hr1 Hv1).
  rewrite (calendar_date_isValidDate host _ _ _ _ Hr2 Hv2).
  rewrite (ofString_date_only host _ _ _ _ Hr1 Hv1).
  rewrite (ofString_date_only host _ _ _ _ Hr2 Hv2).
  cbn [andb negb ValidationService.pushIf getTime ValidationService.numGt
       ValidationService.isValid].
  set (a := MakeDay y1 (m1 - 1) d1). set (b := MakeDay y2 (m2 - 1) d2).
  replace (b * msPerDay - a * msPerDay) with ((b - a) * msPerDay) by ring.
  rewrite ceilDiv_days.
  destruct (Z.ltb_spec (b * msPerDay) (a * msPerDay)) as [Hlt|Hge];
    destruct (Z.ltb_spec 730 (Z.abs (b - a))) as [Hbig|Hsmall];
    cbn [ValidationService.pushIf app List.length Nat.eqb];
    unfold msPerDay in *; split; intros H; try discriminate; try reflexivity;
    lia.
Qed.

Lemma validateDateRange_accepts_iff_witness :
  ValidationService.isValid
    (ValidationService.validateDateRange hostUTC (Some "2024-01-01")
                                         (Some "2025-12-31"))
  = true
  <-> 0 <= MakeDay 2025 (12 - 1) 31 - MakeDay 2024 (1 - 1) 1 <= 730.
Proof.
  apply (validateDateRange_accepts_iff hostUTC "2024-01-01" "2025-12-31"
           2024 1 1 2025 12 31); reflexivity.
Defined.

(* ================================================================== *)
(** ** The feed route *)
(* ================================================================== *)

Lemma markerFree_after_name_prefix (s : string) :
  markerFree ("YATWA - " ++ s) = markerFree s.
Proof.
  unfold markerFree.
  rewrite (includes_after_literal beginMarker "YATWA - " s) by reflexivity.
  rewrite (includes_after_literal endMarker "YATWA - " s) by reflexivity.
  reflexivity.
Qed.

Lemma orUndefined_idem (v : option string) :
  orUndefined (orUndefined v) = orUndefined v.
Proof.
  destruct v as [s|]; [|reflexivity]. cbn [orUndefined].
  destruct (JSString.truthy s) eqn:E; [|reflexivity].
  cbn [orUndefined]. now rewrite E.
Qed.

Lemma feedConfig_markerFree (host : Host) (name tz : option string) :
  markerFree (orElse (APP_URL host) "http://localhost") = true ->
  parameterMarkerFree name = true ->
  parameterMarkerFree tz = true ->
  configMarkerFree
    (constructor host (Some (icalRoutes.feedConfig host name tz))) = true.
Proof.
  unfold parameterMarkerFree. intros Hurl Hname Htz.
  unfold configMarkerFree, constructor, icalRoutes.feedConfig.
  cbn [custom_prodId custom_calName custom_calDescription custom_timezone
       custom_url spread prodId calName calDescription timezone url show].
  rewrite orUndefined_idem, Hurl.
  assert (H1 : markerFree
                 (show (option_map (fun n => "YATWA - " ++ n)
                                   (orUndefined name))) = true).
  { destruct (orUndefined name) as [n|]; [|reflexivity].
    cbn [option_map show]. now rewrite markerFree_after_name_prefix. }
  assert (H2 : markerFree (show (orUndefined tz)) = true).
  { destruct (orUndefined tz) as [n|]; [exact Htz | reflexivity]. }
  rewrite H1, H2. reflexivity.
Qed.

(** X19.  For a valid identifier of an existing user whose events, like
    the query parameters and the application URL, carry no VEVENT marker
    in the values written out, the feed route answers with status 200 and
    the generated calendar, which passes the validation. *)
Theorem generateFeed_serves_marker_free_events
        (host : Host) (clock : nat -> Z) (db : Database) (hash : string)
        (name tz : option string) (touched : bool) (events : list Event) :
  ValidationService.isValidHash hash = true ->
  userExists db hash = Normal true ->
  updateLastAccessed db hash = Normal touched ->
  findByUserHash db hash (Some 1000) = Normal events ->
  forallb eventMarkerFree events = true ->
  markerFree (orElse (APP_URL host) "http://localhost") = true ->
  parameterMarkerFree name = true ->
  parameterMarkerFree tz = true ->
  let response := icalRoutes.generateFeed host clock db hash name tz in
  status response = 200
  /\ body response
     = generateCalendar host
         (constructor host (Some (icalRoutes.feedConfig host name tz)))
         clock events hash
  /\ isValid (validateCalendar (body response)) = true.
Proof.
  intros Hhash Hex Htouch Hev Hclean Hurl Hname Htz.
  pose proof (feedConfig_markerFree host name tz Hurl Hname Htz) as Hconfig.
  assert (Hh : markerFree hash = true).
  { rewrite isValidHash_hex in Hhash. apply andb_true_iff in Hhash as [_ Hx].
    apply markerFree_noV, hex_noV, Hx. }
  assert (Hvalid :
            isValid (validateCalendar
                       (generateCalendar host
                          (constructor host
                             (Some (icalRoutes.feedConfig host name tz)))
                          clock events hash)) = true).
  { apply generateCalendar_valid_iff_balanced.
    destruct (generateCalendar_marker_counts host _ clock events hash
                Hconfig Hh Hclean) as [-> ->].
    reflexivity. }
  cbv zeta. unfold icalRoutes.generateFeed.
  rewrite Hhash, Hex. cbn [negb bind]. rewrite Htouch, Hev.
  unfold newICalService. cbn [bind]. rewrite Hvalid. cbn [negb status body].
  repeat split. exact Hvalid.
Qed.

Lemma generateFeed_serves_marker_free_events_witness :
  status (icalRoutes.generateFeed hostUTC frozenClock feedDatabase sampleHash
            (Some "Team") None) = 200
  /\ body (icalRoutes.generateFeed hostUTC frozenClock feedDatabase sampleHash
             (Some "Team") None)
     = generateCalendar hostUTC
         (constructor hostUTC
            (Some (icalRoutes.feedConfig hostUTC (Some "Team") None)))
         frozenClock [dayAllDay; dayAt0900; dayAt1700] sampleHash
  /\ isValid (validateCalendar
                (body (icalRoutes.generateFeed hostUTC frozenClock feedDatabase
                         sampleHash (Some "Team") None))) = true.
Proof.
  apply (generateFeed_serves_marker_free_events
           hostUTC frozenClock feedDatabase sampleHash (Some "Team") None true
           [dayAllDay; dayAt0900; dayAt1700]).
  - reflexivity.
  - reflexivity.
  - reflexivity.
  - reflexivity.
  - vm_compute. reflexivity.
  - reflexivity.
  - reflexivity.
  - reflexivity.
Defined.

Lemma prefix_refl (p : string) : prefix p p = true.
Proof.
  induction p as [|c p IH]; [reflexivity|].
  cbn [prefix]. destruct (ascii_dec c c) as [_|Hne]; [exact IH | now elim Hne].
Qed.

(** A line of a document occurs in it with its line end. *)
Lemma includes_line (line : string) (lines : list string) :
  In line lines ->
  includes (line ++ CRLF) (join CRLF lines ++ CRLF) = true.
Proof.
  intros Hin. induction lines as [|x rest IH]; [destruct Hin|].
  unfold join in *. cbn [String.concat].
  destruct Hin as [->|Hin].
  - destruct rest.
    + apply includes_prefix, prefix_refl.
    + rewrite !append_assoc, <- (append_assoc line CRLF).
      apply includes_append_l, includes_prefix, prefix_refl.
  - destruct rest as [|y rest]; [destruct Hin|].
    rewrite !append_assoc.
    apply includes_append_r, includes_append_r. now apply IH.
Qed.

(** X20.  When the query names no calendar, the feed the route serves
    carries the calendar name [undefined - ] followed by the first eight
    characters of the identifier; when it names no time zone, the feed
    carries the time zone [undefined].  The defaults of the service are
    overwritten by the properties the route passes with the value
    [undefined]. *)
Theorem generateFeed_unnamed_calendar_is_undefined
        (host : Host) (clock : nat -> Z) (db : Database) (hash : string)
        (name tz : option string) :
  let response := icalRoutes.generateFeed host clock db hash name tz in
  status response = 200 ->
  (orUndefined name = None ->
   includes ("X-WR-CALNAME:undefined - " ++ substring0 8 hash ++ CRLF)
            (body response) = true)
  /\ (orUndefined tz = None ->
      includes ("X-WR-TIMEZONE:undefined" ++ CRLF) (body response) = true).
Proof.
  cbv zeta. unfold icalRoutes.generateFeed.
  destruct (ValidationService.isValidHash hash); [|discriminate].
  cbn [negb]. destruct (userExists db hash) as [[|]|]; try discriminate.
  cbn [bind negb].
  destruct (updateLastAccessed db hash) as [touched|]; [|discriminate].
  cbn [bind].
  destruct (findByUserHash db hash (Some 1000)) as [events|]; [|discriminate].
  unfold newICalService. cbn [bind].
  destruct (isValid _); [|discriminate]. cbn [negb status body]. intros _.
  unfold generateCalendar, calendarLines, calendarHeader, constructor,
         icalRoutes.feedConfig.
  cbn [custom_calName custom_timezone spread calName timezone].
  rewrite orUndefined_idem. split; intros ->; cbn [option_map show].
  - apply (includes_line
             ("X-WR-CALNAME:" ++ "undefined" ++ " - " ++ substring0 8 hash)).
    do 5 right. now left.
  - apply (includes_line ("X-WR-TIMEZONE:" ++ "undefined")).
    do 7 right. now left.
Qed.

Lemma generateFeed_unnamed_calendar_is_undefined_witness :
  (orUndefined None = None ->
   includes ("X-WR-CALNAME:undefined - " ++ substring0 8 sampleHash ++ CRLF)
            (body (icalRoutes.generateFeed hostUTC frozenClock sampleDatabase
                     sampleHash None (Some "")))
   = true)
  /\ (orUndefined (Some "") = None ->
      includes ("X-WR-TIMEZONE:undefined" ++ CRLF)
               (body (icalRoutes.generateFeed hostUTC frozenClock
                        sampleDatabase sampleHash None (Some "")))
      = true).
Proof.
  apply (generateFeed_unnamed_calendar_is_undefined
           hostUTC frozenClock sampleDatabase sampleHash None (Some "")).
  vm_compute. reflexivity.
Defined.

(* ================================================================== *)
(** ** CORS headers *)
(* ================================================================== *)

(** In production an allowed origin is the origin of the request. *)
Lemma validateCorsOrigin_production (env : Env) (request : Request) (o : string) :
  Core.envIs (NODE_ENV env) "production" = true ->
  Core.validateCorsOrigin env request = Core.OriginAllowed o ->
  origin request = Some o.
Proof.
  unfold Core.validateCorsOrigin. intros ->. cbn [negb].
  destruct (origin request) as [o'|]; [|discriminate].
  destruct (negb (JSString.truthy o')); [discriminate|].
  destruct (arrayIncludes _ o'); [intros H; now injection H as -> |].
  destruct (Core.envIs (ALLOW_SUBDOMAINS env) "true"); [|discriminate].
  destruct (existsb _ _); [intros H; now injection H as -> | discriminate].
Qed.

(** X21.  The header [Access-Control-Allow-Credentials] is sent only in
    production, only together with [Access-Control-Allow-Origin], and only
    for the origin the request names, which [validateCorsOrigin] has
    allowed and which is not the wildcard. *)
Theorem credentials_only_for_allowed_origin
        (env : Env) (request : Request) (v : string) :
  JSObject.ownGet (Core.getCorsHeaders env request)
                  "Access-Control-Allow-Credentials" = Some v ->
  v = "true"
  /\ Core.envIs (NODE_ENV env) "production" = true
  /\ exists o,
       origin request = Some o /\ o <> "*"
       /\ Core.validateCorsOrigin env request = Core.OriginAllowed o
       /\ JSObject.ownGet (Core.getCorsHeaders env request)
                          "Access-Control-Allow-Origin" = Some o.
Proof.
  unfold Core.getCorsHeaders.
  destruct (Core.validateCorsOrigin env request) as [o| |] eqn:Hvalid;
    try discriminate.
  destruct (JSString.truthy o); [|discriminate].
  destruct (Core.envIs (NODE_ENV env) "production") eqn:Hprod;
    [|discriminate].
  cbn [Core.credentials Core.productionConfig andb].
  destruct (String.eqb_spec o "*") as [->|Hne]; [discriminate|].
  cbn [negb]. intros H. injection H as <-.
  split; [reflexivity|]. split; [reflexivity|]. exists o.
  split; [exact (validateCorsOrigin_production env request o Hprod Hvalid)|].
  split; [exact Hne|]. split; reflexivity.
Qed.

Lemma credentials_only_for_allowed_origin_witness :
  "true" = "true"
  /\ Core.envIs (NODE_ENV productionEnv) "production" = true
  /\ exists o,
       origin siteRequest = Some o /\ o <> "*"
       /\ Core.validateCorsOrigin productionEnv siteRequest
          = Core.OriginAllowed o
       /\ JSObject.ownGet (Core.getCorsHeaders productionEnv siteRequest)
                          "Access-Control-Allow-Origin" = Some o.
Proof.
  apply (credentials_only_for_allowed_origin productionEnv siteRequest "true").
  reflexivity.
Defined.

Lemma replaceFirst_absent (pat rep s : string) :
  includes pat s = false -> replaceFirst pat rep s = s.
Proof.
  induction s as [|c s IH]; [reflexivity|].
  cbn [includes replaceFirst]. intros H.
  apply orb_false_iff in H as [Hp Hs]. now rewrite Hp, IH.
Qed.

Lemma prefix_weaken (a b s : string) :
  prefix (a ++ b) s = true -> prefix a s = true.
Proof.
  revert s. induction a as [|c a IH]; intros s H; [apply prefix_nil_l|].
  destruct s as [|d s]; [discriminate|].
  cbn [append prefix] in *. destruct (ascii_dec c d); [now apply IH | discriminate].
Qed.

Lemma includes_weaken (a b s : string) :
  includes a s = false -> includes (a ++ b) s = false.
Proof.
  induction s as [|c s IH]; cbn [includes]; intros H.
  - destruct (prefix (a ++ b) "") eqn:E; [|reflexivity].
    apply prefix_weaken in E. congruence.
  - apply orb_false_iff in H as [Hp Hs]. rewrite (IH Hs), orb_false_r.
    destruct (prefix (a ++ b) (String c s)) eqn:E; [|reflexivity].
    apply prefix_weaken in E. congruence.
Qed.

Lemma includes_suffix_absent (p a b : string) :
  includes p (a ++ b) = false -> includes p b = false.
Proof.
  intros H. destruct (includes p b) eqn:E; [|reflexivity].
  now rewrite (includes_append_r p a b E) in H.
Qed.

Lemma endsWith_refl (s : string) : endsWith s s = true.
Proof.
  destruct s as [|c s]; [reflexivity|].
  cbn [endsWith]. now rewrite String.eqb_refl.
Qed.

Lemma endsWith_append (suffix pre : string) :
  endsWith suffix (pre ++ suffix) = true.
Proof.
  induction pre as [|c pre IH]; [apply endsWith_refl|].
  cbn [append endsWith]. rewrite IH. apply orb_true_r.
Qed.

Lemma includes_www (s : string) :
  includes "https://" s = false -> includes "https://www." s = false.
Proof. exact (includes_weaken "https://" "www." s). Qed.

Lemma replaceFirst_at_start (pat rep : string) (c : ascii) (s : string) :
  prefix pat (String c s) = true ->
  replaceFirst pat rep (String c s)
  = rep ++ dropChars (String.length pat) (String c s).
Proof. intros H. cbn [replaceFirst]. now rewrite H. Qed.

(** The domain of a site [https://domain] the configuration names. *)
Lemma bareDomain_site (domain : string) :
  prefix "www." domain = false ->
  includes "https://" domain = false ->
  Core.bareDomain ("https://" ++ domain) = domain.
Proof.
  intros Hwww Habs. unfold Core.bareDomain.
  rewrite (replaceFirst_absent "https://www." "" ("https://" ++ domain)).
  - change ("https://" ++ domain) with (String "h" ("ttps://" ++ domain)).
    rewrite replaceFirst_at_start; [reflexivity|].
    apply (prefix_append "https://" "https://"). reflexivity.
  - change ("https://" ++ domain) with (String "h" ("ttps://" ++ domain)).
    cbn [includes].
    rewrite (includes_after_literal "https://www." "ttps://" domain)
      by reflexivity.
    rewrite (includes_www domain Habs), orb_false_r.
    exact Hwww.
Qed.

(** X22.  With the subdomain rule switched on, production allows every
    origin that ends with a dot and the domain of the configured site and
    does not contain [https://]: an origin over plain HTTP is allowed
    with credentials. *)
Theorem subdomain_rule_allows_any_scheme
        (env : Env) (request : Request) (pre domain : string) :
  Core.envIs (NODE_ENV env) "production" = true ->
  Core.envIs (ALLOW_SUBDOMAINS env) "true" = true ->
  FRONTEND_URL env = Some ("https://" ++ domain) ->
  prefix "www." domain = false ->
  origin request = Some (pre ++ "." ++ domain) ->
  includes "https://" (pre ++ "." ++ domain) = false ->
  Core.validateCorsOrigin env request
  = Core.OriginAllowed (pre ++ "." ++ domain)
  /\ JSObject.ownGet (Core.getCorsHeaders env request)
                     "Access-Control-Allow-Credentials" = Some "true".
Proof.
  intros Hprod Hsub Hsite Hwww Horigin Habs.
  assert (Hdomain : includes "https://" domain = false).
  { apply (includes_suffix_absent _ (pre ++ ".")).
    now rewrite append_assoc. }
  assert (Htruthy : JSString.truthy (pre ++ "." ++ domain) = true).
  { destruct pre; reflexivity. }
  assert (Hvalid : Core.validateCorsOrigin env request
                   = Core.OriginAllowed (pre ++ "." ++ domain)).
  { unfold Core.validateCorsOrigin. rewrite Hprod, Horigin, Htruthy, Hsub.
    cbn [negb]. destruct (arrayIncludes _ _); [reflexivity|].
    unfold Core.productionConfig. cbn [Core.allowedOrigins].
    rewrite Hsite. cbn [orElse JSString.truthy append filter map].
    change (String "h" (String "t" (String "t" (String "p" (String "s"
              (String ":" (String "/" (String "/" domain))))))))
      with ("https://" ++ domain).
    assert (Hp : prefix "https://" ("https://" ++ domain) = true)
      by (apply (prefix_append "https://" "https://"); reflexivity).
    rewrite Hp. cbn [map existsb].
    rewrite (bareDomain_site domain Hwww Hdomain).
    unfold Core.bareDomain.
    change (String "."%char domain) with ("." ++ domain).
    rewrite (replaceFirst_absent "https://www." "" _ (includes_www _ Habs)).
    rewrite (replaceFirst_absent "https://" "" _ Habs).
    rewrite (endsWith_append ("." ++ domain) pre). reflexivity. }
  split; [exact Hvalid|].
  unfold Core.getCorsHeaders. rewrite Hvalid, Htruthy, Hprod.
  cbn [Core.credentials Core.productionConfig andb].
  destruct (String.eqb_spec (pre ++ "." ++ domain) "*") as [E|_];
    [|reflexivity].
  destruct pre as [|c [|? ?]]; try discriminate.
Qed.

Lemma subdomain_rule_allows_any_scheme_witness :
  Core.validateCorsOrigin productionEnv plainHttpRequest
  = Core.OriginAllowed ("http://evil" ++ "." ++ "example.org")
  /\ JSObject.ownGet (Core.getCorsHeaders productionEnv plainHttpRequest)
                     "Access-Control-Allow-Credentials" = Some "true".
Proof.
  apply (subdomain_rule_allows_any_scheme productionEnv plainHttpRequest
           "http://evil" "example.org"); reflexivity.
Defined.

(* ================================================================== *)
(** ** The rate limit *)
(* ================================================================== *)

Lemma ownGet_set_same {A : Type} (props : list (string * A)) (key : string)
      (v : A) :
  JSObject.ownGet (JSObject.set props key v) key = Some v.
Proof.
  induction props as [|[k w] rest IH]; cbn [JSObject.set JSObject.ownGet].
  - now rewrite String.eqb_refl.
  - destruct (String.eqb k key) eqn:E; cbn [JSObject.ownGet]; now rewrite E.
Qed.

(** Inside a window that holds [c] requests, of the requests that follow
    as many are allowed as the window has room for. *)
Lemma serveAll_in_window (env : Env) (request : Request) (times : list Z)
      (store : list (string * Core.RateWindow)) (c reset : Z) :
  Core.envIs (NODE_ENV env) "production" = true ->
  JSObject.ownGet store
    ("rate_limit:" ++ orElse (cfConnectingIp request)
                             (orElse (forwardedFor request) "unknown"))
  = Some (Core.mkWindow c reset) ->
  0 <= c <= 100 ->
  Forall (fun now => now <= reset) times ->
  snd (serveAll env request times store)
  = Nat.min (List.length times) (Z.to_nat (100 - c)).
Proof.
  intros Hprod. revert store c.
  induction times as [|now rest IH]; intros store c Hget Hc Hall;
    [reflexivity|].
  inversion Hall as [|? ? Hnow Hrest]; subst.
  cbn [serveAll]. unfold Core.checkRateLimit. rewrite Hprod. cbn [negb].
  cbv zeta. rewrite Hget. cbn [Core.resetTime Core.count].
  destruct (Z.ltb_spec reset now) as [|_]; [lia|].
  destruct (Z.leb_spec 100 c) as [Hfull|Hroom].
  - specialize (IH store c Hget Hc Hrest).
    destruct (serveAll env request rest store) as [store2 n].
    cbn [snd Core.allowed] in *. rewrite IH.
    replace (Z.to_nat (100 - c)) with 0%nat by lia.
    now rewrite !Nat.min_0_r.
  - specialize (IH (JSObject.set store _ (Core.mkWindow (c + 1) reset))
                   (c + 1) (ownGet_set_same _ _ _) ltac:(lia) Hrest).
    destruct (serveAll env request rest _) as [store2 n].
    cbn [snd Core.allowed List.length] in *. rewrite IH.
    replace (Z.to_nat (100 - c)) with (S (Z.to_nat (100 - (c + 1)))) by lia.
    reflexivity.
Qed.

(** X23.  In production, of the requests of one client that arrive from
    the opening of a window until its reset time, a minute later, the
    first hundred are allowed and no more. *)
Theorem rate_limit_hundred_per_window
        (env : Env) (request : Request) (opening : Z) (times : list Z)
        (store : list (string * Core.RateWindow)) :
  Core.envIs (NODE_ENV env) "production" = true ->
  match JSObject.ownGet store
          ("rate_limit:" ++ orElse (cfConnectingIp request)
                                   (orElse (forwardedFor request) "unknown"))
  with
  | Some window => Core.resetTime window < opening
  | None => True
  end ->
  Forall (fun now => now <= opening + 60000) times ->
  snd (serveAll env request (opening :: times) store)
  = Nat.min (S (List.length times)) 100.
Proof.
  intros Hprod Hfresh Hall.
  cbn [serveAll]. unfold Core.checkRateLimit. rewrite Hprod. cbn [negb].
  cbv zeta. change (60 * 1000) with 60000.
  set (key := "rate_limit:" ++ _) in *.
  assert (Hstep :
            forall store1,
              JSObject.ownGet store1 key
              = Some (Core.mkWindow 1 (opening + 60000)) ->
              snd (let '(store2, n) := serveAll env request times store1 in
                   (store2, S n))
              = Nat.min (S (List.length times)) 100).
  { intros store1 Hget.
    pose proof (serveAll_in_window env request times store1 1
                  (opening + 60000) Hprod Hget ltac:(lia) Hall) as H.
    destruct (serveAll env request times store1) as [store2 n].
    cbn [snd] in *. rewrite H.
    change (Z.to_nat (100 - 1)) with 99%nat. lia. }
  destruct (JSObject.ownGet store key) as [window|] eqn:Hget.
  - destruct (Z.ltb_spec (Core.resetTime window) opening) as [_|]; [|lia].
    cbn [Core.allowed]. apply Hstep, ownGet_set_same.
  - cbn [Core.allowed]. apply Hstep, ownGet_set_same.
Qed.

Lemma rate_limit_hundred_per_window_witness :
  snd (serveAll productionEnv siteRequest
         (1700000000000 :: [1700000000001; 1700000030000; 1700000060000]) [])
  = Nat.min (S (List.length [1700000000001; 1700000030000; 1700000060000]))
            100.
Proof.
  apply (rate_limit_hundred_per_window productionEnv siteRequest
           1700000000000 [1700000000001; 1700000030000; 1700000060000] []).
  - reflexivity.
  - exact I.
  - repeat constructor; lia.
Defined.

(* ================================================================== *)
(** ** The routing table *)
(* ================================================================== *)

Lemma matchParts_overlap (a b q : list string)
      (pa pb pa' pb' : list (string * string)) :
  List.length a = List.length q -> List.length b = List.length q ->
  Router.matchParts a q pa = Some pa' ->
  Router.matchParts b q pb = Some pb' ->
  partsOverlap a b = true.
Proof.
  revert a b pa pb.
  induction q as [|part q IH]; intros a b pa pb Ha Hb Hma Hmb.
  - destruct a; [|discriminate]. destruct b; [reflexivity | discriminate].
  - destruct a as [|x a]; [discriminate|]. destruct b as [|y b]; [discriminate|].
    cbn [List.length] in Ha, Hb. injection Ha as Ha. injection Hb as Hb.
    cbn [Router.matchParts partsOverlap] in *.
    assert (Hrest : forall pa1 pb1,
               Router.matchParts a q pa1 = Some pa' ->
               Router.matchParts b q pb1 = Some pb' ->
               partsOverlap a b = true)
      by (intros pa1 pb1 M1 M2; exact (IH a b _ _ Ha Hb M1 M2)).
    destruct (prefix ":" x) eqn:Hx; destruct (prefix ":" y) eqn:Hy;
      cbn [orb andb].
    + exact (Hrest _ _ Hma Hmb).
    + destruct (String.eqb y part); [|discriminate].
      exact (Hrest _ _ Hma Hmb).
    + destruct (String.eqb x part); [|discriminate].
      exact (Hrest _ _ Hma Hmb).
    + destruct (String.eqb_spec x part) as [->|]; [|discriminate].
      destruct (String.eqb_spec y part) as [->|]; [|discriminate].
      rewrite String.eqb_refl. exact (Hrest _ _ Hma Hmb).
Qed.

Lemma matchPath_overlap (p1 p2 pathname : string) :
  Router.matchPath p1 pathname <> None ->
  Router.matchPath p2 pathname <> None ->
  partsOverlap (split "/" p1) (split "/" p2) = true.
Proof.
  unfold Router.matchPath. intros H1 H2.
  destruct (Nat.eqb_spec (List.length (split "/" p1))
                         (List.length (split "/" pathname))) as [E1|];
    [|now elim H1].
  destruct (Nat.eqb_spec (List.length (split "/" p2))
                         (List.length (split "/" pathname))) as [E2|];
    [|now elim H2].
  cbn [negb] in *.
  destruct (Router.matchParts (split "/" p1) _ []) eqn:M1; [|now elim H1].
  destruct (Router.matchParts (split "/" p2) _ []) eqn:M2; [|now elim H2].
  exact (matchParts_overlap _ _ _ _ _ _ _ E1 E2 M1 M2).
Qed.

Lemma noOverlap_split (before : list Router.Route) (r1 : Router.Route)
      (between : list Router.Route) (r2 : Router.Route)
      (after : list Router.Route) :
  noOverlap (before ++ r1 :: between ++ r2 :: after)%list = true ->
  routesOverlap r1 r2 = false.
Proof.
  induction before as [|r before IH]; cbn [app noOverlap]; intros H;
    apply andb_true_iff in H as [H1 H2].
  - rewrite forallb_app in H1. apply andb_true_iff in H1 as [_ H1].
    cbn [forallb] in H1. apply andb_true_iff in H1 as [H1 _].
    now apply negb_true_iff in H1.
  - exact (IH H2).
Qed.

(** X24.  The routing table is unambiguous: when a route matches a
    request, no route behind it in the table with the same method matches
    it, so that the order of the routes decides nothing. *)
Theorem routes_never_overlap
        (before : list Router.Route) (r1 : Router.Route)
        (between : list Router.Route) (r2 : Router.Route)
        (after : list Router.Route) (requestMethod pathname : string) :
  Router.routes = (before ++ r1 :: between ++ r2 :: after)%list ->
  Router.method r1 = requestMethod ->
  Router.method r2 = requestMethod ->
  Router.matchPath (Router.path r1) pathname <> None ->
  Router.matchPath (Router.path r2) pathname = None.
Proof.
  intros Htable Hm1 Hm2 Hmatch.
  assert (Hno : noOverlap Router.routes = true) by (vm_compute; reflexivity).
  rewrite Htable in Hno. apply noOverlap_split in Hno.
  unfold routesOverlap in Hno. rewrite Hm1, Hm2, String.eqb_refl in Hno.
  cbn [andb] in Hno.
  destruct (Router.matchPath (Router.path r2) pathname) eqn:E; [|reflexivity].
  rewrite (matchPath_overlap (Router.path r1) (Router.path r2) pathname)
    in Hno; [discriminate | exact Hmatch | now rewrite E].
Qed.

Lemma routes_never_overlap_witness :
  Router.matchPath "/api/ical/:hash/info" "/api/ical/3f9a1c0b7d2e4f56" = None.
Proof.
  apply (routes_never_overlap
           (firstn 11 Router.routes)
           (Router.mkRoute "GET" "/api/ical/:hash" Router.GenerateFeed)
           []
           (Router.mkRoute "GET" "/api/ical/:hash/info" Router.GetCalendarInfo)
           (skipn 13 Router.routes)
           "GET" "/api/ical/3f9a1c0b7d2e4f56").
  - reflexivity.
  - reflexivity.
  - reflexivity.
  - vm_compute. discriminate.
Defined.

Lemma split_absent (c : ascii) (s : string) :
  hasChar c s = false -> split c s = [s].
Proof.
  induction s as [|a s IH]; [reflexivity|].
  cbn [hasChar split]. intros H. apply orb_false_iff in H as [Ha Hs].
  now rewrite Ha, (IH Hs).
Qed.

Lemma handleFrom_parts (table : list Router.Route) (m pathname : string) :
  Router.handleFrom table m pathname
  = (fix go (table : list Router.Route) : Router.Dispatch :=
       match table with
       | [] => Router.NotFound
       | route :: rest =>
           if negb (String.eqb (Router.method route) m) then go rest
           else
             let routeParts := split "/" (Router.path route) in
             if negb (Nat.eqb (List.length routeParts)
                              (List.length (split "/" pathname)))
             then go rest
             else match Router.matchParts routeParts (split "/" pathname) [] with
                  | Some params => Router.Call (Router.handler route) params
                  | None => go rest
                  end
       end) table.
Proof.
  induction table as [|route rest IH]; [reflexivity|].
  cbn [Router.handleFrom]. rewrite IH. unfold Router.matchPath.
  destruct (negb (String.eqb (Router.method route) m)); [reflexivity|].
  cbv zeta.
  destruct (negb (Nat.eqb _ _)); reflexivity.
Qed.

(** X25.  A request [GET /api/ical/<hash>] is handled by the feed route
    and a request [POST /api/events/<hash>] by the create route, each with
    the text behind the last slash as the parameter [hash], whatever that
    text is (the empty text included). *)
Theorem handle_calendar_routes (hash : string) :
  hasChar "/" hash = false ->
  Router.handle "GET" ("/api/ical/" ++ hash)
  = Router.Call Router.GenerateFeed [ ("hash", hash) ]
  /\ Router.handle "POST" ("/api/events/" ++ hash)
     = Router.Call Router.CreateEvent [ ("hash", hash) ].
Proof.
  intros H. pose proof (split_absent "/" hash H) as Hs.
  assert (H1 : split "/" ("/api/ical/" ++ hash) = [""; "api"; "ical"; hash]).
  { cbn [append split Ascii.eqb Bool.eqb]. now rewrite Hs. }
  assert (H2 : split "/" ("/api/events/" ++ hash)
               = [""; "api"; "events"; hash]).
  { cbn [append split Ascii.eqb Bool.eqb]. now rewrite Hs. }
  unfold Router.handle. rewrite !handleFrom_parts, H1, H2.
  split; reflexivity.
Qed.

Lemma handle_calendar_routes_witness :
  Router.handle "GET" ("/api/ical/" ++ sampleHash)
  = Router.Call Router.GenerateFeed [ ("hash", sampleHash) ]
  /\ Router.handle "POST" ("/api/events/" ++ sampleHash)
     = Router.Call Router.CreateEvent [ ("hash", sampleHash) ].
Proof. apply (handle_calendar_routes sampleHash). reflexivity. Defined.

(* ================================================================== *)
(** ** Events grouped by month *)
(* ================================================================== *)

Section KeyedTable.
Context {A : Type}.

Lemma ownGet_set_other (props : list (string * A)) (key k : string) (v : A) :
  k <> key ->
  JSObject.ownGet (JSObject.set props key v) k = JSObject.ownGet props k.
Proof.
  intros Hne. induction props as [|[k' w] rest IH];
    cbn [JSObject.set JSObject.ownGet].
  - destruct (String.eqb_spec key k); [congruence | reflexivity].
  - destruct (String.eqb_spec k' key) as [->|]; cbn [JSObject.ownGet].
    + destruct (String.eqb_spec key k); [congruence | reflexivity].
    + now rewrite IH.
Qed.

Lemma In_ownGet_NoDup (props : list (string * A)) (k : string) (v : A) :
  NoDup (map fst props) -> In (k, v) props ->
  JSObject.ownGet props k = Some v.
Proof.
  induction props as [|[k' w] rest IH]; [intros _ []|].
  cbn [map fst JSObject.ownGet]. intros Hnd [H|H].
  - injection H as -> ->. now rewrite String.eqb_refl.
  - inversion Hnd as [|? ? Hnotin Hrest]; subst.
    destruct (String.eqb_spec k' k) as [->|]; [|now apply IH].
    elim Hnotin. change k with (fst (k, v)). now apply in_map.
Qed.

Lemma set_table_keys (props : list (string * A)) (key : string) (v : A) :
  map fst (JSObject.set props key v)
  = match JSObject.ownGet props key with
    | Some _ => map fst props
    | None => (map fst props ++ [key])%list
    end.
Proof.
  induction props as [|[k w] rest IH]; [reflexivity|].
  cbn [JSObject.set JSObject.ownGet map fst].
  destruct (String.eqb k key); cbn [map fst]; [reflexivity|].
  rewrite IH. now destruct (JSObject.ownGet rest key).
Qed.

Lemma ownGet_None_keys (props : list (string * A)) (key : string) :
  JSObject.ownGet props key = None -> ~ In key (map fst props).
Proof.
  induction props as [|[k w] rest IH]; [intros _ []|].
  cbn [JSObject.ownGet map fst].
  destruct (String.eqb_spec k key); [discriminate|].
  intros H [E|Hin]; [congruence | exact (IH H Hin)].
Qed.

Lemma set_table_NoDup (props : list (string * A)) (key : string) (v : A) :
  NoDup (map fst props) -> NoDup (map fst (JSObject.set props key v)).
Proof.
  intros H. rewrite set_table_keys.
  destruct (JSObject.ownGet props key) eqn:E; [exact H|].
  apply NoDup_app; [exact H | repeat constructor; intros [] | ].
  intros k Hin [Ek|[]]. subst k. exact (ownGet_None_keys props key E Hin).
Qed.

End KeyedTable.

Lemma totalCount_set (grouped : list (string * MonthGroup)) (key : string)
      (g : MonthGroup) :
  totalCount (map snd (JSObject.set grouped key g))
  = totalCount (map snd grouped) + group_count g
    - match JSObject.ownGet grouped key with
      | Some old => group_count old
      | None => 0
      end.
Proof.
  induction grouped as [|[k w] rest IH];
    cbn [JSObject.set JSObject.ownGet map snd totalCount]; [lia|].
  destruct (String.eqb k key); cbn [map snd totalCount]; [lia|].
  rewrite IH. lia.
Qed.

Lemma eventsOfKey_app (k : string) (done : list MonthRow) (row : MonthRow) :
  eventsOfKey k (done ++ [row])%list
  = (eventsOfKey k done
     ++ if String.eqb (monthKey (row_year row) (row_month row)) k
        then [row_event row] else [])%list.
Proof.
  unfold eventsOfKey. rewrite filter_app, map_app. cbn [filter].
  now destruct (String.eqb _ k).
Qed.

Lemma groupRow_update (grouped : list (string * MonthGroup))
      (done : list MonthRow) (row : MonthRow) (g : MonthGroup) :
  let key := monthKey (row_year row) (row_month row) in
  JSObject.ownGet grouped key = Some g ->
  key = monthKey (group_year g) (group_month g) ->
  group_events g = eventsOfKey key done ->
  group_count g = Z.of_nat (List.length (group_events g)) ->
  groupedFor grouped done \/
  ((forall k g', k <> key -> JSObject.ownGet grouped k = Some g' ->
                 k = monthKey (group_year g') (group_month g')
                 /\ group_events g' = eventsOfKey k done
                 /\ group_count g' = Z.of_nat (List.length (group_events g'))
                 /\ group_events g' <> [])
   /\ (forall k, JSObject.ownGet grouped k = None -> eventsOfKey k done = [])
   /\ NoDup (map fst grouped)
   /\ totalCount (map snd grouped) - group_count g
      = Z.of_nat (List.length done) - Z.of_nat (List.length (group_events g))) ->
  groupedFor
    (JSObject.set grouped key
       (mkMonthGroup (group_year g) (group_month g) (group_count g + 1)
                     (group_events g ++ [row_event row])%list))
    (done ++ [row])%list.
Proof.
  cbv zeta. set (key := monthKey (row_year row) (row_month row)).
  intros Hget Hkey Hev Hcount Hinv.
  assert (Hother : (forall k g', k <> key -> JSObject.ownGet grouped k = Some g' ->
                 k = monthKey (group_year g') (group_month g')
                 /\ group_events g' = eventsOfKey k done
                 /\ group_count g' = Z.of_nat (List.length (group_events g'))
                 /\ group_events g' <> [])
   /\ (forall k, JSObject.ownGet grouped k = None -> eventsOfKey k done = [])
   /\ NoDup (map fst grouped)
   /\ totalCount (map snd grouped) - group_count g
      = Z.of_nat (List.length done) - Z.of_nat (List.length (group_events g))).
  { destruct Hinv as [(H1 & H2 & H3 & H4) | H]; [|exact H].
    split; [intros k g' _ Hk; exact (H1 k g' Hk)|].
    split; [exact H2|]. split; [exact H3|]. lia. }
  clear Hinv. destruct Hother as (H1 & H2 & H3 & H4).
  split; [|split; [|split]].
  - intros k g' Hk. destruct (String.eqb_spec k key) as [->|Hne].
    + rewrite ownGet_set_same in Hk. injection Hk as <-.
      cbn [group_year group_month group_count group_events].
      split; [exact Hkey|]. rewrite eventsOfKey_app. fold key.
      rewrite String.eqb_refl, <- Hev.
      split; [reflexivity|]. split.
      * rewrite length_app. cbn [List.length]. lia.
      * now destruct (group_events g).
    + rewrite ownGet_set_other in Hk by exact Hne.
      destruct (H1 k g' Hne Hk) as (E1 & E2 & E3 & E4).
      rewrite eventsOfKey_app. fold key.
      destruct (String.eqb_spec key k) as [E|_]; [now elim Hne|].
      rewrite app_nil_r. auto.
  - intros k Hk. destruct (String.eqb_spec k key) as [->|Hne].
    + rewrite ownGet_set_same in Hk. discriminate.
    + rewrite ownGet_set_other in Hk by exact Hne.
      rewrite eventsOfKey_app, (H2 k Hk). fold key.
      destruct (String.eqb_spec key k) as [E|_]; [now elim Hne | reflexivity].
  - now apply set_table_NoDup.
  - rewrite totalCount_set, Hget.
    cbn [group_count]. rewrite length_app. cbn [List.length]. lia.
Qed.

Lemma groupRow_keeps (grouped : list (string * MonthGroup))
      (done : list MonthRow) (row : MonthRow) :
  groupedFor grouped done ->
  groupedFor (groupRow grouped row) (done ++ [row])%list.
Proof.
  intros Hinv. unfold groupRow.
  set (key := monthKey (row_year row) (row_month row)).
  destruct (JSObject.ownGet grouped key) as [g|] eqn:Hget.
  - rewrite Hget. destruct Hinv as (H1 & H2 & H3 & H4).
    destruct (H1 key g Hget) as (E1 & E2 & E3 & E4).
    apply (groupRow_update grouped done row g Hget E1 E2 E3).
    left. exact (conj H1 (conj H2 (conj H3 H4))).
  - rewrite ownGet_set_same. destruct Hinv as (H1 & H2 & H3 & H4).
    set (g0 := mkMonthGroup (row_year row) (row_month row) 0 []).
    apply (groupRow_update (JSObject.set grouped key g0) done row g0).
    + apply ownGet_set_same.
    + reflexivity.
    + cbn [g0 group_events]. symmetry. exact (H2 key Hget).
    + reflexivity.
    + right. split; [|split; [|split]].
      * intros k g' Hne Hk. rewrite ownGet_set_other in Hk by exact Hne.
        exact (H1 k g' Hk).
      * intros k Hk. destruct (String.eqb_spec k key) as [->|Hne].
        -- rewrite ownGet_set_same in Hk. discriminate.
        -- rewrite ownGet_set_other in Hk by exact Hne. exact (H2 k Hk).
      * now apply set_table_NoDup.
      * rewrite totalCount_set, Hget. cbn [g0 group_count group_events List.length].
        lia.
Qed.

Lemma groupRows_keep (rows done : list MonthRow)
      (grouped : list (string * MonthGroup)) :
  groupedFor grouped done ->
  groupedFor (fold_left groupRow rows grouped) (done ++ rows)%list.
Proof.
  revert done grouped. induction rows as [|row rows IH]; intros done grouped H.
  - now rewrite app_nil_r.
  - cbn [fold_left]. replace (done ++ row :: rows)%list
      with ((done ++ [row]) ++ rows)%list by now rewrite <- app_assoc.
    apply IH, groupRow_keeps, H.
Qed.

Section InsertionSort.
Context {A : Type} (cmp : A -> A -> comparison).
Hypothesis cmp_total : forall a b, cmp a b = Gt -> cmp b a <> Gt.

Lemma insertSorted_Permutation (x : A) (l : list A) :
  Permutation (insertSorted cmp x l) (x :: l).
Proof.
  induction l as [|y l IH]; [reflexivity|].
  cbn [insertSorted]. destruct (cmp x y); try reflexivity.
  rewrite IH. apply perm_swap.
Qed.

Lemma sortStable_Permutation (l : list A) : Permutation (sortStable cmp l) l.
Proof.
  induction l as [|x l IH]; [reflexivity|].
  cbn [sortStable]. rewrite insertSorted_Permutation. now constructor.
Qed.

Lemma insertSorted_Sorted (x : A) (l : list A) :
  Sorted (fun a b => cmp a b <> Gt) l ->
  Sorted (fun a b => cmp a b <> Gt) (insertSorted cmp x l).
Proof.
  induction l as [|y l IH]; intros Hs.
  - repeat constructor.
  - cbn [insertSorted]. inversion Hs as [|? ? Hl Hhd]; subst.
    destruct (cmp x y) eqn:E.
    + constructor; [exact Hs|]. constructor. congruence.
    + constructor; [exact Hs|]. constructor. congruence.
    + constructor; [now apply IH|].
      destruct l as [|z l]; cbn [insertSorted].
      * constructor. now apply cmp_total.
      * inversion Hhd; subst. destruct (cmp x z); constructor;
          try assumption; now apply cmp_total.
Qed.

Lemma sortStable_Sorted (l : list A) :
  Sorted (fun a b => cmp a b <> Gt) (sortStable cmp l).
Proof.
  induction l as [|x l IH]; [constructor|].
  cbn [sortStable]. now apply insertSorted_Sorted.
Qed.

End InsertionSort.

Lemma compareGroups_total (a b : MonthGroup) :
  compareGroups a b = Gt -> compareGroups b a <> Gt.
Proof.
  unfold compareGroups.
  rewrite (Z.eqb_sym (group_year b) (group_year a)).
  destruct (Z.eqb_spec (group_year a) (group_year b)); cbn [negb];
    rewrite !Z.compare_gt_iff; lia.
Qed.

Lemma totalCount_Permutation (l l' : list MonthGroup) :
  Permutation l l' -> totalCount l = totalCount l'.
Proof.
  induction 1; cbn [totalCount]; lia.
Qed.

(** X26.  [getEventsByMonth] returns one group for each month that has
    events: the groups are in the order of year and month, each holds
    the events of its month in the order of the rows and counts them, no
    group is empty and the counts add up to the number of rows. *)
Theorem getEventsByMonth_groups (rows : list MonthRow) :
  let groups := getEventsByMonth rows in
  totalCount groups = Z.of_nat (List.length rows)
  /\ Forall (fun g =>
               group_events g
               = eventsOfKey (monthKey (group_year g) (group_month g)) rows
               /\ group_count g = Z.of_nat (List.length (group_events g))
               /\ group_events g <> [])
            groups
  /\ Sorted (fun a b => compareGroups a b <> Gt) groups
  /\ NoDup (map (fun g => monthKey (group_year g) (group_month g)) groups).
Proof.
  cbv zeta. unfold getEventsByMonth.
  assert (H0 : groupedFor [] []).
  { split; [intros k g H; discriminate|]. split; [reflexivity|].
    split; [constructor | reflexivity]. }
  pose proof (groupRows_keep rows [] [] H0) as (H1 & H2 & H3 & H4).
  cbn [app] in *. set (grouped := fold_left groupRow rows []) in *.
  pose proof (sortStable_Permutation compareGroups (map snd grouped)) as Hperm.
  assert (Hall : forall k g, In (k, g) grouped ->
                   k = monthKey (group_year g) (group_month g)
                   /\ group_events g = eventsOfKey k rows
                   /\ group_count g = Z.of_nat (List.length (group_events g))
                   /\ group_events g <> []).
  { intros k g Hin. apply H1. now apply In_ownGet_NoDup. }
  split; [|split; [|split]].
  - now rewrite (totalCount_Permutation _ _ Hperm).
  - apply (Permutation_Forall (Permutation_sym Hperm)).
    apply Forall_forall. intros g Hin.
    apply in_map_iff in Hin as ([k g'] & <- & Hin). cbn [snd].
    destruct (Hall k g' Hin) as (E1 & E2 & E3 & E4). rewrite <- E1. auto.
  - apply sortStable_Sorted, compareGroups_total.
  - apply (Permutation_NoDup
             (Permutation_map _ (Permutation_sym Hperm))).
    rewrite map_map.
    replace (map (fun x => monthKey (group_year (snd x)) (group_month (snd x)))
                 grouped) with (map fst grouped); [exact H3|].
    apply map_ext_in. intros [k g] Hin. cbn [fst snd].
    now destruct (Hall k g Hin) as (E1 & _).
Qed.
